(** * whale-ibkr-bridge: the alert scanner of [bot.py]

    A shallow embedding of [fetch_alerts], [filter_alerts] and
    [simulate_trade_execution] and the properties of the alert pipeline.

    Python objects are modelled as they are used by the program:
    - a [float] is an IEEE-754 binary64 number ([spec_float] with precision
      53 and maximal exponent 1024), with correctly rounded operations;
    - an [int] is a [Z];
    - a [dict] is a heap object, reached through a reference, so that the
      assignments [alert["days_to_expiry"] = ...] are seen by every holder
      of the record;
    - an exception is a value of [exn], threaded through a state and
      error monad. *)

From Stdlib Require Import ZArith Lia Bool Ascii.
From Stdlib Require Import Floats.SpecFloat.
From stdpp Require Import gmap strings list fin_maps.

Set Warnings "-register-all".

(** ** Binary64 floating point numbers *)

Module Float64.
Local Open Scope Z_scope.

Definition prec : Z := 53.
Definition emax : Z := 1024.

Definition float := spec_float.

Definition fmul : float -> float -> float := SFmul prec emax.
Definition fdiv : float -> float -> float := SFdiv prec emax.

(** [x < y], [x <= y], [x > y], [x >= y] on floats: false as soon
    as one side is a NaN. *)
Definition flt (x y : float) : bool := SFltb x y.
Definition fle (x y : float) : bool := SFleb x y.
Definition fgt (x y : float) : bool := SFltb y x.
Definition fge (x y : float) : bool := SFleb y x.

(** [int.__float__]: the nearest float, ties to even; [None] stands for
    the [OverflowError] of an int too large to convert. *)
Definition of_Z (n : Z) : option float :=
  match binary_normalize prec emax n 0 false with
  | S754_infinity _ => None
  | x => Some x
  end.

(** Python compares a float with an int by their exact values. *)
Definition compare_Z (x : float) (n : Z) : option comparison :=
  match x with
  | S754_nan => None
  | S754_infinity s => Some (if s then Lt else Gt)
  | S754_zero _ => Some (0 ?= n)
  | S754_finite s m e =>
      let v := cond_Zopp s (Zpos m) in
      Some (if 0 <=? e then v * 2 ^ e ?= n else v ?= n * 2 ^ (- e))
  end.

Definition fge_Z (x : float) (n : Z) : bool :=
  match compare_Z x n with
  | Some (Gt | Eq) => true
  | _ => false
  end.

Definition fgt_Z (x : float) (n : Z) : bool :=
  match compare_Z x n with
  | Some Gt => true
  | _ => false
  end.

Definition fle_Z (x : float) (n : Z) : bool :=
  match compare_Z x n with
  | Some (Lt | Eq) => true
  | _ => false
  end.

(** The float nearest to [m * 10 ^ e10] (ties to even), with the sign
    [neg]: the value of a decimal literal, and of the decimal string that
    [round] converts back to a float. *)
Definition of_decimal (neg : bool) (m : Z) (e10 : Z) : float :=
  match m with
  | Zpos p =>
      if 0 <=? e10 then
        binary_normalize prec emax (cond_Zopp neg (Zpos p * 10 ^ e10)) 0 neg
      else
        let '(q, e, l) :=
          SFdiv_core_binary prec emax (Zpos p) 0 (10 ^ (- e10)) 0 in
        binary_round_aux prec emax neg q e l
  | _ => S754_zero neg
  end.

(** The integer nearest to [n / d], ties to even ([0 < d]). *)
Definition div_half_even (n d : Z) : Z :=
  let q := n / d in
  let r := n mod d in
  match 2 * r ?= d with
  | Lt => q
  | Gt => q + 1
  | Eq => if Z.even q then q else q + 1
  end.

(** [round(x, 2)] on a float: the exact value of [x] is rounded to two
    decimals, ties to even, and that decimal is converted back to the
    nearest float.  Infinities and NaN round to themselves. *)
Definition round2 (x : float) : float :=
  match x with
  | S754_finite s m e =>
      let hundredths :=
        if 0 <=? e then Zpos m * 100 * 2 ^ e
        else div_half_even (Zpos m * 100) (2 ^ (- e)) in
      of_decimal s hundredths (-2)
  | _ => x
  end.

(** *** Notions the proofs about rounding use *)

(** A float is valid when its mantissa and exponent are the canonical
    ones of binary64: the floats a Python run holds are valid. *)
Definition valid (x : float) : Prop := valid_binary prec emax x = true.

Definition is_finite (x : float) : bool :=
  match x with
  | S754_zero _ | S754_finite _ _ _ => true
  | _ => false
  end.

Definition is_zero (x : float) : bool :=
  match x with
  | S754_zero _ => true
  | _ => false
  end.

(** Not a NaN, and at most zero, or at least zero. *)
Definition nonpositive (x : float) : bool :=
  match x with
  | S754_zero _ | S754_finite true _ _ | S754_infinity true => true
  | _ => false
  end.

Definition nonnegative (x : float) : bool :=
  match x with
  | S754_zero _ | S754_finite false _ _ | S754_infinity false => true
  | _ => false
  end.

(** Where the remainder [r] of a division by [d] lies in [[0, d)]. *)
Definition location_of (r d : Z) : location :=
  if r =? 0 then loc_Exact else loc_Inexact (2 * r ?= d).

(** The record after [j] shifts of [M]: the quotient by [2 ^ j] and the
    place of the remainder. *)
Definition shifted (M : Z) (j : Z) (mrs : shr_record) : Prop :=
  shr_m mrs = M / 2 ^ j
  /\ loc_of_shr_record mrs = location_of (M mod 2 ^ j) (2 ^ j).

(** The float with the sign [s] and the mantissa [q] at the exponent
    [e], for [0 <= q <= 2 ^ 53]: a mantissa [2 ^ 53] is carried to the
    next exponent, and an exponent above 971 overflows. *)
Definition pack (s : bool) (q e : Z) : float :=
  match q with
  | Zpos m =>
      if q =? 2 ^ 53 then
        if e + 1 <=? 971 then S754_finite s 4503599627370496 (e + 1)
        else S754_infinity s
      else if e <=? 971 then S754_finite s m e else S754_infinity s
  | _ => S754_zero s
  end.

End Float64.

(** ** Calendar dates: [datetime], [strptime] and the subtraction

    A [str] is held as the bytes of its UTF-8 encoding, a lone surrogate
    (which an escape of a JSON document can give) being encoded like
    every other code point of its range. *)

Module Datetime.
Local Open Scope Z_scope.

(** The Unicode database of the interpreter, as far as the program
    depends on it: the value of a character that is a decimal digit
    (category Nd).  These are the characters that [\d] matches and that
    [int] converts; which ones there are depends on the version. *)
Class UnicodeData := unicode_decimal : Z -> option Z.

Record datetime := mkdatetime {
  year : Z; month : Z; day : Z;
  hour : Z; minute : Z; second : Z; microsecond : Z
}.

Definition is_leap (y : Z) : bool :=
  (y mod 4 =? 0) && (negb (y mod 100 =? 0) || (y mod 400 =? 0)).

Definition days_in_month (y m : Z) : Z :=
  if m =? 2 then (if is_leap y then 29 else 28)
  else if (m =? 4) || (m =? 6) || (m =? 9) || (m =? 11) then 30
  else 31.

Definition days_before_year (y : Z) : Z :=
  let y' := y - 1 in y' * 365 + y' / 4 - y' / 100 + y' / 400.

Definition days_before_month (y m : Z) : Z :=
  nth (Z.to_nat m)
      [0; 0; 31; 59; 90; 120; 151; 181; 212; 243; 273; 304; 334] 0
  + (if (2 <? m) && is_leap y then 1 else 0).

(** [date.toordinal()]: 1 for 0001-01-01. *)
Definition toordinal (t : datetime) : Z :=
  days_before_year (year t) + days_before_month (year t) (month t) + day t.

(** [(a - b).days]: the difference is normalised so that the seconds and
    microseconds are non-negative, which floors the number of days. *)
Definition sub_days (a b : datetime) : Z :=
  let days := toordinal a - toordinal b in
  let secs := (second a + minute a * 60 + hour a * 3600)
              - (second b + minute b * 60 + hour b * 3600) in
  let us := microsecond a - microsecond b in
  days + (secs + us / 1000000) / 86400.

(** *** The characters of a string *)

Definition byte (c : Ascii.ascii) : Z := Z.of_N (Ascii.N_of_ascii c).

(** A continuation byte [10xxxxxx] at the head of [s]: its six bits. *)
Definition continuation (s : string) : option (Z * string) :=
  match s with
  | String c rest =>
      let b := byte c in
      if (128 <=? b) && (b <=? 191) then Some (b - 128, rest) else None
  | EmptyString => None
  end.

(** The first character of [s], as its code point, and what follows it.
    The encoding of a [str] is well formed; a byte that starts no
    sequence stands for a character of its own, which is no digit. *)
Definition next_char (s : string) : option (Z * string) :=
  match s with
  | EmptyString => None
  | String c0 rest =>
      let b0 := byte c0 in
      let ill := Some (- b0, rest) in
      if b0 <? 128 then Some (b0, rest)
      else if (192 <=? b0) && (b0 <=? 223) then
        match continuation rest with
        | Some (x1, r1) => Some ((b0 - 192) * 64 + x1, r1)
        | None => ill
        end
      else if (224 <=? b0) && (b0 <=? 239) then
        match continuation rest with
        | Some (x1, r1) =>
            match continuation r1 with
            | Some (x2, r2) => Some (((b0 - 224) * 64 + x1) * 64 + x2, r2)
            | None => ill
            end
        | None => ill
        end
      else if (240 <=? b0) && (b0 <=? 247) then
        match continuation rest with
        | Some (x1, r1) =>
            match continuation r1 with
            | Some (x2, r2) =>
                match continuation r2 with
                | Some (x3, r3) =>
                    Some ((((b0 - 240) * 64 + x1) * 64 + x2) * 64 + x3, r3)
                | None => ill
                end
            | None => ill
            end
        | None => ill
        end
      else ill
  end.

(** The class [[lo-hi]] of the regular expressions, for digits [lo] and
    [hi]: it holds ASCII digits only. *)
Definition in_range (lo hi : Z) (c : Z) : option Z :=
  let n := c - 48 in
  if (lo <=? n) && (n <=? hi) then Some n else None.

(** The first alternative that matches, as the regular expression engine
    tries them. *)
Fixpoint first_match {A} (alts : list (option A)) : option A :=
  match alts with
  | [] => None
  | Some r :: _ => Some r
  | None :: rest => first_match rest
  end.

(** A character of the class [[lo-hi]], then the continuation [k] on its
    value and on the rest. *)
Definition char_class {A} (lo hi : Z) (s : string)
    (k : Z -> string -> option A) : option A :=
  match next_char s with
  | Some (c, rest) =>
      match in_range lo hi c with
      | Some n => k n rest
      | None => None
      end
  | None => None
  end.

Definition literal {A} (c : Z) (s : string) (k : string -> option A)
    : option A :=
  match next_char s with
  | Some (c', rest) => if c =? c' then k rest else None
  | None => None
  end.

Section Parsing.

Context {unicode : UnicodeData}.

(** [\d]: a decimal digit of any script, with its value. *)
Definition digit (c : Z) : option Z :=
  if (48 <=? c) && (c <=? 57) then Some (c - 48)
  else if c <? 128 then None
  else
    match unicode_decimal c with
    | Some n => if (0 <=? n) && (n <=? 9) then Some n else None
    | None => None
    end.

Definition any_digit {A} (s : string) (k : Z -> string -> option A)
    : option A :=
  match next_char s with
  | Some (c, rest) =>
      match digit c with
      | Some n => k n rest
      | None => None
      end
  | None => None
  end.

(** [%m] is [1[0-2]|0[1-9]|[1-9]]. *)
Definition re_month {A} (s : string) (k : Z -> string -> option A) : option A :=
  first_match
    [char_class 1 1 s (fun a r => char_class 0 2 r (fun b r' => k (10 * a + b) r'));
     char_class 0 0 s (fun a r => char_class 1 9 r (fun b r' => k (10 * a + b) r'));
     char_class 1 9 s k].

(** [%d] is [3[0-1]|[1-2]\d|0[1-9]|[1-9]| [1-9]]. *)
Definition re_day {A} (s : string) (k : Z -> string -> option A) : option A :=
  first_match
    [char_class 3 3 s (fun a r => char_class 0 1 r (fun b r' => k (10 * a + b) r'));
     char_class 1 2 s (fun a r => any_digit r (fun b r' => k (10 * a + b) r'));
     char_class 0 0 s (fun a r => char_class 1 9 r (fun b r' => k (10 * a + b) r'));
     char_class 1 9 s k;
     literal 32 s (fun r => char_class 1 9 r k)].

(** [%Y] is [\d\d\d\d]. *)
Definition re_year {A} (s : string) (k : Z -> string -> option A) : option A :=
  any_digit s (fun a r1 =>
  any_digit r1 (fun b r2 =>
  any_digit r2 (fun c r3 =>
  any_digit r3 (fun d r4 => k (1000 * a + 100 * b + 10 * c + d) r4)))).

(** The match of ["%Y-%m-%d"] at the start of [s]: the fields and what
    is left of the string. *)
Definition re_match (s : string) : option (Z * Z * Z * string) :=
  re_year s (fun y r1 =>
  literal 45 r1 (fun r2 =>
  re_month r2 (fun m r3 =>
  literal 45 r3 (fun r4 =>
  re_day r4 (fun d r5 => Some (y, m, d, r5)))))).

(** [datetime.strptime(s, "%Y-%m-%d")]; [None] stands for its
    [ValueError]: no match, unconverted data left, or no such day. *)
Definition strptime (s : string) : option datetime :=
  match re_match s with
  | Some (y, m, d, EmptyString) =>
      if (1 <=? y) && (d <=? days_in_month y m)
      then Some (mkdatetime y m d 0 0 0 0)
      else None
  | _ => None
  end.

End Parsing.

End Datetime.

Import Float64 Datetime.
Local Open Scope Z_scope.

(** ** Python values, the heap and the monad of effects *)

Definition loc := nat.

(** The values a decoded JSON document is made of.  A [dict] is a
    reference into the heap; the other values are immutable. *)
Inductive pyval :=
  | PyNone
  | PyBool (b : bool)
  | PyInt (n : Z)
  | PyFloat (x : float)
  | PyStr (s : string)
  | PyList (items : list pyval)
  | PyRef (a : loc).

Abbreviation pydict := (gmap string pyval).

Inductive exn :=
  | KeyError | TypeError | ValueError | AttributeError | OverflowError
  | UnicodeEncodeError
  | RequestException
  | SystemError.

(** The state a run goes through: the dict objects, the number of times
    the clock was read and the number of random draws made. *)
Record world := mkworld {
  heap : gmap loc pydict;
  ticks : nat;
  draws : nat
}.

Definition py (A : Type) : Type := world -> (exn + A) * world.

Definition ret {A} (x : A) : py A := fun w => (inr x, w).
Definition raise {A} (e : exn) : py A := fun w => (inl e, w).
Definition bind {A B} (m : py A) (k : A -> py B) : py B :=
  fun w =>
    match m w with
    | (inr x, w') => k x w'
    | (inl e, w') => (inl e, w')
    end.

(** [try: body except Exception: handler]: what [body] did to the state
    before it raised stays done. *)
Definition try_except {A} (body handler : py A) : py A :=
  fun w =>
    match body w with
    | (inl _, w') => handler w'
    | r => r
    end.

Notation "'let*' x ':=' m 'in' k" := (bind m (fun x => k))
  (at level 10, x pattern, m at level 100, k at level 200).

(** The dict behind a value: a [TypeError]-like failure [e] when the
    value is no dict.  A reference outside the heap does not occur in a
    run; it raises, which keeps every operation total. *)
Definition the_dict (e : exn) (obj : pyval) : py pydict :=
  fun w =>
    match obj with
    | PyRef a =>
        match heap w !! a with
        | Some d => (inr d, w)
        | None => (inl SystemError, w)
        end
    | _ => (inl e, w)
    end.

(** [obj[key]] for a string key. *)
Definition getitem (obj : pyval) (key : string) : py pyval :=
  let* d := the_dict TypeError obj in
  match d !! key with
  | Some v => ret v
  | None => raise KeyError
  end.

(** [obj.get(key, default)]. *)
Definition dict_get (obj : pyval) (key : string) (dflt : pyval) : py pyval :=
  let* d := the_dict AttributeError obj in
  ret (default dflt (d !! key)).

(** [key in obj], for the values a JSON document holds. *)
Definition contains (obj : pyval) (key : string) : py bool :=
  let* d := the_dict TypeError obj in
  ret (bool_decide (is_Some (d !! key))).

(** [obj[key] = v]. *)
Definition setitem (obj : pyval) (key : string) (v : pyval) : py unit :=
  fun w =>
    match obj with
    | PyRef a =>
        match heap w !! a with
        | Some d =>
            (inr tt, mkworld (<[a := <[key := v]> d]> (heap w)) (ticks w) (draws w))
        | None => (inl SystemError, w)
        end
    | _ => (inl TypeError, w)
    end.

(** A dict display [{...}]: a new object. *)
Definition new_dict (d : pydict) : py pyval :=
  fun w =>
    let a := fresh (dom (heap w)) in
    (inr (PyRef a), mkworld (<[a := d]> (heap w)) (ticks w) (draws w)).

(** A number as the filter computes with it: [vol_ratio] is a float or
    the int [0]. *)
Inductive number :=
  | NInt (n : Z)
  | NFloat (x : float).

(** [v >= c] for a float [c]. *)
Definition num_ge (v : number) (c : float) : bool :=
  match v with
  | NFloat x => fge x c
  | NInt n =>
      match compare_Z c n with
      | Some (Lt | Eq) => true
      | _ => false
      end
  end.

(** [round(v, 2)]: an int is its own rounding. *)
Definition py_round2 (v : number) : pyval :=
  match v with
  | NInt n => PyInt n
  | NFloat x => PyFloat (round2 x)
  end.

Section Bot.

(** The library around the program: the Unicode database, [float] on a
    string (its result, or [None] for the [ValueError]), the clock behind
    [datetime.now()], read for the [n]-th time, and the [n]-th draw of
    [random.uniform(a, b)]. *)
Context {unicode : UnicodeData}.
Variable str_to_float : string -> option float.
Variable clock : nat -> datetime.
Variable uniform : nat -> float -> float -> float.

(** [float(v)]. *)
Definition py_float (v : pyval) : exn + float :=
  match v with
  | PyFloat x => inr x
  | PyInt n =>
      match of_Z n with
      | Some x => inr x
      | None => inl OverflowError
      end
  | PyBool b => inr (if b then S754_finite false 4503599627370496 (-52)
                     else S754_zero false)
  | PyStr s =>
      match str_to_float s with
      | Some x => inr x
      | None => inl ValueError
      end
  | PyNone | PyList _ | PyRef _ => inl TypeError
  end.

Definition lift {A} (r : exn + A) : py A := fun w => (r, w).

(** [datetime.strptime(v, "%Y-%m-%d")]. *)
Definition py_strptime (v : pyval) : py datetime :=
  match v with
  | PyStr s =>
      match strptime s with
      | Some t => ret t
      | None => raise ValueError
      end
  | _ => raise TypeError
  end.

(** [datetime.now()]. *)
Definition datetime_now : py datetime :=
  fun w => (inr (clock (ticks w)), mkworld (heap w) (S (ticks w)) (draws w)).

(** [random.uniform(a, b)]. *)
Definition random_uniform (a b : float) : py float :=
  fun w => (inr (uniform (draws w) a b), mkworld (heap w) (ticks w) (S (draws w))).

(** *** The filter rules *)

Definition MIN_DAYS_TO_EXPIRY : Z := 30.
Definition MIN_AVERAGE_PRICE : Z := 5.
Definition MIN_PREMIUM : Z := 100000.
Definition VOLUME_MULTIPLIER : float := of_decimal false 15 (-1).

(** *** [filter_alerts] *)

(** [volume / open_interest if open_interest > 0 else 0]. *)
Definition vol_ratio_of (volume open_interest : float) : number :=
  if fgt_Z open_interest 0 then NFloat (fdiv volume open_interest) else NInt 0.

(** The four rules of the [if]. *)
Definition passes (days_to_expiry : Z) (avg_price premium : float)
    (vol_ratio : number) : bool :=
  (MIN_DAYS_TO_EXPIRY <=? days_to_expiry)
  && fge_Z avg_price MIN_AVERAGE_PRICE
  && fge_Z premium MIN_PREMIUM
  && num_ge vol_ratio VOLUME_MULTIPLIER.

(** The body of the [try] for one alert; [valid_alerts] is the list
    built so far. *)
Definition try_body (alert : pyval) (valid_alerts : list pyval)
    : py (list pyval) :=
  let* e := getitem alert "expiration" in
  let* expiry := py_strptime e in
  let* now := datetime_now in
  let days_to_expiry := sub_days expiry now in
  let* a := getitem alert "average_price" in
  let* avg_price := lift (py_float a) in
  let* p := getitem alert "premium" in
  let* premium := lift (py_float p) in
  let* v := dict_get alert "volume" (PyInt 0) in
  let* volume := lift (py_float v) in
  let* o := dict_get alert "open_interest" (PyInt 1) in
  let* open_interest := lift (py_float o) in
  let vol_ratio := vol_ratio_of volume open_interest in
  if passes days_to_expiry avg_price premium vol_ratio then
    let* _ := setitem alert "days_to_expiry" (PyInt days_to_expiry) in
    let* _ := setitem alert "volume_ratio" (py_round2 vol_ratio) in
    ret (valid_alerts ++ [alert])
  else ret valid_alerts.

(** The [for] loop: an alert whose body raises is skipped. *)
Fixpoint for_alerts (alerts : list pyval) (valid_alerts : list pyval)
    : py (list pyval) :=
  match alerts with
  | [] => ret valid_alerts
  | alert :: rest =>
      let* valid_alerts' :=
        try_except (try_body alert valid_alerts) (ret valid_alerts) in
      for_alerts rest valid_alerts'
  end.

Definition filter_alerts (alerts : list pyval) : py (list pyval) :=
  for_alerts alerts [].

(** *** [fetch_alerts] *)

(** What [requests.get] comes back with: it raises, or there is a
    response with a status code and a body.  [json] is the result of
    [response.json()], [None] when the body does not decode (the call
    raises); the dicts of a decoded body are in the heap of the world
    the request is made in. *)
Record response := mkresponse {
  status_code : Z;
  json : option pyval
}.

Inductive request_outcome :=
  | RequestRaises
  | RequestReturns (r : response).

Definition requests_get (o : request_outcome) : py response :=
  match o with
  | RequestRaises => raise RequestException
  | RequestReturns r => ret r
  end.

Definition response_json (r : response) : py pyval :=
  match json r with
  | Some data => ret data
  | None => raise ValueError
  end.

Definition isinstance_list (v : pyval) : bool :=
  match v with PyList _ => true | _ => false end.

Definition isinstance_dict (v : pyval) : bool :=
  match v with PyRef _ => true | _ => false end.

Definition str_dict (fields : list (string * pyval)) : pydict :=
  list_to_map fields.

Definition TSLA : pydict := str_dict
  [("ticker", PyStr "TSLA"); ("side", PyStr "CALL"); ("strike", PyInt 250);
   ("expiration", PyStr "2025-12-20");
   ("average_price", PyFloat (of_decimal false 512 (-2)));
   ("premium", PyInt 210000); ("volume", PyInt 500);
   ("open_interest", PyInt 200)]%string.

Definition NVDA : pydict := str_dict
  [("ticker", PyStr "NVDA"); ("side", PyStr "PUT"); ("strike", PyInt 400);
   ("expiration", PyStr "2025-11-15");
   ("average_price", PyFloat (of_decimal false 48 (-1)));
   ("premium", PyInt 150000); ("volume", PyInt 300);
   ("open_interest", PyInt 150)]%string.

Definition AAPL : pydict := str_dict
  [("ticker", PyStr "AAPL"); ("side", PyStr "CALL"); ("strike", PyInt 200);
   ("expiration", PyStr "2025-10-25");
   ("average_price", PyFloat (of_decimal false 21 (-1)));
   ("premium", PyInt 50000); ("volume", PyInt 100);
   ("open_interest", PyInt 200)]%string.

(** The dummy test data: three new dicts in a new list. *)
Definition dummy_data : py pyval :=
  let* tsla := new_dict TSLA in
  let* nvda := new_dict NVDA in
  let* aapl := new_dict AAPL in
  ret (PyList [tsla; nvda; aapl]).

(** The [try] block: [Some v] when it returns [v], [None] when it falls
    through to the dummy data. *)
Definition fetch_try (o : request_outcome) : py (option pyval) :=
  let* response := requests_get o in
  if status_code response =? 200 then
    let* data := response_json response in
    if isinstance_list data then ret (Some data)
    else if isinstance_dict data then
      let* has := contains data "chains" in
      if has : bool then
        let* chains := getitem data "chains" in
        ret (Some chains)
      else ret None
    else ret None
  else ret None.

Definition fetch_alerts (o : request_outcome) : py pyval :=
  let* returned := try_except (fetch_try o) (ret None) in
  match returned with
  | Some v => ret v
  | None => dummy_data
  end.

(** *** [simulate_trade_execution] *)

(** What the function prints. *)
Inductive printed :=
  | SimulatedTrade (ticker side strike expiration : pyval)
                   (simulated_price pnl : float)
  | LiveTrade (ticker : pyval).

(** The two assignments of the dry run: the simulated price and the
    PnL. *)
Definition simulated_fill (trade : pyval) : py (float * float) :=
  let* a := getitem trade "average_price" in
  let* avg_price := lift (py_float a) in
  let* u1 := random_uniform (of_decimal false 95 (-2))
                            (of_decimal false 105 (-2)) in
  let simulated_price := fmul avg_price u1 in
  let* u2 := random_uniform (of_decimal true 1 (-1))
                            (of_decimal false 2 (-1)) in
  let pnl := round2 (fmul u2 simulated_price) in
  ret (simulated_price, pnl).

Definition simulate_trade_execution (DRY_RUN : bool) (trade : pyval)
    : py printed :=
  if DRY_RUN then
    let* fill := simulated_fill trade in
    let* ticker := getitem trade "ticker" in
    let* side := getitem trade "side" in
    let* strike := getitem trade "strike" in
    let* expiration := getitem trade "expiration" in
    ret (SimulatedTrade ticker side strike expiration (fst fill) (snd fill))
  else
    let* ticker := getitem trade "ticker" in
    ret (LiveTrade ticker).

(** *** What one iteration does, read off the record

    The outcome of the [try] body depends on the record only through the
    five fields it reads.  The functions below state that outcome
    directly; [try_body_turn] and [for_alerts_turns] prove that the code
    above computes them. *)

Definition to_float (v : pyval) : option float :=
  match py_float v with
  | inr x => Some x
  | inl _ => None
  end.

(** The parsed [expiration], when there is one and it parses. *)
Definition expiry_of (d : pydict) : option datetime :=
  match d !! "expiration" with
  | Some (PyStr s) => strptime s
  | _ => None
  end.

(** The four numbers of the record, when they all convert. *)
Definition numbers_of (d : pydict) : option (float * float * float * float) :=
  avg_price ← d !! "average_price" ≫= to_float;
  premium ← d !! "premium" ≫= to_float;
  volume ← to_float (default (PyInt 0) (d !! "volume"));
  open_interest ← to_float (default (PyInt 1) (d !! "open_interest"));
  Some (avg_price, premium, volume, open_interest).

(** [Some (days_to_expiry, vol_ratio)] when the record qualifies at the
    time [now]; [None] when its body raises or a rule rejects it. *)
Definition judge (now : datetime) (d : pydict) : option (Z * number) :=
  expiry ← expiry_of d;
  '(avg_price, premium, volume, open_interest) ← numbers_of d;
  let days := sub_days expiry now in
  let ratio := vol_ratio_of volume open_interest in
  if passes days avg_price premium ratio then Some (days, ratio) else None.

(** The record after the two assignments. *)
Definition annotate (days : Z) (ratio : number) (d : pydict) : pydict :=
  <["volume_ratio" := py_round2 ratio]> (<["days_to_expiry" := PyInt days]> d).

(** One turn of the loop, as a function of the record. *)
Definition turn (alert : pyval) (valid_alerts : list pyval) (w : world)
    : list pyval * world :=
  match alert with
  | PyRef a =>
      match heap w !! a with
      | Some d =>
          match judge (clock (ticks w)) d with
          | Some (days, ratio) =>
              (valid_alerts ++ [alert],
               mkworld (<[a := annotate days ratio d]> (heap w))
                       (S (ticks w)) (draws w))
          | None =>
              (valid_alerts,
               mkworld (heap w)
                       (if expiry_of d is Some _ then S (ticks w) else ticks w)
                       (draws w))
          end
      | None => (valid_alerts, w)
      end
  | _ => (valid_alerts, w)
  end.

Fixpoint turns (alerts : list pyval) (valid_alerts : list pyval) (w : world)
    : list pyval * world :=
  match alerts with
  | [] => (valid_alerts, w)
  | alert :: rest =>
      turns rest (fst (turn alert valid_alerts w)) (snd (turn alert valid_alerts w))
  end.

(** What a run of the loop leaves of the dict at [a], for any clock:
    either the dict is not among the alerts kept and is as it was, or it
    is, it qualified at some reading of the clock, and it carries the two
    fields computed at that reading. *)
Definition kept_record (w w' : world) (kept : list pyval) (a : loc) : Prop :=
  ((PyRef a ∉ kept) /\ heap w' !! a = heap w !! a)
  \/ ((PyRef a ∈ kept) /\
      exists d n days ratio,
        heap w !! a = Some d /\ judge (clock n) d = Some (days, ratio) /\
        heap w' !! a = Some (annotate days ratio d)).

End Bot.

(** A record that differs from another in the two annotations only. *)
Definition same_but_annotations (d d' : pydict) : Prop :=
  forall k : string, k <> "days_to_expiry"%string -> k <> "volume_ratio"%string ->
    d' !! k = d !! k.

(** A malformed record: a dict whose expiration is a string that is no
    date, or one of whose four numbers does not convert. *)
Inductive malformed {unicode : UnicodeData}
    (str_to_float : string -> option float)
    (h : gmap loc pydict) : pyval -> Prop :=
  | malformed_date a d s :
      h !! a = Some d ->
      d !! "expiration" = Some (PyStr s) ->
      strptime s = None ->
      malformed str_to_float h (PyRef a)
  | malformed_number a d (k : string) v e :
      h !! a = Some d ->
      k ∈ ["average_price"; "premium"; "volume"; "open_interest"]%string ->
      d !! k = Some v ->
      py_float str_to_float v = inl e ->
      malformed str_to_float h (PyRef a).

(** *** The filter at a fixed time *)

(** The clock that reads [now] every time. *)
Definition always (now : datetime) : nat -> datetime := fun _ => now.

(** The alert is a dict of the heap that qualifies at [now]. *)
Definition qualifies {unicode : UnicodeData}
    (str_to_float : string -> option float) (now : datetime)
    (h : gmap loc pydict) (x : pyval) : bool :=
  match x with
  | PyRef a =>
      match h !! a with
      | Some d => bool_decide (is_Some (judge str_to_float now d))
      | None => false
      end
  | _ => false
  end.

(** The record after the filter has seen it. *)
Definition mark_at {unicode : UnicodeData}
    (str_to_float : string -> option float) (now : datetime)
    (d : pydict) : pydict :=
  match judge str_to_float now d with
  | Some (days, ratio) => annotate days ratio d
  | None => d
  end.

Definition mark {unicode : UnicodeData}
    (str_to_float : string -> option float) (now : datetime)
    (h : gmap loc pydict) (x : pyval) : gmap loc pydict :=
  match x with
  | PyRef a => alter (mark_at str_to_float now) a h
  | _ => h
  end.

(** The world after a sequence of earlier calls of the filter, each on
    its own list and with its own clock. *)
Fixpoint earlier_calls {unicode : UnicodeData}
    (str_to_float : string -> option float)
    (calls : list ((nat -> datetime) * list pyval)) (w : world) : world :=
  match calls with
  | [] => w
  | (clock, alerts) :: rest =>
      earlier_calls str_to_float rest
        (snd (filter_alerts str_to_float clock alerts w))
  end.

(** ** A runtime to run the model on

    [float] on the decimal numerals without exponent: an optional sign,
    digits, and an optional point followed by digits. *)

Fixpoint read_digits (s : string) (acc : Z) (count : Z) : Z * Z * string :=
  match s with
  | String c rest =>
      match in_range 0 9 (byte c) with
      | Some n => read_digits rest (10 * acc + n) (count + 1)
      | None => (acc, count, s)
      end
  | EmptyString => (acc, count, s)
  end.

Definition plain_decimal (s : string) : option float :=
  let '(neg, body) :=
    match s with
    | String "-" rest => (true, rest)
    | String "+" rest => (false, rest)
    | _ => (false, s)
    end in
  let '(int_part, ni, after_int) := read_digits body 0 0 in
  match after_int with
  | EmptyString =>
      if 0 <? ni then Some (of_decimal neg int_part 0) else None
  | String "." frac =>
      let '(m, nf, after_frac) := read_digits frac int_part 0 in
      match after_frac with
      | EmptyString =>
          if 0 <? ni + nf then Some (of_decimal neg m (- nf)) else None
      | _ => None
      end
  | _ => None
  end.

(** The decimal digits of Unicode 14.0 outside ASCII: the code points of
    the zeros, each followed by its digits 1 to 9. *)
Definition decimal_zeros : list Z :=
  [1632; 1776; 1984; 2406; 2534; 2662; 2790; 2918;
   3046; 3174; 3302; 3430; 3558; 3664; 3792; 3872;
   4160; 4240; 6112; 6160; 6470; 6608; 6784; 6800;
   6992; 7088; 7232; 7248; 42528; 43216; 43264; 43472;
   43504; 43600; 44016; 65296; 66720; 68912; 69734; 69872;
   69942; 70096; 70384; 70736; 70864; 71248; 71360; 71472;
   71904; 72016; 72784; 73040; 73120; 92768; 92864; 93008;
   120782; 120792; 120802; 120812; 120822; 123200; 123632; 125264;
   130032].

Definition unicode_14 : UnicodeData :=
  fun c =>
    match filter (fun z => (z <=? c) && (c <=? z + 9)) decimal_zeros with
    | z :: _ => Some (c - z)
    | [] => None
    end.

(** Noon on the first of January 2025. *)
Definition new_year_2025 : datetime := mkdatetime 2025 1 1 12 0 0 0.

(** The random source that always draws the lower end of the interval. *)
Definition lowest_draw (n : nat) (a b : float) : float := a.

Definition empty_world : world := mkworld ∅ 0 0.

(** A world with the three sample records at 0, 1 and 2, a record
    whose open interest is zero at 3 and one whose expiration is no
    date at 4. *)
Definition ZERO_OI : pydict := str_dict
  [("ticker", PyStr "XYZ"); ("side", PyStr "CALL"); ("strike", PyInt 10);
   ("expiration", PyStr "2025-12-20");
   ("average_price", PyStr "7.5");
   ("premium", PyInt 900000); ("volume", PyInt 100000);
   ("open_interest", PyInt 0)]%string.

Definition BAD_DATE : pydict := str_dict
  [("ticker", PyStr "BAD"); ("side", PyStr "PUT"); ("strike", PyInt 10);
   ("expiration", PyStr "20/12/2025");
   ("average_price", PyInt 9);
   ("premium", PyInt 900000); ("volume", PyInt 1000);
   ("open_interest", PyInt 10)]%string.

Definition sample_world : world :=
  mkworld (list_to_map [(0%nat, TSLA); (1%nat, NVDA); (2%nat, AAPL);
                        (3%nat, ZERO_OI); (4%nat, BAD_DATE)]) 0 0.

(** A record that qualifies with an average price of 1.75e308, and the
    draws that are the upper end of the interval, then 0.0. *)
Definition HUGE_PRICE : pydict := str_dict
  [("ticker", PyStr "HUGE"); ("side", PyStr "CALL"); ("strike", PyInt 10);
   ("expiration", PyStr "2025-12-20");
   ("average_price", PyFloat (of_decimal false 175 306));
   ("premium", PyInt 900000); ("volume", PyInt 1000);
   ("open_interest", PyInt 10)]%string.

Definition huge_world : world :=
  mkworld (list_to_map [(0%nat, HUGE_PRICE)]) 0 0.

Definition high_then_zero (n : nat) (a b : float) : float :=
  match n with
  | O => b
  | S _ => S754_zero false
  end.

(** ** The rest of the program: the mode, the iteration and [main] *)

(** [str.lower()] on the ASCII letters. *)
Definition lower_ascii (c : Ascii.ascii) : Ascii.ascii :=
  let n := Ascii.N_of_ascii c in
  if ((65 <=? n) && (n <=? 90))%N then Ascii.ascii_of_N (n + 32) else c.

Fixpoint str_lower (s : string) : string :=
  match s with
  | EmptyString => EmptyString
  | String c rest => String (lower_ascii c) (str_lower rest)
  end.

(** [DRY_RUN = os.getenv("DRY_RUN", "true").lower() == "true"]; [value]
    is the variable of the environment once [load_dotenv()] has run,
    [None] when it is not set.  The bytes outside ASCII are left as they
    are, which does not change the comparison: no character outside
    ASCII has [t], [r], [u] or [e] as its lower case. *)
Definition DRY_RUN_of_env (value : option string) : bool :=
  String.eqb (str_lower (default "true"%string value)) "true".

(** The time of the day in microseconds, and the times of day a clock
    shows. *)
Definition time_of_day (t : datetime) : Z :=
  ((hour t * 60 + minute t) * 60 + second t) * 1000000 + microsecond t.

Definition clock_time (t : datetime) : Prop :=
  0 <= hour t < 24 /\ 0 <= minute t < 60 /\ 0 <= second t < 60
  /\ 0 <= microsecond t < 1000000.

(** [iter(obj)], run to its end: the items of a list, the characters of
    a string (here its bytes, each a string of length one), the keys of
    a dict.  The keys come in the order of the
    model's map, not in the order of insertion; the filter drops each of
    them without reading anything else, so that the order is not seen.
    Nothing else that a JSON document holds is iterable. *)
Definition py_iter (obj : pyval) : py (list pyval) :=
  fun w =>
    match obj with
    | PyList items => (inr items, w)
    | PyStr s =>
        (inr (map (fun c => PyStr (String c EmptyString))
                  (String.list_ascii_of_string s)), w)
    | PyRef a =>
        match heap w !! a with
        | Some d => (inr (map (fun kv => PyStr (fst kv)) (map_to_list d)), w)
        | None => (inl SystemError, w)
        end
    | _ => (inl TypeError, w)
    end.

(** The lines the program prints, and its sleeps. *)
Inductive event :=
  | Starting
  | Mode (dry_run : bool)
  | Found (trades : nat)
  | TradeLine (ticker side strike expiration premium
               days_to_expiry volume_ratio : pyval)
  | Printed (p : printed)
  | NoAlerts (hour minute second : Z)
  | Slept (seconds : Z).

(** The state of [main]: the world and what was printed so far. *)
Record console := mkconsole {
  the_world : world;
  output : list event
}.

Definition io (A : Type) : Type := console -> (exn + A) * console.

Definition io_ret {A} (x : A) : io A := fun c => (inr x, c).
Definition io_bind {A B} (m : io A) (k : A -> io B) : io B :=
  fun c =>
    match m c with
    | (inr x, c') => k x c'
    | (inl e, c') => (inl e, c')
    end.

Notation "'do*' x ':=' m 'in' k" := (io_bind m (fun x => k))
  (at level 10, x pattern, m at level 100, k at level 200).

(** A computation on the world, run at the console. *)
Definition run {A} (m : py A) : io A :=
  fun c =>
    match m (the_world c) with
    | (r, w') => (r, mkconsole w' (output c))
    end.

(** [print(line)].  Stdout is open; what can fail is the encoding of
    the line: when stdout cannot encode it (a lone surrogate in a field,
    or the emoji of the program's own text under an encoding that lacks
    them), the call raises [UnicodeEncodeError] and nothing is written.
    [stdout_encodes] tells whether stdout can encode the line; the line
    that no alert is valid is made of ASCII characters only, which
    stdout always encodes. *)
Definition accepted (stdout_encodes : event -> bool) (e : event) : bool :=
  match e with
  | NoAlerts _ _ _ => true
  | _ => stdout_encodes e
  end.

Definition print (stdout_encodes : event -> bool) (e : event) : io unit :=
  fun c =>
    if accepted stdout_encodes e
    then (inr tt, mkconsole (the_world c) (output c ++ [e]))
    else (inl UnicodeEncodeError, c).

(** [time.sleep(seconds)]. *)
Definition sleep (seconds : Z) : io unit :=
  fun c => (inr tt, mkconsole (the_world c) (output c ++ [Slept seconds])).

Section Main.

Context {unicode : UnicodeData}.
Variable str_to_float : string -> option float.
Variable clock : nat -> datetime.
Variable uniform : nat -> float -> float -> float.
Variable stdout_encodes : event -> bool.
Variable DRY_RUN : bool.

(** [filter_alerts(alerts)] on whatever [fetch_alerts] returned: the
    [for] starts with [iter(alerts)]. *)
Definition filter_alerts_on (alerts : pyval) : py (list pyval) :=
  let* items := py_iter alerts in
  filter_alerts str_to_float clock items.

(** [simulate_trade_execution(trade)] with its [print]: the line is
    computed, which reads the fields and makes the draws, and then
    printed. *)
Definition simulate_and_print (trade : pyval) : io unit :=
  do* p := run (simulate_trade_execution str_to_float uniform DRY_RUN trade) in
  print stdout_encodes (Printed p).

(** The body of the [for trade in trades] of [main]. *)
Definition report_trade (trade : pyval) : io unit :=
  do* ticker := run (getitem trade "ticker") in
  do* side := run (getitem trade "side") in
  do* strike := run (getitem trade "strike") in
  do* expiration := run (getitem trade "expiration") in
  do* premium := run (getitem trade "premium") in
  do* days_to_expiry := run (getitem trade "days_to_expiry") in
  do* volume_ratio := run (getitem trade "volume_ratio") in
  do* _ := print stdout_encodes
             (TradeLine ticker side strike expiration premium
                        days_to_expiry volume_ratio) in
  simulate_and_print trade.

Fixpoint report_trades (trades : list pyval) : io unit :=
  match trades with
  | [] => io_ret tt
  | trade :: rest =>
      do* _ := report_trade trade in
      report_trades rest
  end.

(** One turn of the [while True]; [o] is what the request of this turn
    comes back with. *)
Definition cycle (o : request_outcome) : io unit :=
  do* alerts := run (fetch_alerts o) in
  do* trades := run (filter_alerts_on alerts) in
  do* _ :=
    match trades with
    | _ :: _ =>
        do* _ := print stdout_encodes (Found (length trades)) in
        report_trades trades
    | [] =>
        do* now := run (datetime_now clock) in
        print stdout_encodes (NoAlerts (hour now) (minute now) (second now))
    end in
  sleep 60.

(** The first turns of the loop, one for each outcome of a request. *)
Fixpoint main_loop (outcomes : list request_outcome) : io unit :=
  match outcomes with
  | [] => io_ret tt
  | o :: rest =>
      do* _ := cycle o in
      main_loop rest
  end.

Definition main (outcomes : list request_outcome) : io unit :=
  do* _ := print stdout_encodes Starting in
  do* _ := print stdout_encodes (Mode DRY_RUN) in
  main_loop outcomes.

End Main.

(** Every record of the heap, a dict with an expiration, holds the three
    fields that only [main] and the simulator read. *)
Definition displayable (h : gmap loc pydict) : Prop :=
  forall a d, h !! a = Some d -> is_Some (d !! "expiration") ->
    is_Some (d !! "ticker") /\ is_Some (d !! "side") /\ is_Some (d !! "strike").

(** What [iter] accepts. *)
Definition iterable (h : gmap loc pydict) (v : pyval) : Prop :=
  match v with
  | PyList _ | PyStr _ => True
  | PyRef a => is_Some (h !! a)
  | _ => False
  end.

(** What [main] prints of a trade besides these three: the record holds
    the fields read by the filter and written by it, and its average
    price converts. *)
Definition printable (str_to_float : string -> option float)
    (h : gmap loc pydict) (x : pyval) : Prop :=
  exists a d,
    x = PyRef a /\ h !! a = Some d
    /\ is_Some (d !! "expiration") /\ is_Some (d !! "premium")
    /\ is_Some (d !! "days_to_expiry") /\ is_Some (d !! "volume_ratio")
    /\ exists v avg_price,
         d !! "average_price" = Some v
         /\ py_float str_to_float v = inr avg_price.

(** What a dict of the heap holds under ["chains"] can be iterated
    over. *)
Definition chains_iterable (h : gmap loc pydict) : Prop :=
  forall a d chains, h !! a = Some d -> d !! "chains" = Some chains ->
    iterable h chains.

(** The number of sleeps among the events. *)
Fixpoint sleeps (events : list event) : nat :=
  match events with
  | [] => 0
  | Slept _ :: rest => S (sleeps rest)
  | _ :: rest => sleeps rest
  end.

(** The lines printed for the trades: one for the trade and one of the
    simulator, for each. *)
Definition trade_lines (lines : list event) (trades : nat) : Prop :=
  exists pairs : list (event * event),
    length pairs = trades
    /\ lines = flat_map (fun p => [fst p; snd p]) pairs
    /\ Forall (fun p => (exists t s k e pr dte vr, fst p = TradeLine t s k e pr dte vr)
                        /\ exists q, snd p = Printed q) pairs.


(** A stdout that encodes every line, as one opened with an error
    handler that replaces what it cannot encode, and one that encodes no
    line of a trade. *)
Definition encodes_all (e : event) : bool := true.

Definition encodes_no_trade (e : event) : bool :=
  match e with
  | TradeLine _ _ _ _ _ _ _ => false
  | _ => true
  end.

(** A world with a response in it: the dict at 2 holds the records at 0
    and 1 under ["chains"]. *)
Definition CHAINS : pydict :=
  str_dict [("chains", PyList [PyRef 0%nat; PyRef 1%nat])]%string.

Definition chains_world : world :=
  mkworld (<[0%nat := TSLA]> (<[1%nat := NVDA]> (<[2%nat := CHAINS]> ∅))) 0 0.

(** * Properties *)

(** ** Binary64 arithmetic: rounding is monotone *)

Section Rounding.

Lemma digits2_pos_size (m : positive) : digits2_pos m = Pos.size m.
Proof. induction m as [m IH|m IH|]; simpl; by rewrite ?IH. Qed.

Lemma digits2_pos_bounds (m : positive) :
  2 ^ (Zpos (digits2_pos m) - 1) <= Zpos m < 2 ^ Zpos (digits2_pos m).
Proof.
  assert (H : Zpos (digits2_pos m) = Z.log2 (Zpos m) + 1).
  { rewrite digits2_pos_size. destruct m; simpl; lia. }
  rewrite H. replace (Z.log2 (Z.pos m) + 1 - 1) with (Z.log2 (Zpos m)) by lia.
  apply Z.log2_spec. lia.
Qed.

(** [iter_pos] is iteration. *)
Lemma iter_pos_nat {A} (f : A -> A) (p : positive) : forall x,
  SpecFloat.iter_pos f p x = Nat.iter (Pos.to_nat p) f x.
Proof.
  induction p as [p IH|p IH|]; intros x; cbn [SpecFloat.iter_pos].
  - rewrite !IH, Pos2Nat.inj_xI, <- Nat.iter_add, <- Nat.iter_succ_r.
    f_equal. lia.
  - rewrite !IH, Pos2Nat.inj_xO, <- Nat.iter_add. f_equal. lia.
  - done.
Qed.



Lemma shifted_0 (M : Z) : shifted M 0 (shr_record_of_loc M loc_Exact).
Proof.
  unfold shifted. simpl. rewrite Z.div_1_r, Z.mod_1_r. done.
Qed.

Lemma shr_1_nonneg (m : Z) (rb sb : bool) :
  0 <= m ->
  shr_1 (Build_shr_record m rb sb)
  = Build_shr_record (m / 2) (Z.odd m) (rb || sb).
Proof.
  intros Hm. destruct m as [|p|p]; [done| |lia].
  destruct p as [p|p|]; simpl; f_equal.
  - rewrite Pos2Z.inj_xI, Z.mul_comm, Z.div_add_l by lia.
    change (1 / 2) with 0. lia.
  - by rewrite Pos2Z.inj_xO, Z.mul_comm, Z.div_mul by lia.
Qed.

Lemma shr_1_shifted (M j : Z) (mrs : shr_record) :
  0 <= M -> 0 <= j -> shifted M j mrs -> shifted M (j + 1) (shr_1 mrs).
Proof.
  intros HM Hj [Hm Hloc].
  assert (Hp : 0 < 2 ^ j) by (apply Z.pow_pos_nonneg; lia).
  assert (Hp1 : 2 ^ (j + 1) = 2 * 2 ^ j) by (rewrite Z.pow_add_r by lia; lia).
  set (q := M / 2 ^ j) in *. set (r := M mod 2 ^ j) in *.
  assert (Hr : 0 <= r < 2 ^ j) by (apply Z.mod_pos_bound; lia).
  assert (Hq : 0 <= q) by (apply Z.div_pos; lia).
  assert (Hdiv : M / 2 ^ (j + 1) = q / 2).
  { rewrite Hp1. unfold q. rewrite Z.mul_comm. by rewrite Z.div_div by lia. }
  assert (Hmod : M mod 2 ^ (j + 1) = 2 ^ j * (q mod 2) + r).
  { rewrite Hp1. rewrite Z.mul_comm. rewrite Z.rem_mul_r by lia.
    fold q. fold r. lia. }
  unfold shifted. rewrite Hdiv, Hmod, Hp1.
  destruct mrs as [m rb sb]. simpl in Hm, Hloc. subst m.
  assert (Hsticky : orb rb sb = negb (r =? 0)).
  { unfold location_of in Hloc. destruct (r =? 0), rb, sb; simpl in *; congruence. }
  rewrite shr_1_nonneg by done. rewrite Hsticky. simpl.
  split; [done|].
  rewrite Zmod_odd. unfold location_of.
  destruct (Z.odd q); destruct (Z.eqb_spec r 0) as [->|Hne]; simpl.
  - destruct (Z.eqb_spec (2 ^ j * 1 + 0) 0); [lia|].
    destruct (Z.compare_spec (2 * (2 ^ j * 1 + 0)) (2 * 2 ^ j)); try lia; done.
  - destruct (Z.eqb_spec (2 ^ j * 1 + r) 0); [lia|].
    destruct (Z.compare_spec (2 * (2 ^ j * 1 + r)) (2 * 2 ^ j)); try lia; done.
  - destruct (Z.eqb_spec (2 ^ j * 0 + 0) 0); [done|lia].
  - destruct (Z.eqb_spec (2 ^ j * 0 + r) 0); [lia|].
    destruct (Z.compare_spec (2 * (2 ^ j * 0 + r)) (2 * 2 ^ j)); try lia; done.
Qed.

(** [round_nearest_even] on the shifted record is the division rounded
    to the nearest, ties to even. *)
Lemma round_shifted (M j : Z) (mrs : shr_record) :
  0 <= j -> shifted M j mrs ->
  round_nearest_even (shr_m mrs) (loc_of_shr_record mrs)
  = div_half_even M (2 ^ j).
Proof.
  intros Hj [Hm Hloc]. rewrite Hm, Hloc.
  assert (Hp : 0 < 2 ^ j) by (apply Z.pow_pos_nonneg; lia).
  unfold location_of, div_half_even.
  destruct (Z.eqb_spec (M mod 2 ^ j) 0) as [E|Hne]; [|done].
  rewrite E.
  assert (Hlt : (2 * 0 ?= 2 ^ j) = Lt) by (apply Z.compare_lt_iff; lia).
  by rewrite Hlt.
Qed.

Lemma iter_shr_1_shifted (M : Z) (n : nat) :
  0 <= M ->
  shifted M (Z.of_nat n) (Nat.iter n shr_1 (shr_record_of_loc M loc_Exact)).
Proof.
  intros HM. induction n as [|n IH].
  - apply shifted_0.
  - rewrite Nat2Z.inj_succ. simpl. apply shr_1_shifted; [done|lia|done].
Qed.

(** The first step of the rounding: shifting [M] right by [k] places. *)
Lemma shr_shifted (M e k : Z) :
  0 <= M -> 0 <= k ->
  shifted M k (fst (shr (shr_record_of_loc M loc_Exact) e k))
  /\ snd (shr (shr_record_of_loc M loc_Exact) e k) = e + k.
Proof.
  intros HM Hk. unfold shr. destruct k as [|p|p]; [| |lia].
  - simpl. split; [apply shifted_0 | lia].
  - simpl. split; [|done]. rewrite iter_pos_nat.
    rewrite <- (positive_nat_Z p). apply iter_shr_1_shifted. done.
Qed.

End Rounding.
Section HalfEven.

Lemma div_half_even_floor (n d : Z) :
  0 < d -> n / d <= div_half_even n d <= n / d + 1.
Proof.
  intros Hd. unfold div_half_even.
  destruct (2 * (n mod d) ?= d); [destruct (Z.even (n / d))| |]; lia.
Qed.

Lemma div_half_even_ge (n d b : Z) :
  0 < d -> b * d <= n -> b <= div_half_even n d.
Proof.
  intros Hd H. pose proof (div_half_even_floor n d Hd).
  assert (b <= n / d) by (apply Z.div_le_lower_bound; lia). lia.
Qed.

Lemma div_half_even_le (n d b : Z) :
  0 < d -> n < b * d -> div_half_even n d <= b.
Proof.
  intros Hd H. pose proof (div_half_even_floor n d Hd).
  assert (n / d < b) by (apply Z.div_lt_upper_bound; lia). lia.
Qed.

(** Rounding to the nearest, ties to even, is monotone in the fraction
    rounded. *)
Lemma div_half_even_mono (n1 d1 n2 d2 : Z) :
  0 < d1 -> 0 < d2 -> n1 * d2 <= n2 * d1 ->
  div_half_even n1 d1 <= div_half_even n2 d2.
Proof.
  intros Hd1 Hd2 H.
  pose proof (Z.div_mod n1 d1 ltac:(lia)) as E1.
  pose proof (Z.div_mod n2 d2 ltac:(lia)) as E2.
  pose proof (Z.mod_pos_bound n1 d1 Hd1) as B1.
  pose proof (Z.mod_pos_bound n2 d2 Hd2) as B2.
  pose proof (div_half_even_floor n1 d1 Hd1) as F1.
  pose proof (div_half_even_floor n2 d2 Hd2) as F2.
  set (q1 := n1 / d1) in *. set (r1 := n1 mod d1) in *.
  set (q2 := n2 / d2) in *. set (r2 := n2 mod d2) in *.
  assert (Hq : q1 <= q2).
  { destruct (Z.le_gt_cases q1 q2) as [|Hgt]; [done|]. exfalso.
    assert (q2 + 1 <= q1) by lia.
    assert (n2 * d1 < (q2 + 1) * d2 * d1) by nia.
    assert ((q2 + 1) * d2 * d1 <= q1 * d1 * d2) by nia.
    nia. }
  destruct (Z.eq_dec q1 q2) as [Heq|Hne]; [|lia].
  assert (Hr : r1 * d2 <= r2 * d1) by nia.
  unfold div_half_even. fold q1 q2 r1 r2. rewrite <- Heq.
  destruct (Z.compare_spec (2 * r1) d1) as [T1|T1|T1];
    destruct (Z.compare_spec (2 * r2) d2) as [T2|T2|T2];
    try destruct (Z.even q1); try lia; nia.
Qed.

End HalfEven.

Section RoundExact.

Lemma fexp_eq (x : Z) : fexp prec emax x = Z.max (x - 53) (-1074).
Proof. reflexivity. Qed.

Lemma shr_nonpos (mrs : shr_record) (e n : Z) : n <= 0 -> shr mrs e n = (mrs, e).
Proof. intros H. destruct n; [done|lia|done]. Qed.

(** The rounding of an exact product [M * 2 ^ E] whose exponent is not
    above the one of its format. *)
Lemma binary_round_aux_pack (s : bool) (M : positive) (E : Z) :
  E <= fexp prec emax (Zpos (digits2_pos M) + E) ->
  binary_round_aux prec emax s (Zpos M) E loc_Exact
  = pack s (div_half_even (Zpos M)
              (2 ^ (fexp prec emax (Zpos (digits2_pos M) + E) - E)))
         (fexp prec emax (Zpos (digits2_pos M) + E)).
Proof.
  intros Hk.
  set (e' := fexp prec emax (Zpos (digits2_pos M) + E)) in *.
  set (k := e' - E).
  assert (Hk0 : 0 <= k) by (unfold k; lia).
  unfold binary_round_aux, shr_fexp.
  change (Zdigits2 (Zpos M)) with (Zpos (digits2_pos M)). fold e'. fold k.
  destruct (shr_shifted (Zpos M) E k ltac:(lia) Hk0) as [Hsh He].
  destruct (shr (shr_record_of_loc (Z.pos M) loc_Exact) E k) as [mrs1 e1].
  simpl in Hsh, He. subst e1.
  rewrite (round_shifted _ _ _ Hk0 Hsh).
  replace (E + k) with e' by (unfold k; lia).
  set (q := div_half_even (Zpos M) (2 ^ k)).
  assert (Hp : 0 < 2 ^ k) by (apply Z.pow_pos_nonneg; lia).
  assert (He' : -1074 <= e').
  { unfold e'. rewrite fexp_eq. lia. }
  assert (Hq : 0 <= q <= 2 ^ 53).
  { split.
    - apply div_half_even_ge; [done|lia].
    - apply div_half_even_le; [done|].
      pose proof (digits2_pos_bounds M) as [_ HM].
      assert (Hd : Zpos (digits2_pos M) <= k + 53).
      { unfold k, e'. rewrite fexp_eq. lia. }
      assert (2 ^ Zpos (digits2_pos M) <= 2 ^ (k + 53))
        by (apply Z.pow_le_mono_r; lia).
      rewrite Z.pow_add_r in * by lia. lia. }
  unfold pack. destruct q as [|m|m] eqn:Eq; [| |lia].
  - (* zero *)
    rewrite shr_nonpos; [done|]. simpl. rewrite fexp_eq. lia.
  - destruct (Z.eqb_spec (Zpos m) (2 ^ 53)) as [E53|N53].
    + (* carry *)
      assert (Hm : m = 9007199254740992%positive)
        by (change (2 ^ 53) with 9007199254740992 in E53; congruence).
      subst m.
      change (Zdigits2 9007199254740992) with 54.
      replace (fexp prec emax (54 + e') - e') with 1
        by (rewrite fexp_eq; lia).
      reflexivity.
    + rewrite shr_nonpos; [done|].
      change (Zdigits2 (Zpos m)) with (Zpos (digits2_pos m)).
      rewrite fexp_eq.
      pose proof (digits2_pos_bounds m) as [Hlo _].
      assert (Zpos (digits2_pos m) <= 53).
      { destruct (Z.le_gt_cases (Zpos (digits2_pos m)) 53) as [|Hgt]; [done|].
        exfalso.
        assert (2 ^ 53 <= 2 ^ (Zpos (digits2_pos m) - 1))
          by (apply Z.pow_le_mono_r; lia).
        lia. }
      lia.
Qed.

End RoundExact.
Section PackOrder.

Lemma SFleb_finite_intro (m1 m2 : positive) (e1 e2 : Z) :
  e1 <= e2 -> (e1 = e2 -> Zpos m1 <= Zpos m2) ->
  SFleb (S754_finite false m1 e1) (S754_finite false m2 e2) = true.
Proof.
  intros H1 H. unfold SFleb, SFcompare.
  destruct (Z.compare_spec e1 e2) as [He|He|He]; [|done|lia].
  specialize (H He).
  change (Pos.compare_cont Eq m1 m2) with (Pos.compare m1 m2).
  destruct (Pos.compare_spec m1 m2); [done|done|lia].
Qed.

Lemma pack_le_same (e q1 q2 : Z) :
  0 <= q1 <= q2 -> q2 <= 2 ^ 53 ->
  SFleb (pack false q1 e) (pack false q2 e) = true.
Proof.
  intros H1 H2. unfold pack.
  destruct q1 as [|m1|m1]; [| |lia]; (destruct q2 as [|m2|m2]; [| |lia]);
    try lia.
  - done.
  - destruct (Zpos m2 =? 2 ^ 53); [destruct (e + 1 <=? 971)|destruct (e <=? 971)];
      done.
  - destruct (Z.eqb_spec (Zpos m1) (2 ^ 53)) as [A1|A1];
      destruct (Z.eqb_spec (Zpos m2) (2 ^ 53)) as [A2|A2]; try lia.
    + destruct (e + 1 <=? 971); [|done]. apply SFleb_finite_intro; [lia|intros; lia].
    + destruct (Z.leb_spec e 971); destruct (Z.leb_spec (e + 1) 971);
        try done; try lia.
      apply SFleb_finite_intro; [lia|intros; lia].
    + destruct (Z.leb_spec e 971); [|done].
      apply SFleb_finite_intro; [lia|intros; lia].
Qed.

Lemma pack_le_lt (e1 e2 q1 q2 : Z) :
  e1 < e2 -> 0 <= q1 <= 2 ^ 53 -> 2 ^ 52 <= q2 <= 2 ^ 53 ->
  SFleb (pack false q1 e1) (pack false q2 e2) = true.
Proof.
  intros He H1 H2. unfold pack.
  destruct q2 as [|m2|m2]; [change (2 ^ 52) with 4503599627370496 in H2; lia|
                            |lia].
  destruct q1 as [|m1|m1]; [| |lia].
  - destruct (Zpos m2 =? 2 ^ 53); [destruct (e2 + 1 <=? 971)|destruct (e2 <=? 971)];
      done.
  - change (2 ^ 52) with 4503599627370496 in H2.
    destruct (Z.eqb_spec (Zpos m1) (2 ^ 53)) as [A1|A1];
      destruct (Z.eqb_spec (Zpos m2) (2 ^ 53)) as [A2|A2];
      repeat match goal with
             | |- context [Z.leb ?a ?b] => destruct (Z.leb_spec a b)
             end; try done; try lia;
      (apply SFleb_finite_intro; [lia|intros; lia]).
Qed.


Lemma valid_finite (s : bool) (m : positive) (e : Z) :
  valid (S754_finite s m e) <->
  e = Z.max (Zpos (digits2_pos m) + e - 53) (-1074) /\ e <= 971.
Proof.
  unfold valid, valid_binary, bounded, canonical_mantissa.
  rewrite andb_true_iff, Z.eqb_eq, Z.leb_le, fexp_eq.
  change (emax - prec) with 971. lia.
Qed.

End PackOrder.
Section RoundMono.

Lemma pow2_pos (k : Z) : 0 <= k -> 0 < 2 ^ k.
Proof. intros. apply Z.pow_pos_nonneg; lia. Qed.

(** The mantissa the rounding arrives at. *)
Lemma rounded_mantissa_bounds (M : positive) (E : Z) :
  let e' := fexp prec emax (Zpos (digits2_pos M) + E) in
  E <= e' ->
  -1074 <= e'
  /\ 0 <= div_half_even (Zpos M) (2 ^ (e' - E)) <= 2 ^ 53
  /\ (2 ^ 52 <= div_half_even (Zpos M) (2 ^ (e' - E)) \/ e' = -1074).
Proof.
  intros e' Hk. unfold e' in *. clear e'. rewrite fexp_eq in *.
  set (d := Zpos (digits2_pos M)) in *.
  set (e' := Z.max (d + E - 53) (-1074)) in *.
  pose proof (digits2_pos_bounds M) as [Hlo Hhi]. fold d in Hlo, Hhi.
  assert (Hp : 0 < 2 ^ (e' - E)) by (apply pow2_pos; lia).
  assert (Hd : 0 < d) by (unfold d; lia).
  split; [lia|]. split; [split|].
  - apply div_half_even_ge; [done|lia].
  - apply div_half_even_le; [done|].
    assert (2 ^ d <= 2 ^ 53 * 2 ^ (e' - E)).
    { rewrite <- Z.pow_add_r by lia. apply Z.pow_le_mono_r; lia. }
    lia.
  - destruct (Z.eq_dec e' (-1074)) as [|Hne]; [by right|left].
    assert (He : e' = d + E - 53) by lia.
    apply div_half_even_ge; [done|].
    rewrite <- Z.pow_add_r by lia.
    replace (52 + (e' - E)) with (d - 1) by lia. done.
Qed.

(** Rounding an exact product is monotone in its value. *)
Lemma round_exact_mono (M1 M2 : positive) (E1 E2 c : Z) :
  c <= E1 -> c <= E2 ->
  E1 <= fexp prec emax (Zpos (digits2_pos M1) + E1) ->
  E2 <= fexp prec emax (Zpos (digits2_pos M2) + E2) ->
  Zpos M1 * 2 ^ (E1 - c) <= Zpos M2 * 2 ^ (E2 - c) ->
  SFleb (binary_round_aux prec emax false (Zpos M1) E1 loc_Exact)
        (binary_round_aux prec emax false (Zpos M2) E2 loc_Exact) = true.
Proof.
  intros Hc1 Hc2 Hk1 Hk2 Hle.
  rewrite !binary_round_aux_pack by done.
  destruct (rounded_mantissa_bounds M1 E1 Hk1) as (Hm1 & Hq1 & Hn1).
  destruct (rounded_mantissa_bounds M2 E2 Hk2) as (Hm2 & Hq2 & Hn2).
  rewrite !fexp_eq in *.
  set (d1 := Zpos (digits2_pos M1)) in *.
  set (d2 := Zpos (digits2_pos M2)) in *.
  set (e1 := Z.max (d1 + E1 - 53) (-1074)) in *.
  set (e2 := Z.max (d2 + E2 - 53) (-1074)) in *.
  pose proof (digits2_pos_bounds M1) as [Hlo1 Hhi1]. fold d1 in Hlo1, Hhi1.
  pose proof (digits2_pos_bounds M2) as [Hlo2 Hhi2]. fold d2 in Hlo2, Hhi2.
  assert (Hd1 : 0 < d1) by (unfold d1; lia).
  assert (Hd2 : 0 < d2) by (unfold d2; lia).
  assert (Hmag : d1 + E1 <= d2 + E2).
  { assert (H : 2 ^ (d1 - 1 + (E1 - c)) < 2 ^ (d2 + (E2 - c))).
    { rewrite !Z.pow_add_r by lia.
      pose proof (pow2_pos (E1 - c) ltac:(lia)).
      pose proof (pow2_pos (E2 - c) ltac:(lia)).
      nia. }
    apply Z.pow_lt_mono_r_iff in H; lia. }
  assert (He : e1 <= e2) by lia.
  destruct (Z.eq_dec e1 e2) as [Heq|Hne].
  - rewrite <- Heq in *. apply pack_le_same; [|lia].
    split; [lia|].
    apply div_half_even_mono; [apply pow2_pos; lia|apply pow2_pos; lia|].
    pose proof (pow2_pos (E1 - c) ltac:(lia)) as PA.
    pose proof (pow2_pos (E2 - c) ltac:(lia)) as PB.
    pose proof (pow2_pos (e1 - E1) ltac:(lia)) as P1.
    pose proof (pow2_pos (e1 - E2) ltac:(lia)) as P2.
    pose proof (pow2_pos (e1 - c) ltac:(lia)) as PT.
    assert (T1 : 2 ^ (E1 - c) * 2 ^ (e1 - E1) = 2 ^ (e1 - c)).
    { rewrite <- Z.pow_add_r by lia. f_equal. lia. }
    assert (T2 : 2 ^ (E2 - c) * 2 ^ (e1 - E2) = 2 ^ (e1 - c)).
    { rewrite <- Z.pow_add_r by lia. f_equal. lia. }
    set (A := 2 ^ (E1 - c)) in *. set (B := 2 ^ (E2 - c)) in *.
    set (P := 2 ^ (e1 - E1)) in *. set (Q := 2 ^ (e1 - E2)) in *.
    set (T := 2 ^ (e1 - c)) in *.
    apply (Z.mul_le_mono_pos_r _ _ T); [done|].
    replace (Zpos M1 * Q * T) with ((Zpos M1 * A) * (P * Q))
      by (rewrite <- T1; ring).
    replace (Zpos M2 * P * T) with ((Zpos M2 * B) * (P * Q))
      by (rewrite <- T2; ring).
    apply Z.mul_le_mono_nonneg_r; [nia|done].
  - apply pack_le_lt; [lia|lia|]. split; [|lia].
    destruct Hn2 as [|Hn2]; [done|lia].
Qed.

End RoundMono.
Section Products.

Lemma digits2_pos_mul (mx my : positive) :
  Zpos (digits2_pos mx) + Zpos (digits2_pos my) - 1
  <= Zpos (digits2_pos (mx * my)).
Proof.
  pose proof (digits2_pos_bounds mx) as [Lx _].
  pose proof (digits2_pos_bounds my) as [Ly _].
  pose proof (digits2_pos_bounds (mx * my)) as [_ H].
  set (dx := Zpos (digits2_pos mx)) in *.
  set (dy := Zpos (digits2_pos my)) in *.
  set (d := Zpos (digits2_pos (mx * my))) in *.
  assert (0 < dx) by (unfold dx; lia).
  assert (0 < dy) by (unfold dy; lia).
  assert (0 < d) by (unfold d; lia).
  assert (Hlt : 2 ^ (dx - 1 + (dy - 1)) < 2 ^ d).
  { rewrite Z.pow_add_r by lia. rewrite Pos2Z.inj_mul in H.
    pose proof (pow2_pos (dx - 1) ltac:(lia)).
    pose proof (pow2_pos (dy - 1) ltac:(lia)).
    nia. }
  apply Z.pow_lt_mono_r_iff in Hlt; lia.
Qed.

(** The exact product of two valid floats has enough digits to be
    rounded by a right shift. *)
Lemma product_exponent_ok (sx sy : bool) (mx my : positive) (ex ey : Z) :
  valid (S754_finite sx mx ex) -> valid (S754_finite sy my ey) ->
  ex + ey <= fexp prec emax (Zpos (digits2_pos (mx * my)) + (ex + ey)).
Proof.
  intros [Hx _]%valid_finite [Hy _]%valid_finite.
  rewrite fexp_eq. pose proof (digits2_pos_mul mx my).
  assert (0 < Zpos (digits2_pos mx)) by lia.
  assert (0 < Zpos (digits2_pos my)) by lia.
  lia.
Qed.

(** On valid floats the order of the representations is the order of
    the values. *)
Lemma SFleb_value (mx my : positive) (ex ey : Z) :
  valid (S754_finite false mx ex) -> valid (S754_finite false my ey) ->
  SFleb (S754_finite false mx ex) (S754_finite false my ey) = true ->
  Zpos mx * 2 ^ (ex + 1074) <= Zpos my * 2 ^ (ey + 1074).
Proof.
  intros [Hx _]%valid_finite [Hy _]%valid_finite Hle.
  unfold SFleb, SFcompare in Hle.
  change (Pos.compare_cont Eq mx my) with (Pos.compare mx my) in Hle.
  pose proof (digits2_pos_bounds mx) as [_ Hxhi].
  pose proof (digits2_pos_bounds my) as [Hylo _].
  set (dx := Zpos (digits2_pos mx)) in *.
  set (dy := Zpos (digits2_pos my)) in *.
  assert (0 < dx) by (unfold dx; lia).
  destruct (Z.compare_spec ex ey) as [He|He|He]; [| |done].
  - subst ey. destruct (Pos.compare_spec mx my); [| |done].
    + subst. lia.
    + assert (0 < 2 ^ (ex + 1074)) by (apply pow2_pos; lia). nia.
  - assert (Hdy : dy = 53) by lia.
    rewrite Hdy in Hylo. change (2 ^ (53 - 1)) with (2 ^ 52) in Hylo.
    assert (Hxhi' : Zpos mx < 2 ^ 53).
    { assert (2 ^ dx <= 2 ^ 53) by (apply Z.pow_le_mono_r; lia). lia. }
    assert (P1 : 0 < 2 ^ (ex + 1074)) by (apply pow2_pos; lia).
    assert (P2 : 2 ^ 53 * 2 ^ (ex + 1074) <= 2 ^ 52 * 2 ^ (ey + 1074)).
    { rewrite <- !Z.pow_add_r by lia. apply Z.pow_le_mono_r; lia. }
    assert (P3 : 0 < 2 ^ (ey + 1074)) by (apply pow2_pos; lia).
    nia.
Qed.

(** Multiplication by a positive float is monotone. *)
Lemma fmul_mono (ma mx my : positive) (ea ex ey : Z) :
  valid (S754_finite false ma ea) ->
  valid (S754_finite false mx ex) -> valid (S754_finite false my ey) ->
  SFleb (S754_finite false mx ex) (S754_finite false my ey) = true ->
  SFleb (fmul (S754_finite false mx ex) (S754_finite false ma ea))
        (fmul (S754_finite false my ey) (S754_finite false ma ea)) = true.
Proof.
  intros Va Vx Vy Hle.
  pose proof (SFleb_value _ _ _ _ Vx Vy Hle) as Hval.
  pose proof (product_exponent_ok _ _ _ _ _ _ Vx Va) as Kx.
  pose proof (product_exponent_ok _ _ _ _ _ _ Vy Va) as Ky.
  apply valid_finite in Va as [Va _].
  apply valid_finite in Vx as [Vx _].
  apply valid_finite in Vy as [Vy _].
  unfold fmul, SFmul. simpl xorb.
  apply (round_exact_mono _ _ _ _ (ea + -1074)); [lia|lia|done|done|].
  rewrite !Pos2Z.inj_mul.
  replace (ex + ea - (ea + -1074)) with (ex + 1074) by lia.
  replace (ey + ea - (ea + -1074)) with (ey + 1074) by lia.
  nia.
Qed.

Lemma fmul_comm_finite (sx sy : bool) (mx my : positive) (ex ey : Z) :
  fmul (S754_finite sx mx ex) (S754_finite sy my ey)
  = fmul (S754_finite sy my ey) (S754_finite sx mx ex).
Proof.
  unfold fmul, SFmul. by rewrite xorb_comm, Pos.mul_comm, Z.add_comm.
Qed.

(** The sign of a rounding is the sign it is given. *)
Lemma binary_round_aux_opp (M : positive) (E : Z) :
  binary_round_aux prec emax true (Zpos M) E loc_Exact
  = SFopp (binary_round_aux prec emax false (Zpos M) E loc_Exact).
Proof.
  unfold binary_round_aux.
  destruct (shr_fexp prec emax (Z.pos M) E loc_Exact) as [mrs e].
  destruct (shr_fexp prec emax _ e loc_Exact) as [mrs' e'].
  destruct (shr_m mrs'); [done| |done].
  by destruct (e' <=? emax - prec).
Qed.


Lemma SFleb_signs (x y : float) :
  nonpositive x = true -> nonnegative y = true -> SFleb x y = true.
Proof.
  destruct x as [sx|[]| |[] mx ex]; try discriminate;
    destruct y as [sy|[]| |[] my ey]; try discriminate; done.
Qed.

Lemma SFleb_opp (x y : float) :
  nonnegative x = true -> nonnegative y = true ->
  SFleb (SFopp y) (SFopp x) = SFleb x y.
Proof.
  destruct x as [sx|[]| |[] mx ex]; try discriminate;
    destruct y as [sy|[]| |[] my ey]; try discriminate; try done.
  intros _ _. unfold SFleb, SFopp, SFcompare. simpl negb.
  change (Pos.compare_cont Eq mx my) with (Pos.compare mx my).
  change (Pos.compare_cont Eq my mx) with (Pos.compare my mx).
  rewrite (Z.compare_antisym ex ey), (Pos.compare_antisym mx my).
  destruct (Z.compare ex ey); simpl; try done.
  by destruct (Pos.compare mx my).
Qed.

Lemma pack_sign (s : bool) (q e : Z) :
  (if s then nonpositive else nonnegative) (pack s q e) = true.
Proof.
  unfold pack. destruct q as [|m|m]; [by destruct s| |by destruct s].
  destruct (Zpos m =? 2 ^ 53); [destruct (e + 1 <=? 971)|destruct (e <=? 971)];
    by destruct s.
Qed.

(** A rounding that does not overflow is a valid float. *)
Lemma pack_valid (s : bool) (q e : Z) :
  -1074 <= e -> 0 <= q <= 2 ^ 53 -> (2 ^ 52 <= q \/ e = -1074) ->
  valid (pack s q e).
Proof.
  intros He Hq Hn. unfold pack.
  destruct q as [|m|m]; [done| |done].
  destruct (Z.eqb_spec (Zpos m) (2 ^ 53)) as [E53|N53].
  - destruct (Z.leb_spec (e + 1) 971); [|done].
    apply valid_finite. change (Zpos (digits2_pos 4503599627370496)) with 53.
    lia.
  - destruct (Z.leb_spec e 971); [|done].
    apply valid_finite. split; [|done].
    pose proof (digits2_pos_bounds m) as [Hlo Hhi].
    set (d := Zpos (digits2_pos m)) in *.
    assert (Hd : d <= 53).
    { destruct (Z.le_gt_cases d 53) as [|Hgt]; [done|]. exfalso.
      assert (2 ^ 53 <= 2 ^ (d - 1)) by (apply Z.pow_le_mono_r; lia). lia. }
    destruct Hn as [Hn|Hn]; [|lia].
    assert (53 <= d).
    { destruct (Z.le_gt_cases 53 d) as [|Hlt]; [done|]. exfalso.
      assert (0 < d) by (unfold d; lia).
      assert (2 ^ d <= 2 ^ 52) by (apply Z.pow_le_mono_r; lia). lia. }
    lia.
Qed.

Lemma fmul_valid (sx sy : bool) (mx my : positive) (ex ey : Z) :
  valid (S754_finite sx mx ex) -> valid (S754_finite sy my ey) ->
  valid (fmul (S754_finite sx mx ex) (S754_finite sy my ey)).
Proof.
  intros Vx Vy.
  pose proof (product_exponent_ok _ _ _ _ _ _ Vx Vy) as K.
  unfold fmul, SFmul. rewrite binary_round_aux_pack by done.
  destruct (rounded_mantissa_bounds _ _ K) as (H1 & H2 & H3).
  by apply pack_valid.
Qed.

Lemma fmul_sign (sx sy : bool) (mx my : positive) (ex ey : Z) :
  valid (S754_finite sx mx ex) -> valid (S754_finite sy my ey) ->
  (if xorb sx sy then nonpositive else nonnegative)
    (fmul (S754_finite sx mx ex) (S754_finite sy my ey)) = true.
Proof.
  intros Vx Vy.
  pose proof (product_exponent_ok _ _ _ _ _ _ Vx Vy) as K.
  unfold fmul, SFmul. rewrite binary_round_aux_pack by done.
  apply pack_sign.
Qed.

End Products.

Section Between.

(** A float between two positive finite floats is one. *)
Lemma between_positive (ml mh : positive) (el eh : Z) (u : float) :
  fle (S754_finite false ml el) u = true ->
  fle u (S754_finite false mh eh) = true ->
  exists m e, u = S754_finite false m e.
Proof.
  unfold fle. destruct u as [s|[]| |[] m e]; try discriminate; eauto.
Qed.

(** A float between a negative and a positive finite float is finite. *)
Lemma between_signed (ml mh : positive) (el eh : Z) (u : float) :
  fle (S754_finite true ml el) u = true ->
  fle u (S754_finite false mh eh) = true ->
  is_finite u = true.
Proof.
  unfold fle. destruct u as [s|[]| |[] m e]; try discriminate; eauto.
Qed.

(** The product of a positive float by a factor between two positive
    finite floats lies between the two products. *)
Lemma fmul_between_positive (a lo hi u : float) :
  valid a -> valid lo -> valid hi -> valid u ->
  (exists m e, a = S754_finite false m e) \/ a = S754_infinity false ->
  (exists m e, lo = S754_finite false m e) ->
  (exists m e, hi = S754_finite false m e) ->
  fle lo u = true -> fle u hi = true ->
  fle (fmul a lo) (fmul a u) = true /\ fle (fmul a u) (fmul a hi) = true.
Proof.
  intros Va Vlo Vhi Vu Ha (ml & el & ->) (mh & eh & ->) Hlo Hhi.
  destruct (between_positive _ _ _ _ _ Hlo Hhi) as (m & e & ->).
  destruct Ha as [(ma & ea & ->)| ->]; [|done].
  rewrite !(fmul_comm_finite false _ ma _ ea).
  split; by apply fmul_mono.
Qed.

(** The product of a finite non-negative float by a factor between a
    negative and a positive finite float lies between the two
    products. *)
Lemma fmul_between_signed (e lo hi u : float) :
  valid e -> valid lo -> valid hi -> valid u ->
  is_zero e = true \/ (exists m x, e = S754_finite false m x) ->
  (exists m x, lo = S754_finite true m x) ->
  (exists m x, hi = S754_finite false m x) ->
  fle lo u = true -> fle u hi = true ->
  fle (fmul lo e) (fmul u e) = true /\ fle (fmul u e) (fmul hi e) = true.
Proof.
  intros Ve Vlo Vhi Vu He (ml & el & ->) (mh & eh & ->) Hlo Hhi.
  pose proof (between_signed _ _ _ _ _ Hlo Hhi) as Hfin.
  destruct He as [He|(me & ee & ->)].
  { destruct e as [se| | |]; try discriminate.
    destruct u as [s|[]| |s m x]; try discriminate; by destruct s, se. }
  destruct u as [s|[]| |s m x]; try discriminate.
  - (* the factor is a zero *)
    split; apply SFleb_signs.
    + apply (fmul_sign true false); done.
    + by destruct s.
    + by destruct s.
    + apply (fmul_sign false false); done.
  - destruct s.
    + (* a negative factor *)
      split.
      * unfold fle, fmul, SFmul. simpl xorb.
        rewrite !binary_round_aux_opp.
        rewrite SFleb_opp.
        -- apply (fmul_mono me m ml ee x el); try done.
           unfold fle in Hlo.
           by rewrite <- (SFleb_opp (S754_finite false m x)
                                   (S754_finite false ml el)).
        -- apply (fmul_sign false false); done.
        -- apply (fmul_sign false false); done.
      * apply SFleb_signs.
        -- apply (fmul_sign true false); done.
        -- apply (fmul_sign false false); done.
    + (* a positive factor *)
      split.
      * apply SFleb_signs.
        -- apply (fmul_sign true false); done.
        -- apply (fmul_sign false false); done.
      * by apply fmul_mono.
Qed.

(** The product of the positive infinity by a factor that is not zero,
    between a negative and a positive finite float. *)
Lemma fmul_between_infinite (lo hi u : float) :
  (exists m x, lo = S754_finite true m x) ->
  (exists m x, hi = S754_finite false m x) ->
  fle lo u = true -> fle u hi = true -> is_zero u = false ->
  fle (fmul lo (S754_infinity false)) (fmul u (S754_infinity false)) = true
  /\ fle (fmul u (S754_infinity false)) (fmul hi (S754_infinity false)) = true.
Proof.
  intros (ml & el & ->) (mh & eh & ->) Hlo Hhi Hz.
  destruct u as [s|[]| |[] m x]; try discriminate; done.
Qed.

(** A product of positive floats is a zero, positive, or the positive
    infinity. *)
Lemma fmul_positive_form (mx my : positive) (ex ey : Z) :
  valid (S754_finite false mx ex) -> valid (S754_finite false my ey) ->
  let p := fmul (S754_finite false mx ex) (S754_finite false my ey) in
  is_zero p = true \/ (exists m e, p = S754_finite false m e)
  \/ p = S754_infinity false.
Proof.
  intros Vx Vy p.
  pose proof (fmul_sign false false _ _ _ _ Vx Vy) as H. fold p in H.
  simpl in H. destruct p as [s|[]| |[] m e]; try discriminate; eauto.
Qed.

End Between.

(** The constants of the simulator. *)
Lemma slippage_low : of_decimal false 95 (-2) = S754_finite false 8556839292003942 (-53).
Proof. vm_compute. reflexivity. Qed.

Lemma slippage_high : of_decimal false 105 (-2) = S754_finite false 4728779608739021 (-52).
Proof. vm_compute. reflexivity. Qed.

Lemma pnl_low : of_decimal true 1 (-1) = S754_finite true 7205759403792794 (-56).
Proof. vm_compute. reflexivity. Qed.

Lemma pnl_high : of_decimal false 2 (-1) = S754_finite false 7205759403792794 (-55).
Proof. vm_compute. reflexivity. Qed.

(** ** The loop, one turn at a time *)

Section LoopFacts.

Context {unicode : UnicodeData}.
Variable str_to_float : string -> option float.
Variable clock : nat -> datetime.

Lemma try_body_turn alert valid_alerts w :
  try_except (try_body str_to_float clock alert valid_alerts) (ret valid_alerts) w
  = (inr (fst (turn str_to_float clock alert valid_alerts w)),
     snd (turn str_to_float clock alert valid_alerts w)).
Proof.
  destruct w as [h t r].
  destruct alert as [| | | | |l|a]; try reflexivity.
  unfold turn, try_except, try_body, getitem, dict_get, the_dict, bind,
    lift, ret, raise, py_strptime, datetime_now; simpl.
  destruct (h !! a) as [d|] eqn:Hd; [|reflexivity].
  unfold judge, expiry_of, numbers_of, to_float; simpl.
  destruct (d !! "expiration") as [e|]; simpl; [|reflexivity].
  destruct e; simpl; try reflexivity.
  destruct (strptime s) as [expiry|]; simpl; [|reflexivity].
  rewrite Hd; simpl.
  destruct (d !! "average_price") as [v1|]; simpl; [|reflexivity].
  destruct (py_float str_to_float v1) as [|avg_price]; simpl; [reflexivity|].
  rewrite Hd; simpl.
  destruct (d !! "premium") as [v2|]; simpl; [|reflexivity].
  destruct (py_float str_to_float v2) as [|premium]; simpl; [reflexivity|].
  rewrite Hd; simpl.
  destruct (py_float str_to_float (default (PyInt 0) (d !! "volume")))
    as [|volume]; simpl; [reflexivity|].
  rewrite Hd; simpl.
  destruct (py_float str_to_float (default (PyInt 1) (d !! "open_interest")))
    as [|open_interest]; simpl; [reflexivity|].
  destruct (passes _ _ _ _); [|reflexivity].
  unfold setitem; simpl. rewrite Hd. simpl.
  rewrite lookup_insert_eq. simpl.
  unfold annotate. by rewrite insert_insert_eq.
Qed.

(** The loop is the iteration of [turn]: it never raises. *)
Lemma for_alerts_turns alerts : forall valid_alerts w,
  for_alerts str_to_float clock alerts valid_alerts w
  = (inr (fst (turns str_to_float clock alerts valid_alerts w)),
     snd (turns str_to_float clock alerts valid_alerts w)).
Proof.
  induction alerts as [|alert rest IH]; intros valid_alerts w; [reflexivity|].
  simpl. unfold bind at 1. rewrite try_body_turn. apply IH.
Qed.

Lemma filter_alerts_turns alerts w :
  filter_alerts str_to_float clock alerts w
  = (inr (fst (turns str_to_float clock alerts [] w)),
     snd (turns str_to_float clock alerts [] w)).
Proof. apply for_alerts_turns. Qed.

Lemma annotate_lookup_ne days ratio d (k : string) :
  k <> "days_to_expiry"%string -> k <> "volume_ratio"%string ->
  annotate days ratio d !! k = d !! k.
Proof.
  intros H1 H2. unfold annotate.
  rewrite lookup_insert_ne by congruence.
  by rewrite lookup_insert_ne by congruence.
Qed.

Lemma annotate_days days ratio d :
  annotate days ratio d !! "days_to_expiry" = Some (PyInt days).
Proof.
  unfold annotate. rewrite lookup_insert_ne by discriminate.
  apply lookup_insert_eq.
Qed.

Lemma annotate_ratio days ratio d :
  annotate days ratio d !! "volume_ratio" = Some (py_round2 ratio).
Proof. unfold annotate. apply lookup_insert_eq. Qed.

Lemma annotate_same days ratio d : same_but_annotations d (annotate days ratio d).
Proof. intros k. apply annotate_lookup_ne. Qed.

Lemma annotate_annotate days ratio days' ratio' d :
  annotate days ratio (annotate days' ratio' d) = annotate days ratio d.
Proof.
  apply map_eq; intros k.
  destruct (decide (k = "volume_ratio"%string)) as [->|H1].
  { by rewrite !annotate_ratio. }
  destruct (decide (k = "days_to_expiry"%string)) as [->|H2].
  { by rewrite !annotate_days. }
  by rewrite !annotate_lookup_ne.
Qed.

Lemma annotate_ext days ratio d d' :
  same_but_annotations d d' -> annotate days ratio d' = annotate days ratio d.
Proof.
  intros H. apply map_eq; intros k.
  destruct (decide (k = "volume_ratio"%string)) as [->|H1].
  { by rewrite !annotate_ratio. }
  destruct (decide (k = "days_to_expiry"%string)) as [->|H2].
  { by rewrite !annotate_days. }
  rewrite !annotate_lookup_ne by done. by apply H.
Qed.

Lemma expiry_of_same d d' :
  same_but_annotations d d' -> expiry_of d' = expiry_of d.
Proof. intros H. unfold expiry_of. by rewrite H. Qed.

Lemma numbers_of_same d d' :
  same_but_annotations d d' ->
  numbers_of str_to_float d' = numbers_of str_to_float d.
Proof. intros H. unfold numbers_of. by rewrite !H. Qed.

Lemma judge_same now d d' :
  same_but_annotations d d' ->
  judge str_to_float now d' = judge str_to_float now d.
Proof.
  intros H. unfold judge.
  by rewrite (expiry_of_same _ _ H), (numbers_of_same _ _ H).
Qed.

Lemma judge_annotate now days ratio d :
  judge str_to_float now (annotate days ratio d) = judge str_to_float now d.
Proof. apply judge_same, annotate_same. Qed.

(** A record that qualifies passes the four rules on the values read
    from it. *)
Lemma judge_Some now d days ratio :
  judge str_to_float now d = Some (days, ratio) ->
  exists expiry avg_price premium volume open_interest,
    expiry_of d = Some expiry
    /\ numbers_of str_to_float d = Some (avg_price, premium, volume, open_interest)
    /\ days = sub_days expiry now
    /\ ratio = NFloat (fdiv volume open_interest)
    /\ MIN_DAYS_TO_EXPIRY <= days
    /\ fge_Z avg_price MIN_AVERAGE_PRICE = true
    /\ fge_Z premium MIN_PREMIUM = true
    /\ fgt_Z open_interest 0 = true
    /\ fge (fdiv volume open_interest) VOLUME_MULTIPLIER = true.
Proof.
  unfold judge. intros H.
  destruct (expiry_of d) as [expiry|]; simpl in H; [|done].
  destruct (numbers_of str_to_float d) as [[[[avg_price premium] volume] oi]|];
    simpl in H; [|done].
  destruct (passes _ _ _ _) eqn:Hp; [|done].
  injection H as <- <-.
  unfold passes in Hp.
  apply andb_prop in Hp as [Hp H4]. apply andb_prop in Hp as [Hp H3].
  apply andb_prop in Hp as [H1 H2]. apply Z.leb_le in H1.
  exists expiry, avg_price, premium, volume, oi.
  unfold vol_ratio_of in *.
  destruct (fgt_Z oi 0) eqn:Hoi; [|by vm_compute in H4].
  simpl in H4. repeat split; done.
Qed.

(** The alerts kept by a run of the loop, for any clock. *)
Lemma turns_kept alerts : forall valid_alerts w,
  exists kept,
    fst (turns str_to_float clock alerts valid_alerts w) = valid_alerts ++ kept
    /\ kept `sublist_of` alerts
    /\ (forall x, x ∈ kept -> exists a, x = PyRef a)
    /\ (forall a, kept_record str_to_float clock w
                   (snd (turns str_to_float clock alerts valid_alerts w)) kept a)
    /\ draws (snd (turns str_to_float clock alerts valid_alerts w)) = draws w.
Proof.
  induction alerts as [|alert rest IH]; intros valid_alerts w.
  { exists []. simpl. rewrite app_nil_r. repeat split; auto.
    - intros x Hx. by apply elem_of_nil in Hx.
    - intros a. left. split; [apply not_elem_of_nil|done]. }
  simpl.
  destruct (IH (fst (turn str_to_float clock alert valid_alerts w))
               (snd (turn str_to_float clock alert valid_alerts w)))
    as (kept' & Hout & Hsub & Hrefs & Hrec & Hdraws).
  set (w' := snd (turns str_to_float clock rest _ _)) in *.
  unfold turn in *.
  destruct alert as [| | | | |l|a0];
    try (exists kept'; repeat split; auto using sublist_cons; fail).
  destruct (heap w !! a0) as [d0|] eqn:Hd0;
    [|exists kept'; repeat split; auto using sublist_cons; fail].
  destruct (judge str_to_float (clock (ticks w)) d0) as [[days0 ratio0]|] eqn:Hj0;
    [|exists kept'; repeat split; auto using sublist_cons; fail].
  simpl in *.
  exists (PyRef a0 :: kept'). split; [|split; [|split; [|split]]].
  - rewrite Hout. by rewrite <- app_assoc.
  - by apply sublist_skip.
  - intros x [->|Hx]%elem_of_cons; eauto.
  - intros a. destruct (Hrec a) as [[Hnot Heq]|[Hin Hann]]; simpl in *.
    + destruct (decide (a = a0)) as [->|Hne].
      * right. split; [apply list_elem_of_here|].
        exists d0, (ticks w), days0, ratio0.
        rewrite Heq, lookup_insert_eq. auto.
      * left. split.
        -- rewrite not_elem_of_cons. split; [congruence|done].
        -- rewrite Heq. by rewrite lookup_insert_ne.
    + right. split; [by apply list_elem_of_further|].
      destruct Hann as (d & n & days & ratio & Hd & Hj & Hd').
      destruct (decide (a = a0)) as [->|Hne].
      * rewrite lookup_insert_eq in Hd. injection Hd as <-.
        exists d0, n, days, ratio.
        rewrite judge_annotate in Hj. rewrite annotate_annotate in Hd'. auto.
      * rewrite lookup_insert_ne in Hd by done.
        exists d, n, days, ratio. auto.
  - done.
Qed.

(** The loop goes on from the list it has so far. *)
Lemma turns_acc alerts : forall valid_alerts w,
  turns str_to_float clock alerts valid_alerts w
  = (valid_alerts ++ fst (turns str_to_float clock alerts [] w),
     snd (turns str_to_float clock alerts [] w)).
Proof.
  induction alerts as [|x rest IH]; intros valid_alerts w; simpl.
  { by rewrite app_nil_r. }
  assert (Hx : turn str_to_float clock x valid_alerts w
               = (valid_alerts ++ fst (turn str_to_float clock x [] w),
                  snd (turn str_to_float clock x [] w))).
  { unfold turn. destruct x as [| | | | |l|a]; simpl; rewrite ?app_nil_r; try done.
    destruct (heap w !! a) as [d|]; simpl; rewrite ?app_nil_r; [|done].
    destruct (judge _ _ d) as [[days ratio]|]; simpl; rewrite ?app_nil_r; done. }
  rewrite Hx. simpl.
  rewrite (IH (valid_alerts ++ _)), (IH (fst (turn _ _ x [] w))).
  simpl. by rewrite app_assoc.
Qed.

Lemma turns_app l1 l2 : forall valid_alerts w,
  turns str_to_float clock (l1 ++ l2) valid_alerts w
  = turns str_to_float clock l2
      (fst (turns str_to_float clock l1 valid_alerts w))
      (snd (turns str_to_float clock l1 valid_alerts w)).
Proof.
  induction l1 as [|x rest IH]; intros valid_alerts w; simpl; [done|].
  apply IH.
Qed.

(** A dict of the input that qualifies at every reading of the clock is
    kept. *)
Lemma turns_complete alerts : forall valid_alerts w a d,
  PyRef a ∈ alerts -> heap w !! a = Some d ->
  (forall n, is_Some (judge str_to_float (clock n) d)) ->
  PyRef a ∈ fst (turns str_to_float clock alerts valid_alerts w).
Proof.
  induction alerts as [|x rest IH]; intros valid_alerts w a d Hin Hd Hq.
  { by apply elem_of_nil in Hin. }
  simpl.
  assert (Hstep : forall b, x = PyRef b -> b <> a ->
            heap (snd (turn str_to_float clock x valid_alerts w)) !! a = Some d).
  { intros b -> Hne. unfold turn.
    destruct (heap w !! b) as [db|] eqn:Hb; [|done].
    destruct (judge str_to_float (clock (ticks w)) db) as [[days ratio]|]; simpl;
      [|done].
    rewrite lookup_insert_ne; [done|congruence]. }
  destruct x as [| | | | |l|b];
    try (apply elem_of_cons in Hin as [Heq|Hin]; [discriminate|];
         by apply (IH _ _ a d Hin)).
  destruct (decide (b = a)) as [->|Hne].
  - destruct (Hq (ticks w)) as [[days ratio] Hj].
    assert (Hturn : fst (turn str_to_float clock (PyRef a) valid_alerts w)
                    = valid_alerts ++ [PyRef a])
      by (unfold turn; by rewrite Hd, Hj).
    rewrite turns_acc, Hturn. cbn [fst].
    apply elem_of_app. left. apply elem_of_app. right. apply list_elem_of_here.
  - apply elem_of_cons in Hin as [Heq|Hin]; [congruence|].
    apply (IH _ _ a d Hin); [|done]. by apply (Hstep b).
Qed.

End LoopFacts.

(** ** The loop at a fixed time, in closed form *)

Section FixedNowFacts.

Context {unicode : UnicodeData}.
Variable str_to_float : string -> option float.
Variable now : datetime.

Lemma judge_mark_at d :
  judge str_to_float now (mark_at str_to_float now d) = judge str_to_float now d.
Proof.
  unfold mark_at. destruct (judge str_to_float now d) as [[days ratio]|] eqn:E;
    [by rewrite judge_annotate | done].
Qed.

Lemma mark_at_idemp d :
  mark_at str_to_float now (mark_at str_to_float now d) = mark_at str_to_float now d.
Proof.
  unfold mark_at at 1. rewrite judge_mark_at.
  unfold mark_at. destruct (judge str_to_float now d) as [[days ratio]|];
    [apply annotate_annotate | done].
Qed.

Lemma mark_at_ext d d' :
  same_but_annotations d d' ->
  is_Some (judge str_to_float now d) ->
  mark_at str_to_float now d' = mark_at str_to_float now d.
Proof.
  intros H [[days ratio] Hj]. unfold mark_at.
  rewrite (judge_same _ _ _ _ H), Hj. by apply annotate_ext.
Qed.

Lemma turn_fixed x valid_alerts w :
  fst (turn str_to_float (always now) x valid_alerts w)
  = (if qualifies str_to_float now (heap w) x
     then valid_alerts ++ [x] else valid_alerts)
  /\ heap (snd (turn str_to_float (always now) x valid_alerts w))
     = mark str_to_float now (heap w) x
  /\ draws (snd (turn str_to_float (always now) x valid_alerts w)) = draws w.
Proof.
  unfold turn, qualifies, mark, always.
  destruct x as [| | | | |l|a]; try done.
  destruct (heap w !! a) as [d|] eqn:Hd.
  - destruct (judge str_to_float now d) as [[days ratio]|] eqn:Hj; simpl.
    + repeat split.
      apply map_eq; intros b. destruct (decide (a = b)) as [<-|Hne].
      * rewrite lookup_insert_eq, lookup_alter_eq, Hd. simpl.
        unfold mark_at. by rewrite Hj.
      * by rewrite lookup_insert_ne, lookup_alter_ne.
    + repeat split.
      apply map_eq; intros b. destruct (decide (a = b)) as [<-|Hne].
      * rewrite lookup_alter_eq, Hd. simpl. unfold mark_at. by rewrite Hj.
      * by rewrite lookup_alter_ne.
  - repeat split. apply map_eq; intros b. destruct (decide (a = b)) as [<-|Hne].
    + by rewrite lookup_alter_eq, Hd.
    + by rewrite lookup_alter_ne.
Qed.

Lemma lookup_mark h x a :
  mark str_to_float now h x !! a = h !! a
  \/ mark str_to_float now h x !! a = mark_at str_to_float now <$> h !! a.
Proof.
  destruct x as [| | | | |l|b]; simpl; auto.
  destruct (decide (b = a)) as [->|Hne].
  - right. apply lookup_alter_eq.
  - left. by apply lookup_alter_ne.
Qed.

(** Whether an alert qualifies is not changed by annotations. *)
Lemma qualifies_upto h h' :
  (forall a, option_Forall2 same_but_annotations (h !! a) (h' !! a)) ->
  forall x, qualifies str_to_float now h' x = qualifies str_to_float now h x.
Proof.
  intros H x. destruct x as [| | | | |l|a]; try done. simpl.
  destruct (H a) as [d d' Hdd|]; [|done].
  by rewrite (judge_same _ _ _ _ Hdd).
Qed.

Lemma qualifies_mark_at h h' :
  (forall a, h' !! a = h !! a \/ h' !! a = mark_at str_to_float now <$> h !! a) ->
  forall x, qualifies str_to_float now h' x = qualifies str_to_float now h x.
Proof.
  intros H x. destruct x as [| | | | |l|a]; try done. simpl.
  destruct (H a) as [-> | ->]; [done|].
  destruct (h !! a) as [d|]; simpl; [|done].
  by rewrite judge_mark_at.
Qed.

Lemma filter_qualifies_ext h h' (l : list pyval) :
  (forall x, qualifies str_to_float now h' x = qualifies str_to_float now h x) ->
  filter (fun x => qualifies str_to_float now h' x) l
  = filter (fun x => qualifies str_to_float now h x) l.
Proof. intros H. apply list_filter_iff. intros x. by rewrite H. Qed.

(** The loop in closed form: the alerts that qualify, in order, and the
    heap in which each alert of the list has been seen. *)
Lemma turns_fixed alerts : forall valid_alerts w,
  fst (turns str_to_float (always now) alerts valid_alerts w)
  = valid_alerts ++ filter (fun x => qualifies str_to_float now (heap w) x) alerts
  /\ heap (snd (turns str_to_float (always now) alerts valid_alerts w))
     = foldl (mark str_to_float now) (heap w) alerts
  /\ draws (snd (turns str_to_float (always now) alerts valid_alerts w)) = draws w.
Proof.
  induction alerts as [|x rest IH]; intros valid_alerts w; simpl.
  { by rewrite app_nil_r. }
  destruct (turn_fixed x valid_alerts w) as (H1 & H2 & H3).
  destruct (IH (fst (turn str_to_float (always now) x valid_alerts w))
               (snd (turn str_to_float (always now) x valid_alerts w)))
    as (I1 & I2 & I3).
  rewrite I1, I2, I3, H1, H2, H3. split; [|done].
  rewrite (filter_qualifies_ext (heap w) (mark str_to_float now (heap w) x))
    by (apply qualifies_mark_at; intros a; apply lookup_mark).
  rewrite filter_cons.
  destruct (qualifies str_to_float now (heap w) x) eqn:Hq.
  - simpl. by rewrite <- app_assoc.
  - done.
Qed.

Lemma lookup_marks l : forall h a,
  ((PyRef a ∉ l) /\ foldl (mark str_to_float now) h l !! a = h !! a)
  \/ ((PyRef a ∈ l)
      /\ foldl (mark str_to_float now) h l !! a
         = mark_at str_to_float now <$> h !! a).
Proof.
  induction l as [|x rest IH]; intros h a; simpl.
  { left. split; [apply not_elem_of_nil | done]. }
  assert (Hx : ((x <> PyRef a) /\ mark str_to_float now h x !! a = h !! a)
               \/ (x = PyRef a
                   /\ mark str_to_float now h x !! a
                      = mark_at str_to_float now <$> h !! a)).
  { destruct x as [| | | | |l|b]; simpl; try (left; split; [discriminate|done]).
    destruct (decide (b = a)) as [->|Hne].
    - right. split; [done | apply lookup_alter_eq].
    - left. split; [congruence | by apply lookup_alter_ne]. }
  destruct (IH (mark str_to_float now h x) a) as [[Hnot Heq]|[Hin Heq]];
    destruct Hx as [[Hne Hm]|[-> Hm]]; rewrite Heq, Hm.
  - left. split; [|done]. rewrite not_elem_of_cons. done.
  - right. split; [apply list_elem_of_here | done].
  - right. split; [by apply list_elem_of_further | done].
  - right. split; [apply list_elem_of_here |].
    destruct (h !! a) as [d|]; simpl; [|done]. by rewrite mark_at_idemp.
Qed.

Lemma qualifies_marks l h x :
  qualifies str_to_float now (foldl (mark str_to_float now) h l) x
  = qualifies str_to_float now h x.
Proof.
  apply qualifies_mark_at. intros a.
  destruct (lookup_marks l h a) as [[_ ->]|[_ ->]]; auto.
Qed.

(** The filter at a fixed time, in closed form. *)
Lemma filter_alerts_fixed alerts w :
  exists w',
    filter_alerts str_to_float (always now) alerts w
    = (inr (filter (fun x => qualifies str_to_float now (heap w) x) alerts), w')
    /\ heap w' = foldl (mark str_to_float now) (heap w) alerts
    /\ draws w' = draws w.
Proof.
  rewrite filter_alerts_turns.
  destruct (turns_fixed alerts [] w) as (H1 & H2 & H3).
  eexists. split; [|split; [exact H2 | exact H3]].
  by rewrite H1.
Qed.

(** An alert of the output is a dict that qualified. *)
Lemma qualifies_true h x :
  qualifies str_to_float now h x = true ->
  exists a d days ratio,
    x = PyRef a /\ h !! a = Some d
    /\ judge str_to_float now d = Some (days, ratio).
Proof.
  destruct x as [| | | | |l|a]; simpl; try discriminate.
  destruct (h !! a) as [d|] eqn:Hd; [|discriminate].
  intros [[days ratio] Hj]%bool_decide_eq_true.
  exists a, d, days, ratio. auto.
Qed.

Lemma numbers_of_bad d (k : string) v e :
  k ∈ ["average_price"; "premium"; "volume"; "open_interest"]%string ->
  d !! k = Some v ->
  py_float str_to_float v = inl e ->
  numbers_of str_to_float d = None.
Proof.
  intros Hk Hv He. unfold numbers_of.
  destruct (d !! "average_price" ≫= to_float str_to_float) eqn:E1; simpl; [|done].
  destruct (d !! "premium" ≫= to_float str_to_float) eqn:E2; simpl; [|done].
  destruct (to_float str_to_float (default (PyInt 0) (d !! "volume"))) eqn:E3;
    simpl; [|done].
  destruct (to_float str_to_float (default (PyInt 1) (d !! "open_interest")))
    eqn:E4; simpl; [|done].
  exfalso.
  repeat (apply elem_of_cons in Hk as [->|Hk]); [| | | |by apply elem_of_nil in Hk];
    rewrite Hv in *; simpl in *; unfold to_float in *; rewrite He in *;
    discriminate.
Qed.

Lemma malformed_judge h x :
  malformed str_to_float h x -> qualifies str_to_float now h x = false.
Proof.
  intros [a d s Hd He Hs | a d k v e Hd Hk Hv He]; simpl; rewrite Hd;
    apply bool_decide_eq_false_2; intros [[days ratio] Hj];
    apply judge_Some in Hj
      as (expiry & avg & premium & volume & oi & Hex & Hnum & _).
  - unfold expiry_of in Hex. rewrite He in Hex. congruence.
  - rewrite (numbers_of_bad _ _ _ _ Hk Hv He) in Hnum. discriminate.
Qed.

End FixedNowFacts.

(** ** The filter *)

(** C1. At a fixed current time, the filter returns a list taken from
    its input in the input's order, hence no longer than the input, and
    every record of that list passes the four rules (at least 30 days to
    expiry, an average price of at least 5, a premium of at least 100000,
    a volume ratio of at least 1.5) on the values read back from the
    record, and carries in [days_to_expiry] and [volume_ratio] the values
    recomputed from these. *)
Theorem filter_alerts_sound {unicode : UnicodeData}
    (str_to_float : string -> option float)
    (now : datetime) (w : world) (alerts : list pyval) :
  exists out w',
    filter_alerts str_to_float (always now) alerts w = (inr out, w')
    /\ out `sublist_of` alerts
    /\ (length out <= length alerts)%nat
    /\ forall x, x ∈ out ->
         exists a d expiry avg_price premium volume open_interest,
           x = PyRef a /\ heap w' !! a = Some d
           /\ expiry_of d = Some expiry
           /\ numbers_of str_to_float d
              = Some (avg_price, premium, volume, open_interest)
           /\ MIN_DAYS_TO_EXPIRY <= sub_days expiry now
           /\ fge_Z avg_price MIN_AVERAGE_PRICE = true
           /\ fge_Z premium MIN_PREMIUM = true
           /\ vol_ratio_of volume open_interest
              = NFloat (fdiv volume open_interest)
           /\ fge (fdiv volume open_interest) VOLUME_MULTIPLIER = true
           /\ d !! "days_to_expiry" = Some (PyInt (sub_days expiry now))
           /\ d !! "volume_ratio"
              = Some (PyFloat (round2 (fdiv volume open_interest))).
Proof.
  destruct (filter_alerts_fixed str_to_float now alerts w) as (w' & Hrun & Hheap & _).
  eexists _, w'. split; [exact Hrun|].
  split; [apply sublist_filter|].
  split; [apply length_filter|].
  intros x [Hq Hin]%list_elem_of_filter.
  apply Is_true_true in Hq.
  apply qualifies_true in Hq as (a & d0 & days & ratio & -> & Hd0 & Hj).
  destruct (lookup_marks str_to_float now alerts (heap w) a) as [[Hnot _]|[_ Hm]];
    [done|].
  rewrite <- Hheap, Hd0 in Hm. simpl in Hm.
  unfold mark_at in Hm. rewrite Hj in Hm.
  apply judge_Some in Hj
    as (expiry & avg & premium & volume & oi & Hex & Hnum & -> & -> & H1 & H2 & H3 & H4 & H5).
  exists a, (annotate (sub_days expiry now) (NFloat (fdiv volume oi)) d0),
    expiry, avg, premium, volume, oi.
  split; [done|]. split; [done|].
  split; [by rewrite (expiry_of_same _ _ (annotate_same _ _ _))|].
  split; [by rewrite (numbers_of_same _ _ _ (annotate_same _ _ _))|].
  repeat split; try done.
  - unfold vol_ratio_of. by rewrite H4.
  - apply annotate_days.
  - apply annotate_ratio.
Qed.

(** C2. A record whose open interest is zero or negative gets the
    volume ratio 0, whatever its volume, and is never in the output of
    the filter, whatever the other fields, the rest of the input and
    the clock. *)
Theorem nonpositive_open_interest_rejected {unicode : UnicodeData}
    (str_to_float : string -> option float) (clock : nat -> datetime)
    (w : world) (alerts : list pyval)
    (a : loc) (d : pydict) (v : pyval) (open_interest : float) :
  heap w !! a = Some d ->
  d !! "open_interest" = Some v ->
  py_float str_to_float v = inr open_interest ->
  fle_Z open_interest 0 = true ->
  (forall volume, vol_ratio_of volume open_interest = NInt 0)
  /\ exists out w',
       filter_alerts str_to_float clock alerts w = (inr out, w')
       /\ PyRef a ∉ out.
Proof.
  intros Hd Hv Hf Hle.
  assert (Hgt : fgt_Z open_interest 0 = false).
  { unfold fle_Z, fgt_Z in *.
    by destruct (compare_Z open_interest 0) as [[]|]. }
  split.
  { intros volume. unfold vol_ratio_of. by rewrite Hgt. }
  rewrite filter_alerts_turns.
  destruct (turns_kept str_to_float clock alerts [] w)
    as (kept & Hout & _ & _ & Hrec & _).
  eexists _, _. split; [reflexivity|].
  rewrite Hout. simpl.
  destruct (Hrec a) as [[Hnot _]|[_ (d' & n & days & ratio & Hd' & Hj & _)]];
    [done|].
  rewrite Hd in Hd'. injection Hd' as <-.
  apply judge_Some in Hj
    as (expiry & avg & premium & volume & oi & _ & Hnum & _ & _ & _ & _ & _ & Hoi & _).
  unfold numbers_of in Hnum. rewrite Hv in Hnum. simpl in Hnum.
  destruct (d !! "average_price" ≫= to_float str_to_float); simpl in Hnum; [|done].
  destruct (d !! "premium" ≫= to_float str_to_float); simpl in Hnum; [|done].
  destruct (to_float str_to_float (default (PyInt 0) (d !! "volume")));
    simpl in Hnum; [|done].
  unfold to_float in Hnum. rewrite Hf in Hnum. simpl in Hnum.
  injection Hnum as _ _ _ <-. congruence.
Qed.

(** C3. At a fixed current time, a malformed record (a dict whose
    expiration is a string that is no date, or one of whose four numbers
    does not convert) is dropped from the batch: the filter returns,
    without raising, the list it returns on the batch without that
    record, the record is not in it, and the dicts are left as that
    shorter batch leaves them. *)
Theorem malformed_record_dropped {unicode : UnicodeData}
    (str_to_float : string -> option float)
    (now : datetime) (w : world) (before after : list pyval) (bad : pyval) :
  malformed str_to_float (heap w) bad ->
  exists out w1 w2,
    filter_alerts str_to_float (always now) (before ++ bad :: after) w
    = (inr out, w1)
    /\ filter_alerts str_to_float (always now) (before ++ after) w
       = (inr out, w2)
    /\ (bad ∉ out)
    /\ heap w1 = heap w2.
Proof.
  intros Hbad.
  pose proof (malformed_judge str_to_float now _ _ Hbad) as Hq.
  destruct (filter_alerts_fixed str_to_float now (before ++ bad :: after) w)
    as (w1 & Hrun1 & Hheap1 & _).
  destruct (filter_alerts_fixed str_to_float now (before ++ after) w)
    as (w2 & Hrun2 & Hheap2 & _).
  exists (filter (fun x => qualifies str_to_float now (heap w) x) (before ++ after)),
    w1, w2.
  split; [|split; [exact Hrun2|split]].
  - rewrite Hrun1. f_equal. f_equal.
    rewrite !filter_app, filter_cons, Hq. done.
  - intros [Hq' _]%list_elem_of_filter. by rewrite Hq in Hq'.
  - rewrite Hheap1, Hheap2, !foldl_app. simpl. f_equal.
    destruct Hbad as [a d s Hd He Hs | a d k v e Hd Hk Hv He]; simpl;
      apply map_eq; intros b;
      (destruct (decide (a = b)) as [<-|Hne];
       [|by rewrite lookup_alter_ne]);
      rewrite lookup_alter_eq;
      (destruct (lookup_marks str_to_float now before (heap w) a)
         as [[_ ->]|[_ ->]]);
      rewrite Hd; simpl; rewrite ?mark_at_idemp; try done;
      f_equal; unfold mark_at.
    all: match goal with
         | |- context [judge ?f ?n ?d] =>
             destruct (judge f n d) as [[days ratio]|] eqn:Hj; [|done]
         end.
    all: exfalso; simpl in Hq; rewrite Hd in Hq;
      apply bool_decide_eq_false in Hq; apply Hq; eauto.
Qed.

(** C9. The filter annotates in place, whatever the clock.  Its output
    is taken from the input in order.  A dict is in the output only if it
    qualified at a reading of the clock, and it is then the dict of the
    input with the two fields [days_to_expiry] and [volume_ratio],
    computed at that reading, assigned on top of what it held, every
    other field being as it was.  A dict of the input that qualifies at
    every reading of the clock is in the output.  A dict that qualifies
    at no reading is not in the output, nor is a malformed one, and a
    dict that is not in the output is left as it was. *)
Theorem filter_alerts_in_place {unicode : UnicodeData}
    (str_to_float : string -> option float)
    (clock : nat -> datetime) (w : world) (alerts : list pyval) :
  exists out w',
    filter_alerts str_to_float clock alerts w = (inr out, w')
    /\ out `sublist_of` alerts
    /\ (forall x, x ∈ out ->
          exists a d n days ratio,
            x = PyRef a /\ heap w !! a = Some d
            /\ judge str_to_float (clock n) d = Some (days, ratio)
            /\ heap w' !! a
               = Some (<["volume_ratio" := py_round2 ratio]>
                         (<["days_to_expiry" := PyInt days]> d))
            /\ forall k : string,
                 k ∈ ["ticker"; "side"; "strike"; "expiration";
                      "average_price"; "premium"; "volume";
                      "open_interest"]%string ->
                 (<["volume_ratio" := py_round2 ratio]>
                    (<["days_to_expiry" := PyInt days]> d)) !! k
                 = d !! k)
    /\ (forall a d, PyRef a ∈ alerts -> heap w !! a = Some d ->
          (forall n, is_Some (judge str_to_float (clock n) d)) ->
          PyRef a ∈ out)
    /\ (forall a d, heap w !! a = Some d ->
          (forall n, judge str_to_float (clock n) d = None) ->
          PyRef a ∉ out)
    /\ (forall a, malformed str_to_float (heap w) (PyRef a) -> PyRef a ∉ out)
    /\ (forall a, PyRef a ∉ out -> heap w' !! a = heap w !! a).
Proof.
  rewrite filter_alerts_turns.
  destruct (turns_kept str_to_float clock alerts [] w)
    as (kept & Hout & Hsub & Hrefs & Hrec & _).
  assert (Hnone : forall a d, heap w !! a = Some d ->
            (forall n, judge str_to_float (clock n) d = None) ->
            PyRef a ∉ kept).
  { intros a d Hd Hno.
    destruct (Hrec a) as [[Hnot _]|[_ (d' & n & days & ratio & Hd' & Hj & _)]];
      [done|].
    rewrite Hd in Hd'. injection Hd' as <-. by rewrite Hno in Hj. }
  eexists _, _. split; [reflexivity|].
  pose proof (turns_complete str_to_float clock alerts [] w) as Hcomplete.
  rewrite Hout in *. simpl in *.
  split; [done|]. split; [|split; [|split; [|split]]].
  - intros x Hx. destruct (Hrefs x Hx) as [a ->].
    destruct (Hrec a) as [[Hnot _]|[_ (d & n & days & ratio & Hd & Hj & Hd')]];
      [done|].
    exists a, d, n, days, ratio.
    split; [done|]. split; [done|]. split; [done|]. split; [exact Hd'|].
    intros k Hk.
    rewrite !lookup_insert_ne; [done| |];
      intros <-; repeat (apply elem_of_cons in Hk as [Hk|Hk]; [discriminate|]);
      by apply elem_of_nil in Hk.
  - exact Hcomplete.
  - exact Hnone.
  - intros a Hbad.
    assert (Hd : exists d, heap w !! a = Some d) by (inversion Hbad; eauto).
    destruct Hd as [d Hd]. apply (Hnone a d Hd). intros n.
    pose proof (malformed_judge str_to_float (clock n) _ _ Hbad) as Hq.
    simpl in Hq. rewrite Hd in Hq. apply bool_decide_eq_false in Hq.
    destruct (judge str_to_float (clock n) d) eqn:Hj; [|done].
    exfalso. apply Hq. eauto.
  - intros a Ha. by destruct (Hrec a) as [[_ Heq]|[Hin _]].
Qed.

(** The annotations of a run do not touch what the filter reads. *)
Lemma filter_alerts_upto {unicode : UnicodeData}
    (str_to_float : string -> option float)
    (clock : nat -> datetime) (alerts : list pyval) (w : world) (a : loc) :
  option_Forall2 same_but_annotations
    (heap w !! a)
    (heap (snd (filter_alerts str_to_float clock alerts w)) !! a).
Proof.
  rewrite filter_alerts_turns. simpl.
  destruct (turns_kept str_to_float clock alerts [] w) as (kept & _ & _ & _ & Hrec & _).
  destruct (Hrec a) as [[_ ->]|[_ (d & n & days & ratio & -> & _ & ->)]].
  - destruct (heap w !! a); constructor. by intros k.
  - constructor. apply annotate_same.
Qed.

Lemma earlier_calls_upto {unicode : UnicodeData}
    (str_to_float : string -> option float)
    (calls : list ((nat -> datetime) * list pyval)) : forall (w : world) (a : loc),
  option_Forall2 same_but_annotations
    (heap w !! a) (heap (earlier_calls str_to_float calls w) !! a).
Proof.
  induction calls as [|[clock alerts] rest IH]; intros w a; simpl.
  { destruct (heap w !! a); constructor. by intros k. }
  pose proof (filter_alerts_upto str_to_float clock alerts w a) as H1.
  pose proof (IH (snd (filter_alerts str_to_float clock alerts w)) a) as H2.
  destruct H1 as [d d' Hdd'|]; inversion H2 as [? d'' Hd'' E1 E2|]; constructor.
  intros k K1 K2. rewrite Hd'' by done. by apply Hdd'.
Qed.

(** C6. For a fixed current time the result of the filter depends on
    nothing but its input: after any sequence of earlier calls of the
    filter, on any lists and at any times, a call on the same list at the
    same time returns the same records in the same order, and leaves in
    each of them the same values. *)
Theorem filter_alerts_deterministic {unicode : UnicodeData}
    (str_to_float : string -> option float)
    (now : datetime) (calls : list ((nat -> datetime) * list pyval))
    (w : world) (alerts : list pyval) :
  exists out w1 w2,
    filter_alerts str_to_float (always now) alerts w = (inr out, w1)
    /\ filter_alerts str_to_float (always now) alerts
         (earlier_calls str_to_float calls w) = (inr out, w2)
    /\ forall a, PyRef a ∈ out -> heap w2 !! a = heap w1 !! a.
Proof.
  destruct (filter_alerts_fixed str_to_float now alerts w)
    as (w1 & Hrun1 & Hheap1 & _).
  destruct (filter_alerts_fixed str_to_float now alerts
              (earlier_calls str_to_float calls w))
    as (w2 & Hrun2 & Hheap2 & _).
  pose proof (earlier_calls_upto str_to_float calls w) as Hupto.
  eexists _, w1, w2. split; [exact Hrun1|]. split.
  - rewrite Hrun2. f_equal. f_equal.
    apply filter_qualifies_ext, qualifies_upto, Hupto.
  - intros a [Hq Hin]%list_elem_of_filter.
    apply Is_true_true, qualifies_true in Hq
      as (a' & d & days & ratio & [= <-] & Hd & Hj).
    rewrite Hheap1, Hheap2.
    destruct (lookup_marks str_to_float now alerts (heap w) a)
      as [[Hnot _]|[_ ->]]; [done|].
    destruct (lookup_marks str_to_float now alerts
                (heap (earlier_calls str_to_float calls w)) a)
      as [[Hnot _]|[_ ->]]; [done|].
    specialize (Hupto a). rewrite Hd in Hupto.
    inversion Hupto as [? d' Hdd' E1 E2|]. rewrite Hd. simpl. f_equal.
    apply mark_at_ext; eauto.
Qed.

(** C10. At a fixed current time the filter is idempotent: run on its
    own output, it returns that output, and leaves every dict as the
    first run left it. *)
Theorem filter_alerts_idempotent {unicode : UnicodeData}
    (str_to_float : string -> option float)
    (now : datetime) (w : world) (alerts : list pyval) :
  exists out w1 w2,
    filter_alerts str_to_float (always now) alerts w = (inr out, w1)
    /\ filter_alerts str_to_float (always now) out w1 = (inr out, w2)
    /\ heap w2 = heap w1.
Proof.
  destruct (filter_alerts_fixed str_to_float now alerts w)
    as (w1 & Hrun1 & Hheap1 & _).
  set (out := filter (fun x => qualifies str_to_float now (heap w) x) alerts) in *.
  destruct (filter_alerts_fixed str_to_float now out w1)
    as (w2 & Hrun2 & Hheap2 & _).
  exists out, w1, w2. split; [exact Hrun1|]. split.
  - rewrite Hrun2. f_equal. f_equal.
    rewrite Hheap1.
    rewrite (filter_qualifies_ext str_to_float now (heap w))
      by (intros x; apply qualifies_marks).
    unfold out. rewrite list_filter_filter.
    apply list_filter_iff. intros x. tauto.
  - rewrite Hheap2. apply map_eq; intros a.
    destruct (lookup_marks str_to_float now out (heap w1) a)
      as [[_ ->]|[Hin ->]]; [done|].
    apply list_elem_of_filter in Hin as [_ Hin].
    rewrite Hheap1.
    destruct (lookup_marks str_to_float now alerts (heap w) a)
      as [[Hnot _]|[_ ->]]; [done|].
    destruct (heap w !! a) as [d|]; simpl; [|done].
    by rewrite mark_at_idemp.
Qed.

(** ** The fetch *)

(** The dummy data are three new dicts, the samples, in this order. *)
Lemma dummy_data_spec (w : world) :
  exists tsla nvda aapl w',
    dummy_data w = (inr (PyList [PyRef tsla; PyRef nvda; PyRef aapl]), w')
    /\ heap w !! tsla = None /\ heap w !! nvda = None /\ heap w !! aapl = None
    /\ tsla <> nvda /\ tsla <> aapl /\ nvda <> aapl
    /\ heap w' = <[aapl := AAPL]> (<[nvda := NVDA]> (<[tsla := TSLA]> (heap w)))
    /\ ticks w' = ticks w /\ draws w' = draws w.
Proof.
  set (h1 := <[fresh (dom (heap w)) := TSLA]> (heap w)).
  set (h2 := <[fresh (dom h1) := NVDA]> h1).
  exists (fresh (dom (heap w))), (fresh (dom h1)), (fresh (dom h2)).
  eexists. split; [reflexivity|]. simpl.
  pose proof (is_fresh (dom (heap w))) as F1.
  pose proof (is_fresh (dom h1)) as F2.
  pose proof (is_fresh (dom h2)) as F3.
  apply not_elem_of_dom in F1.
  apply not_elem_of_dom in F2.
  apply not_elem_of_dom in F3.
  unfold h2 in F3. unfold h1 in F2, F3.
  apply lookup_insert_None in F2 as [F2 N12].
  apply lookup_insert_None in F3 as [F3 N23].
  apply lookup_insert_None in F3 as [F3 N13].
  repeat split; auto.
Qed.

(** C4. The fetch never raises and fails open: when the request
    raises, when the status is not 200, when the body does not decode,
    and when it decodes to something that is neither a list nor a dict
    with the key ["chains"], the result is the dummy data, three new
    dicts holding the samples; a body that is a list is returned as it
    is, and of a dict with the key ["chains"] that field is returned. *)
Theorem fetch_alerts_fail_open (o : request_outcome) (w : world) :
  (exists v w', fetch_alerts o w = (inr v, w'))
  /\ fetch_alerts o w =
     match o with
     | RequestRaises => dummy_data w
     | RequestReturns r =>
         if status_code r =? 200 then
           match json r with
           | Some (PyList items) => (inr (PyList items), w)
           | Some (PyRef a) =>
               match heap w !! a ≫= (fun d : pydict => d !! "chains") with
               | Some chains => (inr chains, w)
               | None => dummy_data w
               end
           | _ => dummy_data w
           end
         else dummy_data w
     end
  /\ exists tsla nvda aapl w',
       dummy_data w = (inr (PyList [PyRef tsla; PyRef nvda; PyRef aapl]), w')
       /\ heap w' !! tsla = Some TSLA
       /\ heap w' !! nvda = Some NVDA
       /\ heap w' !! aapl = Some AAPL
       /\ forall a, is_Some (heap w !! a) -> heap w' !! a = heap w !! a.
Proof.
  assert (Hfetch : fetch_alerts o w =
     match o with
     | RequestRaises => dummy_data w
     | RequestReturns r =>
         if status_code r =? 200 then
           match json r with
           | Some (PyList items) => (inr (PyList items), w)
           | Some (PyRef a) =>
               match heap w !! a ≫= (fun d : pydict => d !! "chains") with
               | Some chains => (inr chains, w)
               | None => dummy_data w
               end
           | _ => dummy_data w
           end
         else dummy_data w
     end).
  { destruct o as [|[status body]]; [reflexivity|].
    unfold fetch_alerts, fetch_try, try_except, bind, requests_get,
      response_json, ret, raise; simpl.
    destruct (status =? 200); [|reflexivity].
    destruct body as [data|]; [|reflexivity].
    destruct data as [| | | | |l|a]; try reflexivity.
    unfold contains, getitem, the_dict, bind, ret, raise; simpl.
    destruct (heap w !! a) as [d|] eqn:Hd; simpl; [|reflexivity].
    destruct (d !! "chains") as [c|] eqn:Hc; simpl.
    - rewrite Hd. simpl. rewrite Hc. reflexivity.
    - reflexivity. }
  destruct (dummy_data_spec w)
    as (tsla & nvda & aapl & w' & Hd & F1 & F2 & F3 & N12 & N13 & N23 & Hh & _).
  split; [|split; [exact Hfetch|]].
  - rewrite Hfetch.
    destruct o as [|[status body]]; [eauto|]. simpl.
    destruct (status =? 200); [|eauto].
    destruct body as [data|]; [|eauto].
    destruct data; eauto.
    destruct (heap w !! a ≫= _); eauto.
  - exists tsla, nvda, aapl, w'. split; [exact Hd|]. rewrite Hh.
    split; [|split; [|split]].
    + rewrite lookup_insert_ne by congruence.
      rewrite lookup_insert_ne by congruence. apply lookup_insert_eq.
    + rewrite lookup_insert_ne by congruence. apply lookup_insert_eq.
    + apply lookup_insert_eq.
    + intros a [d Ha].
      rewrite !lookup_insert_ne; [done| | |]; intros <-; congruence.
Qed.

(** ** The sample data *)

Section SampleData.

Context {unicode : UnicodeData}.
Variable str_to_float : string -> option float.
Variable now : datetime.

(** The three expirations are at least 30 days away. *)
Hypothesis far_enough : forall d t,
  d ∈ [TSLA; NVDA; AAPL] -> expiry_of d = Some t ->
  MIN_DAYS_TO_EXPIRY <= sub_days t now.

Lemma judge_eq d expiry avg_price premium volume open_interest :
  expiry_of d = Some expiry ->
  numbers_of str_to_float d = Some (avg_price, premium, volume, open_interest) ->
  judge str_to_float now d
  = if passes (sub_days expiry now) avg_price premium
         (vol_ratio_of volume open_interest)
    then Some (sub_days expiry now, vol_ratio_of volume open_interest)
    else None.
Proof. intros H1 H2. unfold judge. rewrite H1, H2. reflexivity. Qed.

Lemma judge_TSLA :
  judge str_to_float now TSLA
  = Some (sub_days (mkdatetime 2025 12 20 0 0 0 0) now,
          NFloat (of_decimal false 25 (-1))).
Proof.
  assert (H : MIN_DAYS_TO_EXPIRY <= sub_days (mkdatetime 2025 12 20 0 0 0 0) now).
  { apply (far_enough TSLA); [apply list_elem_of_here | by vm_compute]. }
  rewrite (judge_eq TSLA (mkdatetime 2025 12 20 0 0 0 0)
             (of_decimal false 512 (-2))
             (S754_finite false 7215545057280000 (-35))
             (S754_finite false 8796093022208000 (-44))
             (S754_finite false 7036874417766400 (-45)))
    by (by vm_compute).
  unfold passes. apply Z.leb_le in H. rewrite H.
  replace (vol_ratio_of (S754_finite false 8796093022208000 (-44))
                        (S754_finite false 7036874417766400 (-45)))
    with (NFloat (of_decimal false 25 (-1))) by (by vm_compute).
  replace (fge_Z (of_decimal false 512 (-2)) MIN_AVERAGE_PRICE) with true
    by (by vm_compute).
  replace (fge_Z (S754_finite false 7215545057280000 (-35)) MIN_PREMIUM)
    with true by (by vm_compute).
  replace (num_ge (NFloat (of_decimal false 25 (-1))) VOLUME_MULTIPLIER)
    with true by (by vm_compute).
  reflexivity.
Qed.

Lemma judge_NVDA : judge str_to_float now NVDA = None.
Proof.
  rewrite (judge_eq NVDA (mkdatetime 2025 11 15 0 0 0 0)
             (of_decimal false 48 (-1))
             (S754_finite false 5153960755200000 (-35))
             (S754_finite false 5277655813324800 (-44))
             (S754_finite false 5277655813324800 (-45)))
    by (by vm_compute).
  unfold passes.
  replace (fge_Z (of_decimal false 48 (-1)) MIN_AVERAGE_PRICE) with false
    by (by vm_compute).
  by rewrite andb_false_r.
Qed.

Lemma judge_AAPL : judge str_to_float now AAPL = None.
Proof.
  rewrite (judge_eq AAPL (mkdatetime 2025 10 25 0 0 0 0)
             (of_decimal false 21 (-1))
             (S754_finite false 6871947673600000 (-37))
             (S754_finite false 7036874417766400 (-46))
             (S754_finite false 7036874417766400 (-45)))
    by (by vm_compute).
  unfold passes.
  replace (fge_Z (of_decimal false 21 (-1)) MIN_AVERAGE_PRICE) with false
    by (by vm_compute).
  by rewrite andb_false_r.
Qed.

(** On the dummy data and at a time that leaves the three expirations at
    least 30 days away, the filter keeps the TSLA record alone. *)
Lemma sample_data_filtered (w : world) :
  exists tsla nvda aapl w1 w2,
    fetch_alerts RequestRaises w
    = (inr (PyList [PyRef tsla; PyRef nvda; PyRef aapl]), w1)
    /\ filter_alerts str_to_float (always now)
         [PyRef tsla; PyRef nvda; PyRef aapl] w1
       = (inr [PyRef tsla], w2)
    /\ heap w2 !! tsla
       = Some (annotate (sub_days (mkdatetime 2025 12 20 0 0 0 0) now)
                        (NFloat (of_decimal false 25 (-1))) TSLA)
    /\ heap w2 !! nvda = Some NVDA
    /\ heap w2 !! aapl = Some AAPL.
Proof.
  destruct (dummy_data_spec w)
    as (tsla & nvda & aapl & w1 & Hd & F1 & F2 & F3 & N12 & N13 & N23 & Hh & _).
  assert (L1 : heap w1 !! tsla = Some TSLA).
  { rewrite Hh. rewrite !lookup_insert_ne by congruence. apply lookup_insert_eq. }
  assert (L2 : heap w1 !! nvda = Some NVDA).
  { rewrite Hh. rewrite lookup_insert_ne by congruence. apply lookup_insert_eq. }
  assert (L3 : heap w1 !! aapl = Some AAPL).
  { rewrite Hh. apply lookup_insert_eq. }
  destruct (filter_alerts_fixed str_to_float now
              [PyRef tsla; PyRef nvda; PyRef aapl] w1)
    as (w2 & Hrun & Hheap & _).
  exists tsla, nvda, aapl, w1, w2.
  split; [exact Hd|]. split.
  - rewrite Hrun. f_equal. f_equal.
    rewrite !filter_cons, filter_nil. simpl.
    rewrite L1, L2, L3, judge_TSLA, judge_NVDA, judge_AAPL. reflexivity.
  - rewrite Hheap. simpl.
    split; [|split];
      repeat first [rewrite lookup_alter_eq
                   | rewrite lookup_alter_ne by congruence];
      rewrite ?L1, ?L2, ?L3; simpl; unfold mark_at;
      by rewrite ?judge_TSLA, ?judge_NVDA, ?judge_AAPL.
Qed.

End SampleData.

(** C5, as the code has it.  On the sample data, at any time that
    leaves the three expirations at least 30 days away, the filter keeps
    the TSLA record alone, with the volume ratio 2.5; the NVDA record,
    whose average price 4.80 is below 5, is rejected like the AAPL
    record, and both are left as they were. *)
Theorem sample_data_only_TSLA {unicode : UnicodeData}
    (str_to_float : string -> option float)
    (now : datetime) (w : world) :
  (forall d t, d ∈ [TSLA; NVDA; AAPL] -> expiry_of d = Some t ->
     MIN_DAYS_TO_EXPIRY <= sub_days t now) ->
  exists tsla nvda aapl w1 w2,
    fetch_alerts RequestRaises w
    = (inr (PyList [PyRef tsla; PyRef nvda; PyRef aapl]), w1)
    /\ filter_alerts str_to_float (always now)
         [PyRef tsla; PyRef nvda; PyRef aapl] w1
       = (inr [PyRef tsla], w2)
    /\ (exists d, heap w2 !! tsla = Some d
          /\ d !! "ticker" = Some (PyStr "TSLA")
          /\ d !! "volume_ratio" = Some (PyFloat (of_decimal false 25 (-1))))
    /\ heap w2 !! nvda = Some NVDA
    /\ heap w2 !! aapl = Some AAPL
    /\ fge_Z (of_decimal false 48 (-1)) MIN_AVERAGE_PRICE = false.
Proof.
  intros Hfar.
  destruct (sample_data_filtered str_to_float now Hfar w)
    as (tsla & nvda & aapl & w1 & w2 & H1 & H2 & H3 & H4 & H5).
  exists tsla, nvda, aapl, w1, w2.
  split; [exact H1|]. split; [exact H2|]. split.
  - eexists. split; [exact H3|]. split.
    + rewrite annotate_lookup_ne by discriminate. by vm_compute.
    + rewrite annotate_ratio. by vm_compute.
  - split; [exact H4|]. split; [exact H5|]. by vm_compute.
Qed.

(** ** The simulator *)

(** The dry run computes the entry price [float(average_price) * u1]
    and the PnL [round(u2 * entry, 2)], [u1] and [u2] being the next two
    draws. *)
Lemma simulated_fill_run
    (str_to_float : string -> option float)
    (uniform : nat -> float -> float -> float)
    (w : world) (a : loc) (d : pydict) (v : pyval) (avg_price : float) :
  heap w !! a = Some d ->
  d !! "average_price" = Some v ->
  py_float str_to_float v = inr avg_price ->
  let u1 := uniform (draws w) (of_decimal false 95 (-2))
                    (of_decimal false 105 (-2)) in
  let u2 := uniform (S (draws w)) (of_decimal true 1 (-1))
                    (of_decimal false 2 (-1)) in
  simulated_fill str_to_float uniform (PyRef a) w
  = (inr (fmul avg_price u1, round2 (fmul u2 (fmul avg_price u1))),
     mkworld (heap w) (ticks w) (S (S (draws w)))).
Proof.
  intros Hd Hv Hf u1 u2.
  destruct w as [h t r]. simpl in *.
  unfold simulated_fill, getitem, the_dict, bind, lift, ret, raise,
    random_uniform; simpl.
  rewrite Hd, Hv, Hf. reflexivity.
Qed.

(** It then prints them with four fields of the trade. *)
Lemma simulate_trade_execution_dry_run
    (str_to_float : string -> option float)
    (uniform : nat -> float -> float -> float)
    (w : world) (a : loc) (d : pydict)
    (v ticker side strike expiration : pyval) (avg_price : float) :
  heap w !! a = Some d ->
  d !! "average_price" = Some v ->
  py_float str_to_float v = inr avg_price ->
  d !! "ticker" = Some ticker -> d !! "side" = Some side ->
  d !! "strike" = Some strike -> d !! "expiration" = Some expiration ->
  let u1 := uniform (draws w) (of_decimal false 95 (-2))
                    (of_decimal false 105 (-2)) in
  let u2 := uniform (S (draws w)) (of_decimal true 1 (-1))
                    (of_decimal false 2 (-1)) in
  simulate_trade_execution str_to_float uniform true (PyRef a) w
  = (inr (SimulatedTrade ticker side strike expiration
            (fmul avg_price u1) (round2 (fmul u2 (fmul avg_price u1)))),
     mkworld (heap w) (ticks w) (S (S (draws w)))).
Proof.
  intros Hd Hv Hf Ht Hs Hk He u1 u2.
  unfold simulate_trade_execution. unfold bind at 1.
  rewrite (simulated_fill_run str_to_float uniform w a d v avg_price Hd Hv Hf).
  unfold getitem, the_dict, bind, ret, raise; simpl.
  rewrite Hd, Ht. simpl. rewrite Hd, Hs. simpl.
  rewrite Hd, Hk. simpl. rewrite Hd, He. reflexivity.
Qed.

(** The average price of a record that qualifies is a positive number
    or the positive infinity. *)
Lemma fge_Z_positive (x : float) (n : Z) :
  0 < n -> fge_Z x n = true ->
  (exists m e, x = S754_finite false m e) \/ x = S754_infinity false.
Proof.
  intros Hn. unfold fge_Z, compare_Z.
  destruct x as [s|[]| |[] m e]; try discriminate; eauto.
  - destruct (Z.compare_spec 0 n); try discriminate; lia.
  - unfold cond_Zopp.
    destruct (Z.leb_spec 0 e).
    + assert (0 < 2 ^ e) by (apply Z.pow_pos_nonneg; lia).
      destruct (Z.compare_spec (- Zpos m * 2 ^ e) n); try discriminate; nia.
    + assert (0 < 2 ^ (- e)) by (apply Z.pow_pos_nonneg; lia).
      destruct (Z.compare_spec (- Zpos m) (n * 2 ^ (- e))); try discriminate; nia.
Qed.

(** C7, as the code has it.  In dry-run mode, for a record that
    qualifies, with valid floats for its average price and for the two
    draws [u1] in [[0.95, 1.05]] and [u2] in [[-0.1, 0.2]]: the
    simulator computes the entry price [average_price * u1], which lies
    between [average_price * 0.95] and [average_price * 1.05], and the
    PnL [round(u2 * entry, 2)], and prints them when the record holds the
    fields printed with them; and when the entry price is finite or [u2]
    is not zero, the product [u2 * entry] that the PnL is the rounding
    of lies between [-0.1 * entry] and [0.2 * entry]. *)
Theorem simulated_trade_bounds {unicode : UnicodeData}
    (str_to_float : string -> option float)
    (uniform : nat -> float -> float -> float)
    (now : datetime) (w : world) (a : loc) (d : pydict)
    (days : Z) (ratio : number) (v : pyval) (avg_price : float) :
  heap w !! a = Some d ->
  judge str_to_float now d = Some (days, ratio) ->
  d !! "average_price" = Some v ->
  py_float str_to_float v = inr avg_price ->
  let u1 := uniform (draws w) (of_decimal false 95 (-2))
                    (of_decimal false 105 (-2)) in
  let u2 := uniform (S (draws w)) (of_decimal true 1 (-1))
                    (of_decimal false 2 (-1)) in
  valid avg_price -> valid u1 -> valid u2 ->
  fle (of_decimal false 95 (-2)) u1 = true ->
  fle u1 (of_decimal false 105 (-2)) = true ->
  fle (of_decimal true 1 (-1)) u2 = true ->
  fle u2 (of_decimal false 2 (-1)) = true ->
  let entry := fmul avg_price u1 in
  let pnl := round2 (fmul u2 entry) in
  (exists w',
     simulated_fill str_to_float uniform (PyRef a) w = (inr (entry, pnl), w')
     /\ forall ticker side strike,
          d !! "ticker" = Some ticker -> d !! "side" = Some side ->
          d !! "strike" = Some strike ->
          exists expiration,
            simulate_trade_execution str_to_float uniform true (PyRef a) w
            = (inr (SimulatedTrade ticker side strike expiration entry pnl), w'))
  /\ fle (fmul avg_price (of_decimal false 95 (-2))) entry = true
  /\ fle entry (fmul avg_price (of_decimal false 105 (-2))) = true
  /\ (is_finite entry = true \/ is_zero u2 = false ->
      fle (fmul (of_decimal true 1 (-1)) entry) (fmul u2 entry) = true
      /\ fle (fmul u2 entry) (fmul (of_decimal false 2 (-1)) entry) = true).
Proof.
  intros Hd Hj Hv Hf u1 u2 Va V1 V2 L1 H1 L2 H2 entry pnl.
  pose proof Hj as Hj'.
  apply judge_Some in Hj'
    as (expiry & avg & premium & volume & oi & Hex & Hnum & _ & _ & _ & Havg & _).
  assert (avg = avg_price) as ->.
  { assert (T : to_float str_to_float v = Some avg_price)
      by (unfold to_float; by rewrite Hf).
    unfold numbers_of in Hnum. rewrite Hv in Hnum. simpl in Hnum.
    rewrite T in Hnum. simpl in Hnum.
    destruct (d !! "premium" ≫= to_float str_to_float); simpl in Hnum; [|done].
    destruct (to_float str_to_float (default (PyInt 0) (d !! "volume")));
      simpl in Hnum; [|done].
    destruct (to_float str_to_float (default (PyInt 1) (d !! "open_interest")));
      simpl in Hnum; [|done].
    by injection Hnum as <- _ _ _. }
  assert (Hexp : exists s, d !! "expiration" = Some (PyStr s)).
  { unfold expiry_of in Hex. destruct (d !! "expiration") as [[]|]; try done.
    eauto. }
  destruct Hexp as [s Hexp].
  assert (Hmin : 0 < MIN_AVERAGE_PRICE) by done.
  apply (fge_Z_positive _ _ Hmin) in Havg.
  assert (C1 : exists m e, of_decimal false 95 (-2) = S754_finite false m e)
    by (rewrite slippage_low; eauto).
  assert (C2 : exists m e, of_decimal false 105 (-2) = S754_finite false m e)
    by (rewrite slippage_high; eauto).
  assert (C3 : exists m e, of_decimal true 1 (-1) = S754_finite true m e)
    by (rewrite pnl_low; eauto).
  assert (C4 : exists m e, of_decimal false 2 (-1) = S754_finite false m e)
    by (rewrite pnl_high; eauto).
  assert (W1 : valid (of_decimal false 95 (-2))) by (by rewrite slippage_low).
  assert (W2 : valid (of_decimal false 105 (-2))) by (by rewrite slippage_high).
  assert (W3 : valid (of_decimal true 1 (-1))) by (by rewrite pnl_low).
  assert (W4 : valid (of_decimal false 2 (-1))) by (by rewrite pnl_high).
  destruct (fmul_between_positive avg_price (of_decimal false 95 (-2))
              (of_decimal false 105 (-2)) u1 Va W1 W2 V1 Havg C1 C2 L1 H1)
    as [B1 B2].
  split.
  { exists (mkworld (heap w) (ticks w) (S (S (draws w)))). split.
    - by apply (simulated_fill_run str_to_float uniform w a d v).
    - intros ticker side strike Ht Hs Hk. exists (PyStr s).
      by apply (simulate_trade_execution_dry_run str_to_float uniform w a d v). }
  split; [exact B1|]. split; [exact B2|].
  intros Hcond.
  assert (Hu1 : exists mu eu, u1 = S754_finite false mu eu).
  { destruct C1 as (m1 & e1 & E1). destruct C2 as (m2 & e2 & E2).
    rewrite E1 in L1. rewrite E2 in H1.
    exact (between_positive m1 m2 e1 e2 u1 L1 H1). }
  destruct Hu1 as (mu & eu & Hu1).
  clear B1 B2 Hd Hj Hv Hf Hex Hnum Hexp L1 H1 C1 C2 W1 W2.
  destruct Havg as [(ma & ea & Ha)| Ha].
  - (* a finite average price *)
    rewrite Ha in Va. rewrite Hu1 in V1.
    pose proof (fmul_valid _ _ _ _ _ _ Va V1) as Ve.
    pose proof (fmul_positive_form _ _ _ _ Va V1) as Hform.
    unfold entry in *. rewrite Ha, Hu1 in *. clear Ha Hu1.
    set (e := fmul (S754_finite false ma ea) (S754_finite false mu eu)) in *.
    destruct Hform as [Hz|[Hp|Hinf]].
    + by apply fmul_between_signed; auto.
    + by apply fmul_between_signed; auto.
    + rewrite Hinf in *.
      destruct Hcond as [Hc|Hc]; [discriminate|].
      by apply fmul_between_infinite.
  - (* an infinite average price *)
    assert (He : entry = S754_infinity false).
    { unfold entry. by rewrite Ha, Hu1. }
    rewrite He in *.
    destruct Hcond as [Hc|Hc]; [discriminate|].
    by apply fmul_between_infinite.
Qed.

(** * More of the program: the pieces of the filter, the fetch, the
    simulator, the mode and [main] *)

(** ** More on the filter *)

Section MoreFilterFacts.

Context {unicode : UnicodeData}.
Variable str_to_float : string -> option float.

(** The converse of [judge_Some]. *)
Lemma judge_intro now d expiry avg_price premium volume open_interest :
  expiry_of d = Some expiry ->
  numbers_of str_to_float d = Some (avg_price, premium, volume, open_interest) ->
  MIN_DAYS_TO_EXPIRY <= sub_days expiry now ->
  fge_Z avg_price MIN_AVERAGE_PRICE = true ->
  fge_Z premium MIN_PREMIUM = true ->
  fgt_Z open_interest 0 = true ->
  fge (fdiv volume open_interest) VOLUME_MULTIPLIER = true ->
  judge str_to_float now d
  = Some (sub_days expiry now, NFloat (fdiv volume open_interest)).
Proof.
  intros Hex Hnum H1 H2 H3 H4 H5. unfold judge. rewrite Hex, Hnum. simpl.
  unfold passes, vol_ratio_of. rewrite H4. simpl. rewrite H2, H3, H5.
  apply Z.leb_le in H1. by rewrite H1.
Qed.

(** An alert that does not qualify leaves the heap as it is. *)
Lemma mark_not_qualifies now h x :
  qualifies str_to_float now h x = false -> mark str_to_float now h x = h.
Proof.
  destruct x as [| | | | |l|a]; simpl; try done.
  intros Hq. apply map_eq. intros b.
  destruct (decide (a = b)) as [<-|Hne]; [|by rewrite lookup_alter_ne].
  rewrite lookup_alter_eq.
  destruct (h !! a) as [d|]; simpl; [|done].
  apply bool_decide_eq_false in Hq. unfold mark_at.
  destruct (judge str_to_float now d) as [[days ratio]|] eqn:Hj; [|done].
  exfalso. apply Hq. eauto.
Qed.

End MoreFilterFacts.

(** X1. At a fixed current time the filter is complete: a dict of the
    heap is in the output exactly when it is in the input and passes the
    four rules on the values read from it. *)
Theorem filter_alerts_complete {unicode : UnicodeData}
    (str_to_float : string -> option float)
    (now : datetime) (w : world) (alerts : list pyval) (a : loc) (d : pydict) :
  heap w !! a = Some d ->
  exists out w',
    filter_alerts str_to_float (always now) alerts w = (inr out, w')
    /\ (PyRef a ∈ out <->
        PyRef a ∈ alerts
        /\ exists expiry avg_price premium volume open_interest,
             expiry_of d = Some expiry
             /\ numbers_of str_to_float d
                = Some (avg_price, premium, volume, open_interest)
             /\ MIN_DAYS_TO_EXPIRY <= sub_days expiry now
             /\ fge_Z avg_price MIN_AVERAGE_PRICE = true
             /\ fge_Z premium MIN_PREMIUM = true
             /\ fgt_Z open_interest 0 = true
             /\ fge (fdiv volume open_interest) VOLUME_MULTIPLIER = true).
Proof.
  intros Hd.
  destruct (filter_alerts_fixed str_to_float now alerts w) as (w' & Hrun & _).
  eexists _, w'. split; [exact Hrun|].
  rewrite list_elem_of_filter. simpl. rewrite Hd.
  split.
  - intros [Hq Hin]. split; [done|].
    apply Is_true_true, bool_decide_eq_true in Hq as [[days ratio] Hj].
    apply judge_Some in Hj
      as (expiry & avg & premium & volume & oi & Hex & Hnum & -> & -> & H).
    exists expiry, avg, premium, volume, oi. auto.
  - intros [Hin (expiry & avg & premium & volume & oi & Hex & Hnum & H1 & H2
                 & H3 & H4 & H5)].
    split; [|done].
    apply Is_true_true, bool_decide_eq_true.
    rewrite (judge_intro str_to_float now d _ _ _ _ _ Hex Hnum H1 H2 H3 H4 H5).
    eauto.
Qed.

(** X2. Whatever the clock, a batch can be filtered in pieces: filtering
    [l1 ++ l2] is filtering [l1] and then [l2] in the world that is left,
    the two outputs put one after the other. *)
Theorem filter_alerts_app {unicode : UnicodeData}
    (str_to_float : string -> option float)
    (clock : nat -> datetime) (w : world) (l1 l2 : list pyval) :
  exists out1 out2 w1 w2,
    filter_alerts str_to_float clock l1 w = (inr out1, w1)
    /\ filter_alerts str_to_float clock l2 w1 = (inr out2, w2)
    /\ filter_alerts str_to_float clock (l1 ++ l2) w
       = (inr (out1 ++ out2), w2).
Proof.
  rewrite !filter_alerts_turns.
  eexists _, _, _, _. split; [reflexivity|].
  rewrite filter_alerts_turns. split; [reflexivity|].
  rewrite turns_app. rewrite (turns_acc _ _ l2 (fst _)). reflexivity.
Qed.

(** X3. At a fixed current time an element that the filter does not
    return, whatever it is (a dict that fails a rule or raises, or
    something that is no dict), can be taken out of the batch: the output
    and the dicts are the same without it. *)
Theorem unselected_alert_removable {unicode : UnicodeData}
    (str_to_float : string -> option float)
    (now : datetime) (w : world) (before after : list pyval) (x : pyval)
    (out : list pyval) (w1 : world) :
  filter_alerts str_to_float (always now) (before ++ x :: after) w
  = (inr out, w1) ->
  x ∉ out ->
  exists w2,
    filter_alerts str_to_float (always now) (before ++ after) w = (inr out, w2)
    /\ heap w2 = heap w1.
Proof.
  intros Hrun Hx.
  destruct (filter_alerts_fixed str_to_float now (before ++ x :: after) w)
    as (w1' & Hrun1 & Hheap1 & _).
  rewrite Hrun in Hrun1. injection Hrun1 as -> <-.
  destruct (filter_alerts_fixed str_to_float now (before ++ after) w)
    as (w2 & Hrun2 & Hheap2 & _).
  assert (Hq : qualifies str_to_float now (heap w) x = false).
  { destruct (qualifies str_to_float now (heap w) x) eqn:Hq; [|done].
    exfalso. apply Hx. apply list_elem_of_filter. split; [by rewrite Hq|].
    apply elem_of_app. right. apply list_elem_of_here. }
  exists w2. split.
  - rewrite Hrun2. f_equal. f_equal.
    by rewrite !filter_app, filter_cons, Hq.
  - rewrite Hheap1, Hheap2, !foldl_app. simpl. f_equal. symmetry.
    apply mark_not_qualifies. by rewrite qualifies_marks.
Qed.

(** X4. Whatever the clock, a record that lacks one of the fields
    [expiration], [average_price], [premium] and [volume] is never in
    the output: the first three raise [KeyError], and a missing volume
    counts as 0, which gives the ratio 0. *)
Theorem incomplete_record_rejected {unicode : UnicodeData}
    (str_to_float : string -> option float)
    (clock : nat -> datetime) (w : world) (alerts : list pyval)
    (a : loc) (d : pydict) (k : string) :
  heap w !! a = Some d ->
  k ∈ ["expiration"; "average_price"; "premium"; "volume"]%string ->
  d !! k = None ->
  exists out w',
    filter_alerts str_to_float clock alerts w = (inr out, w')
    /\ (PyRef a ∉ out).
Proof.
  intros Hd Hk Hnone.
  rewrite filter_alerts_turns.
  destruct (turns_kept str_to_float clock alerts [] w)
    as (kept & Hout & _ & _ & Hrec & _).
  eexists _, _. split; [reflexivity|].
  rewrite Hout. simpl.
  destruct (Hrec a) as [[Hnot _]|[_ (d' & n & days & ratio & Hd' & Hj & _)]];
    [done|].
  rewrite Hd in Hd'. injection Hd' as <-.
  apply judge_Some in Hj
    as (expiry & avg & premium & volume & oi & Hex & Hnum & _ & _ & _ & _ & _
        & Hoi & Hratio).
  unfold expiry_of, numbers_of in *.
  repeat (apply elem_of_cons in Hk as [->|Hk]); [| | | |by apply elem_of_nil in Hk];
    rewrite Hnone in *; try discriminate.
  - destruct (d !! "average_price" ≫= to_float str_to_float); simpl in Hnum;
      discriminate.
  - destruct (d !! "average_price" ≫= to_float str_to_float); simpl in Hnum; [|done].
    destruct (d !! "premium" ≫= to_float str_to_float); simpl in Hnum; [|done].
    destruct (to_float str_to_float (default (PyInt 1) (d !! "open_interest")))
      as [oi'|]; simpl in Hnum; [|done].
    injection Hnum as _ _ <- <-.
    destruct oi' as [s|s| |s m e]; discriminate.
Qed.

(** X17. The filter, whatever the clock: it makes no random draw, it
    reads the clock at most once for each alert, and it neither creates
    nor deletes a dict. *)
Theorem filter_alerts_frame {unicode : UnicodeData}
    (str_to_float : string -> option float)
    (clock : nat -> datetime) (w : world) (alerts : list pyval) :
  exists out w',
    filter_alerts str_to_float clock alerts w = (inr out, w')
    /\ draws w' = draws w
    /\ (ticks w <= ticks w' <= ticks w + length alerts)%nat
    /\ dom (heap w') = dom (heap w).
Proof.
  rewrite filter_alerts_turns. eexists _, _. split; [reflexivity|].
  generalize (@nil pyval) as valid_alerts. revert w.
  induction alerts as [|x rest IH]; intros w valid_alerts; simpl.
  { repeat split; lia. }
  destruct (IH (snd (turn str_to_float clock x valid_alerts w))
               (fst (turn str_to_float clock x valid_alerts w)))
    as (I1 & I2 & I3).
  rewrite I1, I3.
  assert (Hturn : draws (snd (turn str_to_float clock x valid_alerts w)) = draws w
                  /\ (ticks w <= ticks (snd (turn str_to_float clock x valid_alerts w))
                      <= S (ticks w))%nat
                  /\ dom (heap (snd (turn str_to_float clock x valid_alerts w)))
                     = dom (heap w)).
  { unfold turn. destruct x as [| | | | |l|a]; simpl; try (repeat split; lia).
    destruct (heap w !! a) as [d|] eqn:Hd; simpl; [|repeat split; lia].
    destruct (judge str_to_float (clock (ticks w)) d) as [[days ratio]|]; simpl.
    - split; [done|]. split; [lia|]. by apply dom_insert_lookup_L.
    - destruct (expiry_of d); repeat split; lia. }
  destruct Hturn as (T1 & T2 & T3). rewrite T1, T3.
  repeat split; lia.
Qed.

(** ** A missing open interest *)

(** Division by 1.0 is exact. *)
Lemma fdiv_one (x : float) :
  valid x -> fdiv x (S754_finite false 4503599627370496 (-52)) = x.
Proof.
  intros V. destruct x as [s|s| |s m e]; try (by destruct s); [done|].
  apply valid_finite in V as [V Hmax].
  pose proof (digits2_pos_bounds m) as [Hlo Hhi].
  set (d := Zpos (digits2_pos m)) in *.
  assert (Hd : 0 < d) by (unfold d; lia).
  unfold fdiv, SFdiv, SFdiv_core_binary.
  change (Zdigits2 (Zpos m)) with d.
  change (Zdigits2 4503599627370496) with 53.
  rewrite fexp_eq.
  set (e' := Z.max (d + e - 54) (-1074)).
  assert (He' : e' = e \/ e' = e - 1) by (unfold e'; lia).
  replace (Z.min (Z.max (d + e - (53 + -52) - 53) (-1074)) (e - -52)) with e'
    by (unfold e'; lia).
  assert (xorb s false = s) as -> by (by destruct s).
  replace (e - -52 - e') with ((e - e') + 52) by lia.
  destruct (e - e' + 52) as [|k|k] eqn:Hk; [lia| |lia].
  rewrite Z.shiftl_mul_pow2 by lia. rewrite <- Hk.
  rewrite Z.pow_add_r by lia.
  change (2 ^ 52) with 4503599627370496.
  rewrite Z.mul_assoc.
  destruct (Z.div_eucl (Zpos m * 2 ^ (e - e') * 4503599627370496) 4503599627370496)
    as [q r] eqn:Hdiv.
  assert (Hq : q = Zpos m * 2 ^ (e - e')).
  { transitivity (Zpos m * 2 ^ (e - e') * 4503599627370496 / 4503599627370496).
    - unfold Z.div. by rewrite Hdiv.
    - apply Z.div_mul. lia. }
  assert (Hr : r = 0).
  { transitivity ((Zpos m * 2 ^ (e - e') * 4503599627370496) mod 4503599627370496).
    - unfold Z.modulo. by rewrite Hdiv.
    - apply Z.mod_mul. lia. }
  subst q r.
  change (new_location 4503599627370496 0) with loc_Exact.
  destruct He' as [He'|He'].
  - replace (e - e') with 0 by lia. rewrite Z.mul_1_r, He'.
    rewrite binary_round_aux_pack by (rewrite fexp_eq; fold d; lia).
    rewrite fexp_eq. fold d. rewrite <- V, Z.sub_diag.
    change (2 ^ 0) with 1.
    assert (div_half_even (Zpos m) 1 = Zpos m) as ->.
    { unfold div_half_even. rewrite Z.div_1_r, Z.mod_1_r. reflexivity. }
    unfold pack.
    assert (Hm : Zpos m < 2 ^ 53).
    { assert (2 ^ d <= 2 ^ 53) by (apply Z.pow_le_mono_r; lia). lia. }
    destruct (Z.eqb_spec (Zpos m) (2 ^ 53)); [lia|].
    destruct (Z.leb_spec e 971); [done|lia].
  - replace (e - e') with 1 by lia. rewrite He'.
    change (2 ^ 1) with 2.
    replace (Zpos m * 2) with (Zpos (m~0)) by lia.
    assert (Hd2 : Zpos (digits2_pos m~0) = d + 1) by (unfold d; simpl; lia).
    rewrite binary_round_aux_pack by (rewrite fexp_eq, Hd2; lia).
    rewrite fexp_eq, Hd2.
    replace (Z.max (d + 1 + (e - 1) - 53) (-1074)) with e by lia.
    replace (e - (e - 1)) with 1 by lia.
    change (2 ^ 1) with 2.
    assert (div_half_even (Zpos m~0) 2 = Zpos m) as ->.
    { unfold div_half_even.
      replace (Zpos m~0) with (Zpos m * 2) by lia.
      rewrite Z.div_mul, Z.mod_mul by lia. reflexivity. }
    unfold pack.
    assert (Hm : Zpos m < 2 ^ 53).
    { assert (2 ^ d <= 2 ^ 53) by (apply Z.pow_le_mono_r; lia). lia. }
    destruct (Z.eqb_spec (Zpos m) (2 ^ 53)); [lia|].
    destruct (Z.leb_spec e 971); [done|lia].
Qed.

(** X18. A record without the field [open_interest] is judged on its
    volume alone, whatever the clock: the open interest counts as 1, so
    that, for a volume that is a valid float, the record is in the output
    only if the volume itself is at least 1.5, and it then carries
    [round(volume, 2)] as its volume ratio. *)
Theorem missing_open_interest_counts_as_one {unicode : UnicodeData}
    (str_to_float : string -> option float) (clock : nat -> datetime)
    (w : world) (alerts : list pyval) (a : loc) (d : pydict)
    (v : pyval) (volume : float) :
  heap w !! a = Some d ->
  d !! "open_interest" = None ->
  d !! "volume" = Some v ->
  py_float str_to_float v = inr volume ->
  valid volume ->
  exists out w',
    filter_alerts str_to_float clock alerts w = (inr out, w')
    /\ (PyRef a ∈ out ->
        fge volume VOLUME_MULTIPLIER = true
        /\ exists d', heap w' !! a = Some d'
             /\ d' !! "volume_ratio" = Some (PyFloat (round2 volume))).
Proof.
  intros Hd Hoi Hv Hf Hvalid.
  rewrite filter_alerts_turns.
  destruct (turns_kept str_to_float clock alerts [] w)
    as (kept & Hout & _ & _ & Hrec & _).
  eexists _, _. split; [reflexivity|].
  rewrite Hout. simpl. intros Hin.
  destruct (Hrec a) as [[Hnot _]|[_ (d0 & n & days & ratio & Hd0 & Hj & Hd')]];
    [done|].
  rewrite Hd in Hd0. injection Hd0 as <-.
  apply judge_Some in Hj
    as (expiry & avg & premium & volume' & oi & _ & Hnum & _ & -> & _ & _ & _ & _
        & Hratio).
  unfold numbers_of in Hnum. rewrite Hoi, Hv in Hnum. simpl in Hnum.
  destruct (d !! "average_price" ≫= to_float str_to_float); simpl in Hnum; [|done].
  destruct (d !! "premium" ≫= to_float str_to_float); simpl in Hnum; [|done].
  unfold to_float at 1 in Hnum. rewrite Hf in Hnum. simpl in Hnum.
  injection Hnum as _ _ <- <-.
  change (fexp prec emax (1 + 0)) with (-52) in *.
  rewrite (fdiv_one volume Hvalid) in *.
  split; [exact Hratio|].
  eexists. split; [exact Hd'|]. apply annotate_ratio.
Qed.

(** ** The days to expiry *)

(** A parsed expiration is at midnight. *)
Lemma strptime_midnight {unicode : UnicodeData} (s : string) (t : datetime) :
  strptime s = Some t ->
  hour t = 0 /\ minute t = 0 /\ second t = 0 /\ microsecond t = 0.
Proof.
  unfold strptime.
  destruct (re_match s) as [[[[y m] d] rest]|]; [|done].
  destruct rest; [|done].
  destruct ((1 <=? y) && (d <=? days_in_month y m)); [|done].
  by intros [= <-].
Qed.

(** From midnight back to a time of the day: the whole days. *)
Lemma sub_days_midnight (expiry now : datetime) :
  hour expiry = 0 -> minute expiry = 0 -> second expiry = 0 ->
  microsecond expiry = 0 ->
  clock_time now ->
  sub_days expiry now
  = toordinal expiry - toordinal now - (if time_of_day now =? 0 then 0 else 1).
Proof.
  intros Hh Hm Hs Hu (H1 & H2 & H3 & H4).
  unfold sub_days, time_of_day. rewrite Hh, Hm, Hs, Hu.
  destruct now as [y mo dd h mi sec us]; simpl in *.
  destruct (_ =? 0) eqn:E.
  - apply Z.eqb_eq in E.
    assert (h = 0 /\ mi = 0 /\ sec = 0 /\ us = 0) as (-> & -> & -> & ->) by lia.
    reflexivity.
  - apply Z.eqb_neq in E.
    assert (((0 + 0 * 60 + 0 * 3600 - (sec + mi * 60 + h * 3600)
             + (0 - us) / 1000000) / 86400) = -1); [|lia].
    assert (Hus : (0 - us) / 1000000 = if us =? 0 then 0 else -1).
    { destruct (us =? 0) eqn:U.
      - apply Z.eqb_eq in U. by subst.
      - apply Z.eqb_neq in U. symmetry.
        apply (Z.div_unique _ _ _ (1000000 - us)); lia. }
    rewrite Hus.
    symmetry.
    apply (Z.div_unique _ _ _
             (86400 - (sec + mi * 60 + h * 3600) + (if us =? 0 then 0 else -1))).
    + left. destruct (us =? 0) eqn:U; [apply Z.eqb_eq in U|]; lia.
    + lia.
Qed.

(** X5. The days to expiry count whole days only: the expiration is at
    midnight and the current time is not, so that the number is one less
    than the number of calendar days between the two dates, except when
    the clock is read at midnight sharp. *)
Theorem days_to_expiry_floor {unicode : UnicodeData}
    (s : string) (expiry now : datetime) :
  strptime s = Some expiry ->
  clock_time now ->
  sub_days expiry now
  = toordinal expiry - toordinal now - (if time_of_day now =? 0 then 0 else 1).
Proof.
  intros (Hh & Hm & Hs & Hu)%strptime_midnight Hnow.
  by apply sub_days_midnight.
Qed.

(** X6. Hence the rule of the 30 days is stricter than the calendar:
    whatever the rest of the record, an expiration that is 30 calendar
    days or less after the date of the clock is rejected when the clock
    shows a time after midnight. *)
Theorem thirty_calendar_days_rejected {unicode : UnicodeData}
    (str_to_float : string -> option float)
    (clock : nat -> datetime) (w : world) (alerts : list pyval)
    (a : loc) (d : pydict) (s : string) (expiry : datetime) :
  heap w !! a = Some d ->
  d !! "expiration" = Some (PyStr s) ->
  strptime s = Some expiry ->
  (forall n, clock_time (clock n) /\ 0 < time_of_day (clock n)
             /\ toordinal expiry - toordinal (clock n) <= 30) ->
  exists out w',
    filter_alerts str_to_float clock alerts w = (inr out, w')
    /\ (PyRef a ∉ out).
Proof.
  intros Hd He Hs Hclock.
  rewrite filter_alerts_turns.
  destruct (turns_kept str_to_float clock alerts [] w)
    as (kept & Hout & _ & _ & Hrec & _).
  eexists _, _. split; [reflexivity|].
  rewrite Hout. simpl.
  destruct (Hrec a) as [[Hnot _]|[_ (d' & n & days & ratio & Hd' & Hj & _)]];
    [done|].
  rewrite Hd in Hd'. injection Hd' as <-.
  apply judge_Some in Hj
    as (expiry' & avg & premium & volume & oi & Hex & _ & -> & _ & Hdays & _).
  unfold expiry_of in Hex. rewrite He, Hs in Hex. injection Hex as <-.
  destruct (Hclock n) as (Hct & Hpos & Hcal).
  destruct (strptime_midnight s _ Hs) as (Hh & Hm & Hsec & Hu).
  rewrite (sub_days_midnight _ _ Hh Hm Hsec Hu Hct) in Hdays.
  destruct (time_of_day (clock n) =? 0) eqn:E;
    [apply Z.eqb_eq in E; lia|].
  unfold MIN_DAYS_TO_EXPIRY in Hdays. lia.
Qed.

(** ** More on the fetch and on the simulator *)

(** X7. The fetch reads neither the clock nor the random source and
    changes no dict: it leaves the world as it is, or, when it falls back
    to the dummy data, adds to the heap three dicts that were not there
    before, different from one another, so that the samples of one fetch
    are not the annotated samples of an earlier one. *)
Theorem fetch_alerts_frame (o : request_outcome) (w : world) :
  exists v w',
    fetch_alerts o w = (inr v, w')
    /\ ticks w' = ticks w /\ draws w' = draws w
    /\ heap w ⊆ heap w'
    /\ (w' = w
        \/ exists tsla nvda aapl,
             v = PyList [PyRef tsla; PyRef nvda; PyRef aapl]
             /\ NoDup [tsla; nvda; aapl]
             /\ heap w !! tsla = None /\ heap w !! nvda = None
             /\ heap w !! aapl = None
             /\ heap w' = <[aapl := AAPL]> (<[nvda := NVDA]> (<[tsla := TSLA]> (heap w)))).
Proof.
  set (P := fun r : (exn + pyval) * world =>
    exists v w',
      r = (inr v, w')
      /\ ticks w' = ticks w /\ draws w' = draws w
      /\ heap w ⊆ heap w'
      /\ (w' = w
          \/ exists tsla nvda aapl,
               v = PyList [PyRef tsla; PyRef nvda; PyRef aapl]
               /\ NoDup [tsla; nvda; aapl]
               /\ heap w !! tsla = None /\ heap w !! nvda = None
               /\ heap w !! aapl = None
               /\ heap w' = <[aapl := AAPL]> (<[nvda := NVDA]> (<[tsla := TSLA]> (heap w))))).
  change (P (fetch_alerts o w)).
  assert (Hdummy : P (dummy_data w)).
  { destruct (dummy_data_spec w)
      as (tsla & nvda & aapl & w' & Hd & F1 & F2 & F3 & N12 & N13 & N23 & Hh & Ht & Hr).
    eexists _, w'. split; [exact Hd|]. split; [done|]. split; [done|]. split.
    - rewrite Hh.
      etrans; [|apply insert_subseteq; by rewrite !lookup_insert_ne].
      etrans; [|apply insert_subseteq; by rewrite !lookup_insert_ne].
      by apply insert_subseteq.
    - right. exists tsla, nvda, aapl. repeat split; try done.
      apply NoDup_cons_2;
        [rewrite !elem_of_cons; intros [?|[?|?%elem_of_nil]]; congruence|].
      apply NoDup_cons_2;
        [rewrite !elem_of_cons; intros [?|?%elem_of_nil]; congruence|].
      apply NoDup_singleton. }
  assert (Hsame : forall v, P (inr v, w)).
  { intros v. exists v, w. repeat split; auto. }
  destruct o as [|[status body]]; [exact Hdummy|].
  unfold fetch_alerts, fetch_try, try_except, bind, requests_get,
    response_json, ret, raise; simpl.
  destruct (status =? 200); [|exact Hdummy].
  destruct body as [data|]; [|exact Hdummy].
  destruct data as [| | | | |l|a]; try exact Hdummy; [apply Hsame|].
  unfold contains, getitem, the_dict, bind, ret, raise; simpl.
  destruct (heap w !! a) as [d|] eqn:Hd; simpl; [|exact Hdummy].
  destruct (d !! "chains") as [c|] eqn:Hc; simpl; [|exact Hdummy].
  rewrite Hd. simpl. rewrite Hc. apply Hsame.
Qed.

(** X8. The simulator changes no dict and does not read the clock; in
    live mode it draws nothing and leaves the world as it is, and a dry
    run that returns has made exactly two draws. *)
Theorem simulate_trade_execution_frame {unicode : UnicodeData}
    (str_to_float : string -> option float)
    (uniform : nat -> float -> float -> float)
    (DRY_RUN : bool) (trade : pyval) (w : world) :
  let r := simulate_trade_execution str_to_float uniform DRY_RUN trade w in
  heap (snd r) = heap w
  /\ ticks (snd r) = ticks w
  /\ (DRY_RUN = false -> snd r = w)
  /\ (DRY_RUN = true -> forall p, fst r = inr p ->
        draws (snd r) = S (S (draws w))).
Proof.
  destruct w as [h t n].
  destruct DRY_RUN; simpl;
    unfold simulate_trade_execution, simulated_fill, getitem, the_dict, bind,
      lift, ret, raise, random_uniform; simpl.
  - destruct trade as [| | | | |l|a]; simpl; try by repeat split.
    destruct (h !! a) as [d|] eqn:Hd; simpl; [|by repeat split].
    destruct (d !! "average_price") as [v|]; simpl; [|by repeat split].
    destruct (py_float str_to_float v) as [|avg]; simpl; [by repeat split|].
    rewrite Hd. simpl.
    destruct (d !! "ticker"); simpl; [|by repeat split].
    rewrite Hd. simpl.
    destruct (d !! "side"); simpl; [|by repeat split].
    rewrite Hd. simpl.
    destruct (d !! "strike"); simpl; [|by repeat split].
    rewrite Hd. simpl.
    destruct (d !! "expiration"); simpl; by repeat split.
  - destruct trade as [| | | | |l|a]; simpl; try by repeat split.
    destruct (h !! a) as [d|] eqn:Hd; simpl; [|by repeat split].
    destruct (d !! "ticker"); simpl; by repeat split.
Qed.

(** ** The lowest entry price *)

(** Multiplication of positive floats is monotone in both factors. *)
Lemma fmul_mono_both (mx mx' my my' : positive) (ex ex' ey ey' : Z) :
  valid (S754_finite false mx ex) -> valid (S754_finite false mx' ex') ->
  valid (S754_finite false my ey) -> valid (S754_finite false my' ey') ->
  SFleb (S754_finite false mx ex) (S754_finite false mx' ex') = true ->
  SFleb (S754_finite false my ey) (S754_finite false my' ey') = true ->
  SFleb (fmul (S754_finite false mx ex) (S754_finite false my ey))
        (fmul (S754_finite false mx' ex') (S754_finite false my' ey')) = true.
Proof.
  intros Vx Vx' Vy Vy' Hx Hy.
  pose proof (SFleb_value _ _ _ _ Vx Vx' Hx) as Hvx.
  pose proof (SFleb_value _ _ _ _ Vy Vy' Hy) as Hvy.
  pose proof (product_exponent_ok _ _ _ _ _ _ Vx Vy) as K.
  pose proof (product_exponent_ok _ _ _ _ _ _ Vx' Vy') as K'.
  apply valid_finite in Vx as [Vx _]. apply valid_finite in Vx' as [Vx' _].
  apply valid_finite in Vy as [Vy _]. apply valid_finite in Vy' as [Vy' _].
  unfold fmul, SFmul. simpl xorb.
  apply (round_exact_mono _ _ _ _ (-1074 + -1074)); [lia|lia|done|done|].
  rewrite !Pos2Z.inj_mul.
  replace (ex + ey - (-1074 + -1074)) with ((ex + 1074) + (ey + 1074)) by lia.
  replace (ex' + ey' - (-1074 + -1074)) with ((ex' + 1074) + (ey' + 1074)) by lia.
  rewrite (Z.pow_add_r 2 (ex + 1074) (ey + 1074)),
    (Z.pow_add_r 2 (ex' + 1074) (ey' + 1074)) by lia.
  assert (0 < 2 ^ (ex + 1074)) by (apply pow2_pos; lia).
  assert (0 < 2 ^ (ey + 1074)) by (apply pow2_pos; lia).
  assert (P : (Z.pos mx * 2 ^ (ex + 1074)) * (Z.pos my * 2 ^ (ey + 1074))
              <= (Z.pos mx' * 2 ^ (ex' + 1074)) * (Z.pos my' * 2 ^ (ey' + 1074))).
  { apply Z.mul_le_mono_nonneg;
      [apply Z.mul_nonneg_nonneg; lia | exact Hvx
      | apply Z.mul_nonneg_nonneg; lia | exact Hvy]. }
  eapply Z.le_trans; [|eapply Z.le_trans; [exact P|]];
    apply Z.eq_le_incl; ring.
Qed.

(** A valid float that is at least the integer 5 is at least the float
    5.0. *)
Lemma fge_Z_five (m : positive) (e : Z) :
  valid (S754_finite false m e) ->
  fge_Z (S754_finite false m e) 5 = true ->
  SFleb (S754_finite false 5629499534213120 (-50)) (S754_finite false m e) = true.
Proof.
  intros [V _]%valid_finite H.
  pose proof (digits2_pos_bounds m) as [_ Hhi].
  assert (Hm : Zpos m < 2 ^ 53).
  { assert (2 ^ Zpos (digits2_pos m) <= 2 ^ 53) by (apply Z.pow_le_mono_r; lia).
    lia. }
  unfold fge_Z, compare_Z, cond_Zopp in H.
  destruct (Z.leb_spec 0 e) as [He|He].
  { apply SFleb_finite_intro; lia. }
  assert (Hge : 5 * 2 ^ (- e) <= Zpos m).
  { destruct (Z.compare_spec (Zpos m) (5 * 2 ^ (- e))); try discriminate; lia. }
  clear H.
  destruct (Z_lt_le_dec e (-50)) as [Hlt|Hle].
  - exfalso.
    assert (2 ^ 51 <= 2 ^ (- e)) by (apply Z.pow_le_mono_r; lia).
    change (2 ^ 53) with (4 * 2 ^ 51) in Hm. lia.
  - apply SFleb_finite_intro; [lia|].
    intros <-. change (2 ^ (- -50)) with 1125899906842624 in Hge. lia.
Qed.

(** X10. In a dry run on a record that qualifies, with a valid float for
    its average price and a valid first draw in [[0.95, 1.05]], the entry
    price printed is at least 4.75: the average price is at least 5 and
    the product is rounded monotonically ([5 * 0.95] is the float 4.75). *)
Theorem simulated_entry_floor {unicode : UnicodeData}
    (str_to_float : string -> option float)
    (uniform : nat -> float -> float -> float)
    (now : datetime) (w : world) (a : loc) (d : pydict)
    (days : Z) (ratio : number) (v : pyval) (avg_price : float) :
  heap w !! a = Some d ->
  judge str_to_float now d = Some (days, ratio) ->
  d !! "average_price" = Some v ->
  py_float str_to_float v = inr avg_price ->
  let u1 := uniform (draws w) (of_decimal false 95 (-2))
                    (of_decimal false 105 (-2)) in
  valid avg_price -> valid u1 ->
  fle (of_decimal false 95 (-2)) u1 = true ->
  fle u1 (of_decimal false 105 (-2)) = true ->
  exists entry pnl w',
    simulated_fill str_to_float uniform (PyRef a) w = (inr (entry, pnl), w')
    /\ entry = fmul avg_price u1
    /\ fle (of_decimal false 475 (-2)) entry = true.
Proof.
  intros Hd Hj Hv Hf u1 Va V1 L1 H1.
  eexists _, _, _. split.
  { by apply (simulated_fill_run str_to_float uniform w a d v). }
  split; [reflexivity|]. fold u1.
  apply judge_Some in Hj
    as (expiry & avg & premium & volume & oi & Hex & Hnum & _ & _ & _ & Havg & _).
  assert (avg = avg_price) as ->.
  { assert (T : to_float str_to_float v = Some avg_price)
      by (unfold to_float; by rewrite Hf).
    unfold numbers_of in Hnum. rewrite Hv in Hnum. simpl in Hnum.
    rewrite T in Hnum. simpl in Hnum.
    destruct (d !! "premium" ≫= to_float str_to_float); simpl in Hnum; [|done].
    destruct (to_float str_to_float (default (PyInt 0) (d !! "volume")));
      simpl in Hnum; [|done].
    destruct (to_float str_to_float (default (PyInt 1) (d !! "open_interest")));
      simpl in Hnum; [|done].
    by injection Hnum as <- _ _ _. }
  clear Hd Hv Hf Hex Hnum.
  rewrite slippage_low in L1. rewrite slippage_high in H1.
  destruct (between_positive _ _ _ _ _ L1 H1) as (mu & eu & Hu).
  rewrite Hu in *. clear H1.
  assert (Hmin : 0 < MIN_AVERAGE_PRICE) by done.
  pose proof Havg as Hpos.
  apply (fge_Z_positive _ _ Hmin) in Hpos.
  destruct Hpos as [(ma & ea & ->)| ->]; [|done].
  apply (fge_Z_five _ _ Va) in Havg.
  replace (of_decimal false 475 (-2))
    with (fmul (S754_finite false 5629499534213120 (-50))
               (S754_finite false 8556839292003942 (-53)))
    by (vm_compute; reflexivity).
  unfold fle. apply fmul_mono_both; try done.
Qed.

(** ** The loop of [main] *)

Section MainFacts.

Context {unicode : UnicodeData}.
Variable str_to_float : string -> option float.
Variable clock : nat -> datetime.
Variable uniform : nat -> float -> float -> float.
Variable stdout_encodes : event -> bool.
Variable DRY_RUN : bool.

Lemma io_bind_ok {A B} (m : io A) (k : A -> io B) c x c' :
  m c = (inr x, c') -> io_bind m k c = k x c'.
Proof. intros H. unfold io_bind. by rewrite H. Qed.

Lemma io_bind_err {A B} (m : io A) (k : A -> io B) c e c' :
  m c = (inl e, c') -> io_bind m k c = (inl e, c').
Proof. intros H. unfold io_bind. by rewrite H. Qed.

Lemma run_eq {A} (m : py A) w out r w' :
  m w = (r, w') -> run m (mkconsole w out) = (r, mkconsole w' out).
Proof. intros H. unfold run. simpl. by rewrite H. Qed.

Lemma print_ok (e : event) w out :
  accepted stdout_encodes e = true ->
  print stdout_encodes e (mkconsole w out) = (inr tt, mkconsole w (out ++ [e])).
Proof. intros H. unfold print. by rewrite H. Qed.

Lemma print_err (e : event) c :
  accepted stdout_encodes e = false ->
  print stdout_encodes e c = (inl UnicodeEncodeError, c).
Proof. intros H. unfold print. by rewrite H. Qed.

Lemma sleeps_app (l1 l2 : list event) :
  sleeps (l1 ++ l2) = (sleeps l1 + sleeps l2)%nat.
Proof.
  induction l1 as [|e l1 IH]; [done|]. simpl. destruct e; by rewrite ?IH.
Qed.

Lemma getitem_Some w a d (key : string) v :
  heap w !! a = Some d -> d !! key = Some v ->
  getitem (PyRef a) key w = (inr v, w).
Proof.
  intros Hd Hv. unfold getitem, the_dict, bind, ret. rewrite Hd. simpl.
  by rewrite Hv.
Qed.

Lemma getitem_None w a d (key : string) :
  heap w !! a = Some d -> d !! key = None ->
  getitem (PyRef a) key w = (inl KeyError, w).
Proof.
  intros Hd Hv. unfold getitem, the_dict, bind, raise. rewrite Hd. simpl.
  by rewrite Hv.
Qed.

(** The simulator on a record with the fields it reads: the line it
    computes. *)
Lemma simulate_trade_execution_returns w a d v avg_price ticker side strike e :
  heap w !! a = Some d ->
  d !! "average_price" = Some v ->
  py_float str_to_float v = inr avg_price ->
  d !! "ticker" = Some ticker -> d !! "side" = Some side ->
  d !! "strike" = Some strike -> d !! "expiration" = Some e ->
  exists p w',
    simulate_trade_execution str_to_float uniform DRY_RUN (PyRef a) w = (inr p, w')
    /\ heap w' = heap w /\ ticks w' = ticks w
    /\ match p with
       | SimulatedTrade t s k x _ _ =>
           DRY_RUN = true /\ t = ticker /\ s = side /\ k = strike /\ x = e
       | LiveTrade t => DRY_RUN = false /\ t = ticker
       end.
Proof.
  intros Hd Hv Hf Ht Hs Hk He. destruct DRY_RUN.
  - eexists _, _. split.
    + by apply (simulate_trade_execution_dry_run str_to_float uniform w a d v
                  ticker side strike e avg_price).
    + done.
  - unfold simulate_trade_execution. unfold bind.
    rewrite (getitem_Some w a d "ticker" ticker Hd Ht). by eexists _, _.
Qed.

(** The simulator on a record without a ticker. *)
Lemma simulate_trade_execution_no_ticker w a d v avg_price :
  heap w !! a = Some d ->
  d !! "average_price" = Some v ->
  py_float str_to_float v = inr avg_price ->
  d !! "ticker" = None ->
  fst (simulate_trade_execution str_to_float uniform DRY_RUN (PyRef a) w)
  = inl KeyError.
Proof.
  intros Hd Hv Hf Ht. destruct w as [h t r]. simpl in Hd.
  destruct DRY_RUN;
    unfold simulate_trade_execution, simulated_fill, getitem, the_dict, bind,
      lift, ret, raise, random_uniform; simpl.
  - rewrite Hd. simpl. rewrite Hv. simpl. rewrite Hf. simpl.
    rewrite Hd. simpl. by rewrite Ht.
  - rewrite Hd. simpl. by rewrite Ht.
Qed.

(** The call of the simulator, with its [print]. *)
Lemma simulate_and_print_eq (x : pyval) w out p w' :
  simulate_trade_execution str_to_float uniform DRY_RUN x w = (inr p, w') ->
  simulate_and_print str_to_float uniform stdout_encodes DRY_RUN x
    (mkconsole w out)
  = if stdout_encodes (Printed p)
    then (inr tt, mkconsole w' (out ++ [Printed p]))
    else (inl UnicodeEncodeError, mkconsole w' out).
Proof.
  intros Hsim. unfold simulate_and_print.
  rewrite (io_bind_ok _ _ _ _ _ (run_eq _ _ out _ _ Hsim)).
  unfold print. simpl. by destruct (stdout_encodes (Printed p)).
Qed.

(** One trade is reported: its line and the line of the simulator, as
    far as stdout encodes them. *)
Lemma report_trade_eq w out a d :
  printable str_to_float (heap w) (PyRef a) -> heap w !! a = Some d ->
  is_Some (d !! "ticker") -> is_Some (d !! "side") -> is_Some (d !! "strike") ->
  exists t s k e pr dte vr q w',
    d !! "ticker" = Some t /\ d !! "side" = Some s /\ d !! "strike" = Some k
    /\ d !! "expiration" = Some e /\ d !! "premium" = Some pr
    /\ d !! "days_to_expiry" = Some dte /\ d !! "volume_ratio" = Some vr
    /\ heap w' = heap w /\ ticks w' = ticks w
    /\ report_trade str_to_float uniform stdout_encodes DRY_RUN (PyRef a)
         (mkconsole w out)
       = if stdout_encodes (TradeLine t s k e pr dte vr)
         then if stdout_encodes (Printed q)
              then (inr tt,
                    mkconsole w' (out ++ [TradeLine t s k e pr dte vr; Printed q]))
              else (inl UnicodeEncodeError,
                    mkconsole w' (out ++ [TradeLine t s k e pr dte vr]))
         else (inl UnicodeEncodeError, mkconsole w out).
Proof.
  intros (a' & d' & [= <-] & Hd' & [e He] & [pr Hpr] & [dte Hdte] & [vr Hvr]
          & v & avg & Hv & Hf) Hd [t Ht] [s Hs] [k Hk].
  rewrite Hd in Hd'. injection Hd' as <-.
  destruct (simulate_trade_execution_returns w a d v avg t s k e
              Hd Hv Hf Ht Hs Hk He) as (q & w' & Hsim & Hh & Hticks & _).
  exists t, s, k, e, pr, dte, vr, q, w'.
  do 7 (split; [done|]). split; [done|]. split; [done|].
  unfold report_trade.
  rewrite (io_bind_ok _ _ _ _ _ (run_eq _ _ out _ _ (getitem_Some w a d _ _ Hd Ht))).
  rewrite (io_bind_ok _ _ _ _ _ (run_eq _ _ out _ _ (getitem_Some w a d _ _ Hd Hs))).
  rewrite (io_bind_ok _ _ _ _ _ (run_eq _ _ out _ _ (getitem_Some w a d _ _ Hd Hk))).
  rewrite (io_bind_ok _ _ _ _ _ (run_eq _ _ out _ _ (getitem_Some w a d _ _ Hd He))).
  rewrite (io_bind_ok _ _ _ _ _ (run_eq _ _ out _ _ (getitem_Some w a d _ _ Hd Hpr))).
  rewrite (io_bind_ok _ _ _ _ _ (run_eq _ _ out _ _ (getitem_Some w a d _ _ Hd Hdte))).
  rewrite (io_bind_ok _ _ _ _ _ (run_eq _ _ out _ _ (getitem_Some w a d _ _ Hd Hvr))).
  destruct (stdout_encodes (TradeLine t s k e pr dte vr)) eqn:Hline.
  - rewrite (io_bind_ok _ _ _ _ _
               (print_ok (TradeLine t s k e pr dte vr) w out Hline)).
    rewrite (simulate_and_print_eq _ _ _ _ _ Hsim).
    destruct (stdout_encodes (Printed q)); [|done].
    by rewrite <- app_assoc.
  - by rewrite (io_bind_err _ _ _ _ _
                  (print_err (TradeLine t s k e pr dte vr) (mkconsole w out)
                     Hline)).
Qed.

(** A trade without one of the three fields stops the report with a
    [KeyError], before anything is printed for it. *)
Lemma report_trade_raises w out a d (key : string) :
  heap w !! a = Some d ->
  key ∈ ["ticker"; "side"; "strike"]%string -> d !! key = None ->
  report_trade str_to_float uniform stdout_encodes DRY_RUN (PyRef a)
    (mkconsole w out)
  = (inl KeyError, mkconsole w out).
Proof.
  intros Hd Hkey Hnone. unfold report_trade.
  destruct (d !! "ticker") as [t|] eqn:Ht.
  2:{ by rewrite (io_bind_err _ _ _ _ _
                    (run_eq _ _ out _ _ (getitem_None w a d _ Hd Ht))). }
  rewrite (io_bind_ok _ _ _ _ _ (run_eq _ _ out _ _ (getitem_Some w a d _ _ Hd Ht))).
  destruct (d !! "side") as [s|] eqn:Hs.
  2:{ by rewrite (io_bind_err _ _ _ _ _
                    (run_eq _ _ out _ _ (getitem_None w a d _ Hd Hs))). }
  rewrite (io_bind_ok _ _ _ _ _ (run_eq _ _ out _ _ (getitem_Some w a d _ _ Hd Hs))).
  destruct (d !! "strike") as [k|] eqn:Hk.
  2:{ by rewrite (io_bind_err _ _ _ _ _
                    (run_eq _ _ out _ _ (getitem_None w a d _ Hd Hk))). }
  exfalso.
  repeat (apply elem_of_cons in Hkey as [->|Hkey]); [| | |by apply elem_of_nil in Hkey];
    congruence.
Qed.

(** What the report of one trade that can be printed comes to: it
    returns with its two lines, or it raises one of two exceptions and
    prints no sleep. *)
Lemma report_trade_cases w out a :
  printable str_to_float (heap w) (PyRef a) ->
  (exists t s k e pr dte vr q w',
     report_trade str_to_float uniform stdout_encodes DRY_RUN (PyRef a)
       (mkconsole w out)
     = (inr tt, mkconsole w' (out ++ [TradeLine t s k e pr dte vr; Printed q]))
     /\ heap w' = heap w /\ ticks w' = ticks w)
  \/ (exists err c',
        report_trade str_to_float uniform stdout_encodes DRY_RUN (PyRef a)
          (mkconsole w out) = (inl err, c')
        /\ sleeps (output c') = sleeps out
        /\ (err = KeyError \/ err = UnicodeEncodeError)
        /\ (err = KeyError ->
            exists d (key : string),
              heap w !! a = Some d
              /\ key ∈ ["ticker"; "side"; "strike"]%string /\ d !! key = None)
        /\ (err = UnicodeEncodeError -> exists e, stdout_encodes e = false)).
Proof.
  intros Hpr.
  pose proof Hpr as (a' & d & [= <-] & Hd & _).
  destruct (decide (is_Some (d !! "ticker") /\ is_Some (d !! "side")
                    /\ is_Some (d !! "strike"))) as [(Ht & Hs & Hk)|Hno].
  - destruct (report_trade_eq w out a d Hpr Hd Ht Hs Hk)
      as (t & s & k & e & pr & dte & vr & q & w' & _ & _ & _ & _ & _ & _ & _
          & Hh & Hticks & Hrun).
    rewrite Hrun.
    destruct (stdout_encodes (TradeLine t s k e pr dte vr)) eqn:Hline.
    + destruct (stdout_encodes (Printed q)) eqn:Hq.
      * left. exists t, s, k, e, pr, dte, vr, q, w'. done.
      * right. eexists _, _. split; [reflexivity|]. simpl.
        split; [by rewrite sleeps_app; simpl; lia|].
        split; [by right|]. split; [done|]. eauto.
    + right. eexists _, _. split; [reflexivity|]. simpl.
      split; [done|]. split; [by right|]. split; [done|]. eauto.
  - assert (Hkey : exists key : string,
              key ∈ ["ticker"; "side"; "strike"]%string /\ d !! key = None).
    { destruct (d !! "ticker") eqn:Ht;
        [|exists "ticker"%string; split; [repeat constructor|done]].
      destruct (d !! "side") eqn:Hs;
        [|exists "side"%string; split; [repeat constructor|done]].
      destruct (d !! "strike") eqn:Hk;
        [|exists "strike"%string; split; [repeat constructor|done]].
      exfalso. apply Hno. eauto. }
    destruct Hkey as (key & Hkey & Hnone).
    right. rewrite (report_trade_raises w out a d key Hd Hkey Hnone).
    eexists _, _. split; [reflexivity|]. simpl.
    split; [done|]. split; [by left|]. split; [eauto|done].
Qed.

Lemma trade_lines_nil : trade_lines [] 0.
Proof. exists []. repeat split. constructor. Qed.

Lemma trade_lines_cons t s k e pr dte vr q lines n :
  trade_lines lines n ->
  trade_lines (TradeLine t s k e pr dte vr :: Printed q :: lines) (S n).
Proof.
  intros (pairs & Hlen & -> & Hall).
  exists ((TradeLine t s k e pr dte vr, Printed q) :: pairs).
  split; [simpl; by rewrite Hlen|]. split; [done|].
  constructor; [|done]. simpl. split; eauto 10.
Qed.

Lemma trade_lines_sleeps lines n : trade_lines lines n -> sleeps lines = 0%nat.
Proof.
  intros (pairs & _ & -> & Hall).
  induction Hall as [|[e1 e2] pairs [(t & s & k & e & pr & dte & vr & H1) [q H2]] _ IH];
    [done|].
  simpl in *. by rewrite H1, H2.
Qed.

(** The report of the trades: it returns with two lines for each trade,
    or it raises one of the two exceptions and does not sleep. *)
Lemma report_trades_cases trades : forall w out,
  Forall (printable str_to_float (heap w)) trades ->
  (exists lines w',
     report_trades str_to_float uniform stdout_encodes DRY_RUN trades
       (mkconsole w out) = (inr tt, mkconsole w' (out ++ lines))
     /\ trade_lines lines (length trades)
     /\ heap w' = heap w /\ ticks w' = ticks w)
  \/ (exists err c',
        report_trades str_to_float uniform stdout_encodes DRY_RUN trades
          (mkconsole w out) = (inl err, c')
        /\ sleeps (output c') = sleeps out
        /\ (err = KeyError \/ err = UnicodeEncodeError)
        /\ (err = KeyError ->
            exists a d (key : string),
              PyRef a ∈ trades /\ heap w !! a = Some d
              /\ key ∈ ["ticker"; "side"; "strike"]%string /\ d !! key = None)
        /\ (err = UnicodeEncodeError -> exists e, stdout_encodes e = false)).
Proof.
  induction trades as [|x rest IH]; intros w out Hall.
  { left. exists [], w. rewrite app_nil_r.
    split; [done|]. split; [apply trade_lines_nil|done]. }
  apply Forall_cons in Hall as [Hx Hrest].
  pose proof Hx as (a & d & -> & _).
  simpl.
  destruct (report_trade_cases w out a Hx)
    as [(t & s & k & e & pr & dte & vr & q & w1 & Hrun & Hh & Ht)
       |(err & c' & Hrun & Hsl & Herr & Hkey & Henc)].
  - rewrite (io_bind_ok _ _ _ _ _ Hrun).
    destruct (IH w1 (out ++ [TradeLine t s k e pr dte vr; Printed q]))
      as [(lines & w' & Hrun' & Hlines & Hh' & Ht')
         |(err & c' & Hrun' & Hsl & Herr & Hkey & Henc)].
    { by rewrite Hh. }
    + left. exists (TradeLine t s k e pr dte vr :: Printed q :: lines), w'.
      rewrite Hrun'. split; [by rewrite <- app_assoc|].
      split; [by apply trade_lines_cons|]. split; congruence.
    + right. exists err, c'. split; [exact Hrun'|].
      split; [rewrite Hsl, sleeps_app; simpl; lia|].
      split; [done|]. split; [|done].
      intros He. destruct (Hkey He) as (b & db & key & Hin & Hb & Hk & Hn).
      exists b, db, key. rewrite Hh in Hb.
      split; [by apply list_elem_of_further|done].
  - right. exists err, c'.
    rewrite (io_bind_err _ _ _ _ _ Hrun).
    split; [done|]. split; [done|]. split; [done|]. split; [|done].
    intros He. destruct (Hkey He) as (db & key & Hb & Hk & Hn).
    exists a, db, key. split; [apply list_elem_of_here|done].
Qed.


(** The report stops with [UnicodeEncodeError] at a trade whose line
    stdout cannot encode, if not before, when no record lacks a field. *)
Lemma report_trades_unencodable trades : forall w out a d t s k e pr dte vr,
  Forall (printable str_to_float (heap w)) trades -> displayable (heap w) ->
  PyRef a ∈ trades -> heap w !! a = Some d ->
  d !! "ticker" = Some t -> d !! "side" = Some s -> d !! "strike" = Some k ->
  d !! "expiration" = Some e -> d !! "premium" = Some pr ->
  d !! "days_to_expiry" = Some dte -> d !! "volume_ratio" = Some vr ->
  stdout_encodes (TradeLine t s k e pr dte vr) = false ->
  exists c',
    report_trades str_to_float uniform stdout_encodes DRY_RUN trades
      (mkconsole w out) = (inl UnicodeEncodeError, c')
    /\ sleeps (output c') = sleeps out.
Proof.
  induction trades as [|x rest IH];
    intros w out a d t s k e pr dte vr Hall Hdisp Hin Hd Ht Hs Hk He Hpr Hdte Hvr Hno.
  { by apply elem_of_nil in Hin. }
  apply Forall_cons in Hall as [Hx Hrest].
  pose proof Hx as (b & db & -> & Hdb & [eb Heb] & _).
  destruct (Hdisp b db Hdb (ex_intro _ eb Heb)) as (Htb & Hsb & Hkb).
  destruct (report_trade_eq w out b db Hx Hdb Htb Hsb Hkb)
    as (t1 & s1 & k1 & e1 & pr1 & dte1 & vr1 & q & w1 & F1 & F2 & F3 & F4 & F5
        & F6 & F7 & Hh & Hticks & Hrun).
  simpl.
  destruct (stdout_encodes (TradeLine t1 s1 k1 e1 pr1 dte1 vr1)) eqn:Hline.
  - destruct (stdout_encodes (Printed q)) eqn:Hq.
    + rewrite (io_bind_ok _ _ _ _ _ Hrun).
      apply elem_of_cons in Hin as [[= ->]|Hin].
      { rewrite Hd in Hdb. injection Hdb as <-. congruence. }
      destruct (IH w1 (out ++ [TradeLine t1 s1 k1 e1 pr1 dte1 vr1; Printed q])
                  a d t s k e pr dte vr) as (c' & Hrun' & Hsl); try done.
      { by rewrite Hh. }
      { by rewrite Hh. }
      { by rewrite Hh. }
      exists c'. split; [exact Hrun'|]. rewrite Hsl, sleeps_app. simpl. lia.
    + rewrite (io_bind_err _ _ _ _ _ Hrun). eexists. split; [reflexivity|].
      simpl. rewrite sleeps_app. simpl. lia.
  - rewrite (io_bind_err _ _ _ _ _ Hrun). by eexists.
Qed.

End MainFacts.

Section CycleFacts.

Context {unicode : UnicodeData}.
Variable str_to_float : string -> option float.
Variable clock : nat -> datetime.
Variable uniform : nat -> float -> float -> float.
Variable stdout_encodes : event -> bool.
Variable DRY_RUN : bool.

(** What the fetch returns: the dummy data, the list of the body, or
    the field ["chains"] of the dict of the body. *)
Lemma fetch_alerts_cases (o : request_outcome) (w : world) :
  fetch_alerts o w = dummy_data w
  \/ (exists items, fetch_alerts o w = (inr (PyList items), w))
  \/ (exists a d chains,
        heap w !! a = Some d /\ d !! "chains" = Some chains
        /\ fetch_alerts o w = (inr chains, w)).
Proof.
  destruct o as [|[status body]]; [by left|].
  unfold fetch_alerts, fetch_try, try_except, bind, requests_get,
    response_json, ret, raise; simpl.
  destruct (status =? 200); [|by left].
  destruct body as [data|]; [|by left].
  destruct data as [| | | | |l|a]; try (by left); [right; left; eauto|].
  unfold contains, getitem, the_dict, bind, ret, raise; simpl.
  destruct (heap w !! a) as [d|] eqn:Hd; simpl; [|by left].
  destruct (d !! "chains") as [c|] eqn:Hc; simpl; [|by left].
  rewrite Hd. simpl. rewrite Hc. right. right. eauto 10.
Qed.

Lemma fetch_alerts_chains (w : world) (a : loc) (d : pydict) (chains : pyval) :
  heap w !! a = Some d -> d !! "chains" = Some chains ->
  fetch_alerts (RequestReturns (mkresponse 200 (Some (PyRef a)))) w
  = (inr chains, w).
Proof.
  intros Hd Hc.
  unfold fetch_alerts, fetch_try, try_except, bind, requests_get,
    response_json, ret, raise; simpl.
  unfold contains, getitem, the_dict, bind, ret, raise; simpl.
  rewrite Hd. simpl. rewrite Hc. simpl. rewrite Hd. simpl. by rewrite Hc.
Qed.

(** The fetch keeps the two properties of the heap, and what it returns
    can be iterated over. *)
Lemma fetch_alerts_inv (o : request_outcome) (w : world) :
  displayable (heap w) -> chains_iterable (heap w) ->
  exists v w',
    fetch_alerts o w = (inr v, w')
    /\ iterable (heap w') v
    /\ displayable (heap w') /\ chains_iterable (heap w').
Proof.
  intros Hdisp Hch.
  destruct (fetch_alerts_cases o w)
    as [->|[(items & ->)|(a & d & chains & Hd & Hc & ->)]].
  - destruct (dummy_data_spec w)
      as (tsla & nvda & aapl & w' & Hrun & F1 & F2 & F3 & N12 & N13 & N23 & Hh & _).
    exists (PyList [PyRef tsla; PyRef nvda; PyRef aapl]), w'.
    split; [exact Hrun|]. split; [done|].
    assert (Hnew : forall b db, heap w' !! b = Some db ->
              heap w !! b = Some db \/ db ∈ [TSLA; NVDA; AAPL]).
    { intros b db. rewrite Hh.
      destruct (decide (b = aapl)) as [->|?];
        [rewrite lookup_insert_eq; intros [= <-]; right; repeat constructor|].
      rewrite lookup_insert_ne by done.
      destruct (decide (b = nvda)) as [->|?];
        [rewrite lookup_insert_eq; intros [= <-]; right; repeat constructor|].
      rewrite lookup_insert_ne by done.
      destruct (decide (b = tsla)) as [->|?];
        [rewrite lookup_insert_eq; intros [= <-]; right; repeat constructor|].
      rewrite lookup_insert_ne by done. auto. }
    assert (Hold : forall b, is_Some (heap w !! b) -> is_Some (heap w' !! b)).
    { intros b [db Hb]. exists db. rewrite Hh.
      rewrite !lookup_insert_ne; [done| | |]; congruence. }
    split.
    + intros b db Hb He. destruct (Hnew b db Hb) as [Hb'|Hin]; [by eapply Hdisp|].
      repeat (apply elem_of_cons in Hin as [->|Hin]);
        [| | |by apply elem_of_nil in Hin];
        repeat split; apply (bool_decide_unpack _); by vm_compute.
    + intros b db chains Hb Hc. destruct (Hnew b db Hb) as [Hb'|Hin].
      * specialize (Hch b db chains Hb' Hc).
        destruct chains; simpl in *; try done. by apply Hold.
      * repeat (apply elem_of_cons in Hin as [->|Hin]);
          [| | |by apply elem_of_nil in Hin]; vm_compute in Hc; discriminate.
  - exists (PyList items), w. split; [done|]. split; [done|]. by split.
  - exists chains, w. split; [done|]. split; [by eapply Hch|]. by split.
Qed.

Lemma py_iter_iterable (v : pyval) (w : world) :
  iterable (heap w) v -> exists items, py_iter v w = (inr items, w).
Proof.
  destruct v as [| | | | |l|a]; simpl; try done; eauto.
  intros [d Hd]. rewrite Hd. eauto.
Qed.

(** The filter keeps the two properties of the heap, and the alerts it
    returns can be printed. *)
Lemma filter_alerts_inv (items : list pyval) (w : world) :
  exists out w',
    filter_alerts str_to_float clock items w = (inr out, w')
    /\ Forall (printable str_to_float (heap w')) out
    /\ (displayable (heap w) -> displayable (heap w'))
    /\ (chains_iterable (heap w) -> chains_iterable (heap w')).
Proof.
  pose proof (filter_alerts_upto str_to_float clock items w) as Hupto.
  rewrite filter_alerts_turns in *. simpl in Hupto.
  destruct (turns_kept str_to_float clock items [] w)
    as (kept & Hout & _ & Hrefs & Hrec & _).
  set (w' := snd (turns str_to_float clock items [] w)) in *.
  eexists _, w'. split; [reflexivity|]. split; [|split].
  - rewrite Hout. simpl. apply Forall_forall. intros x Hx.
    destruct (Hrefs x Hx) as [a ->].
    destruct (Hrec a) as [[Hnot _]|[_ (d & n & days & ratio & Hd & Hj & Hd')]];
      [done|].
    apply judge_Some in Hj
      as (expiry & avg & premium & volume & oi & Hex & Hnum & _).
    unfold expiry_of in Hex.
    destruct (d !! "expiration") as [e|] eqn:He; [|done].
    unfold numbers_of in Hnum.
    destruct (d !! "average_price") as [v|] eqn:Hv; [|done].
    simpl in Hnum.
    destruct (to_float str_to_float v) as [avg'|] eqn:Hto; [|done].
    simpl in Hnum.
    destruct (d !! "premium") as [pr|] eqn:Hpr; [|done].
    unfold to_float in Hto.
    destruct (py_float str_to_float v) as [|avg''] eqn:Hf; [done|].
    exists a, (annotate days ratio d).
    split; [done|]. split; [exact Hd'|].
    split; [rewrite annotate_lookup_ne by discriminate; eauto|].
    split; [rewrite annotate_lookup_ne by discriminate; eauto|].
    split; [rewrite annotate_days; eauto|].
    split; [rewrite annotate_ratio; eauto|].
    exists v, avg''. split; [|done].
    by rewrite annotate_lookup_ne by discriminate.
  - intros Hdisp a d' Hd' He'.
    specialize (Hupto a). rewrite Hd' in Hupto.
    inversion Hupto as [d ? Hsame E1 E2|]. symmetry in E1.
    rewrite !Hsame by discriminate. rewrite Hsame in He' by discriminate.
    by eapply Hdisp.
  - intros Hch a d' chains Hd' Hc.
    pose proof (Hupto a) as Ha. rewrite Hd' in Ha.
    inversion Ha as [d ? Hsame E1 E2|]. symmetry in E1.
    rewrite Hsame in Hc by discriminate.
    specialize (Hch a d chains E1 Hc).
    destruct chains as [| | | | |l|b]; simpl in *; try done.
    destruct Hch as [db Hb]. specialize (Hupto b). rewrite Hb in Hupto.
    inversion Hupto. eauto.
Qed.

(** Strings are no alerts. *)
Lemma turns_no_dict (items : list pyval) : forall valid_alerts w,
  Forall (fun x => forall a, x <> PyRef a) items ->
  turns str_to_float clock items valid_alerts w = (valid_alerts, w).
Proof.
  induction items as [|x rest IH]; intros valid_alerts w Hall; [done|].
  apply Forall_cons in Hall as [Hx Hrest]. simpl.
  assert (Hturn : turn str_to_float clock x valid_alerts w = (valid_alerts, w)).
  { destruct x; try done. by destruct (Hx a). }
  rewrite Hturn. simpl. by apply IH.
Qed.

(** A record that can be printed holds the three fields, in a heap
    whose records do. *)
Lemma printable_displayable h a d (key : string) :
  printable str_to_float h (PyRef a) -> displayable h ->
  h !! a = Some d -> key ∈ ["ticker"; "side"; "strike"]%string ->
  d !! key = None -> False.
Proof.
  intros (a' & d' & [= <-] & Hd' & He & _) Hdisp Hd Hkey Hnone.
  rewrite Hd in Hd'. injection Hd' as <-.
  destruct (Hdisp a d Hd He) as ([t Ht] & [s Hs] & [k Hk]).
  repeat (apply elem_of_cons in Hkey as [->|Hkey]); [| | |by apply elem_of_nil in Hkey];
    congruence.
Qed.

(** The turn after the fetch and the filter: the heartbeat and the
    sleep when no alert is kept; else the number of trades, the report
    and the sleep, as far as stdout encodes the lines. *)
Lemma cycle_eq (o : request_outcome) (w : world) (out : list event) v w1
    trades w2 :
  fetch_alerts o w = (inr v, w1) ->
  filter_alerts_on str_to_float clock v w1 = (inr trades, w2) ->
  cycle str_to_float clock uniform stdout_encodes DRY_RUN o (mkconsole w out)
  = match trades with
    | [] =>
        let now := clock (ticks w2) in
        (inr tt,
         mkconsole (mkworld (heap w2) (S (ticks w2)) (draws w2))
           (out ++ [NoAlerts (hour now) (minute now) (second now); Slept 60]))
    | _ :: _ =>
        if stdout_encodes (Found (length trades))
        then io_bind (report_trades str_to_float uniform stdout_encodes
                        DRY_RUN trades)
               (fun _ => sleep 60)
               (mkconsole w2 (out ++ [Found (length trades)]))
        else (inl UnicodeEncodeError, mkconsole w2 out)
    end.
Proof.
  intros Hfetch Hon. unfold cycle.
  rewrite (io_bind_ok _ _ _ _ _ (run_eq _ _ out _ _ Hfetch)).
  rewrite (io_bind_ok _ _ _ _ _ (run_eq _ _ out _ _ Hon)).
  destruct trades as [|trade rest].
  - unfold io_bind, run, print, sleep, datetime_now. simpl.
    by rewrite <- app_assoc.
  - unfold io_bind at 1. unfold io_bind at 1. unfold print at 1.
    cbv beta iota. unfold accepted.
    by destruct (stdout_encodes (Found (length (trade :: rest)))).
Qed.

(** One turn of the loop of [main] under the two properties of the
    heap: it returns, or it raises [UnicodeEncodeError] at a line that
    stdout cannot encode and does not sleep. *)
Lemma cycle_cases (o : request_outcome) (w : world) (out : list event) :
  displayable (heap w) -> chains_iterable (heap w) ->
  (exists w' body,
     cycle str_to_float clock uniform stdout_encodes DRY_RUN o (mkconsole w out)
     = (inr tt, mkconsole w' (out ++ body ++ [Slept 60]))
     /\ ((exists hh mm ss, body = [NoAlerts hh mm ss])
         \/ (exists n lines, body = Found (S n) :: lines
                             /\ trade_lines lines (S n)))
     /\ displayable (heap w') /\ chains_iterable (heap w'))
  \/ (exists c',
        cycle str_to_float clock uniform stdout_encodes DRY_RUN o
          (mkconsole w out) = (inl UnicodeEncodeError, c')
        /\ sleeps (output c') = sleeps out
        /\ exists e, stdout_encodes e = false).
Proof.
  intros Hdisp Hch.
  destruct (fetch_alerts_inv o w Hdisp Hch) as (v & w1 & Hfetch & Hit & Hd1 & Hc1).
  destruct (py_iter_iterable v w1 Hit) as (items & Hiter).
  destruct (filter_alerts_inv items w1) as (trades & w2 & Hfilter & Hpr & Hd2 & Hc2).
  specialize (Hd2 Hd1). specialize (Hc2 Hc1).
  assert (Hon : filter_alerts_on str_to_float clock v w1 = (inr trades, w2)).
  { unfold filter_alerts_on, bind. by rewrite Hiter. }
  rewrite (cycle_eq o w out v w1 trades w2 Hfetch Hon).
  destruct trades as [|trade rest].
  - left. eexists _, [_]. split; [reflexivity|]. split; [left; eauto|done].
  - destruct (stdout_encodes (Found (length (trade :: rest)))) eqn:Hfound;
      [|right; eexists; split; [reflexivity|split; [done|eauto]]].
    destruct (report_trades_cases str_to_float uniform stdout_encodes DRY_RUN
                (trade :: rest) w2 (out ++ [Found (length (trade :: rest))]) Hpr)
      as [(lines & w3 & Hrep & Hlines & Hh & Ht)
         |(err & c' & Hrep & Hsl & Herr & Hkey & Henc)].
    + left. exists w3, (Found (length (trade :: rest)) :: lines).
      split; [|split; [right; simpl; eauto|by rewrite Hh]].
      rewrite (io_bind_ok _ _ _ _ _ Hrep).
      unfold sleep. simpl. by rewrite <- !app_assoc.
    + right. rewrite (io_bind_err _ _ _ _ _ Hrep).
      destruct Herr as [-> | ->].
      * exfalso. destruct (Hkey eq_refl) as (a & d & key & Hin & Hd & Hk & Hn).
        apply (printable_displayable (heap w2) a d key); try done.
        rewrite Forall_forall in Hpr. by apply Hpr.
      * exists c'. split; [done|]. split; [|auto].
        rewrite Hsl, sleeps_app. simpl. lia.
Qed.

(** The first turns of the loop: they all return, or one of them raises
    [UnicodeEncodeError]. *)
Lemma main_loop_cases (outcomes : list request_outcome) : forall w out,
  displayable (heap w) -> chains_iterable (heap w) ->
  (exists w' printed,
     main_loop str_to_float clock uniform stdout_encodes DRY_RUN outcomes
       (mkconsole w out) = (inr tt, mkconsole w' (out ++ printed))
     /\ sleeps printed = length outcomes
     /\ displayable (heap w') /\ chains_iterable (heap w'))
  \/ (exists c',
        main_loop str_to_float clock uniform stdout_encodes DRY_RUN outcomes
          (mkconsole w out) = (inl UnicodeEncodeError, c')
        /\ exists e, stdout_encodes e = false).
Proof.
  induction outcomes as [|o rest IH]; intros w out Hdisp Hch.
  { left. exists w, []. by rewrite app_nil_r. }
  simpl.
  destruct (cycle_cases o w out Hdisp Hch)
    as [(w1 & body & Hcycle & Hbody & Hd1 & Hc1)|(c' & Hcycle & _ & Henc)].
  - rewrite (io_bind_ok _ _ _ _ _ Hcycle).
    destruct (IH w1 (out ++ body ++ [Slept 60]) Hd1 Hc1)
      as [(w' & printed & Hloop & Hsleeps & Hd' & Hc')|(c' & Hloop & Henc)].
    + left. exists w', ((body ++ [Slept 60]) ++ printed). rewrite Hloop.
      split; [by rewrite <- !app_assoc|]. split; [|done].
      rewrite !sleeps_app, Hsleeps. simpl.
      destruct Hbody as [(hh & mm & ss & ->)|(n & lines & -> & Hlines)]; simpl.
      * done.
      * by rewrite (trade_lines_sleeps _ _ Hlines).
    + right. exists c'. by rewrite Hloop.
  - right. exists c'. by rewrite (io_bind_err _ _ _ _ _ Hcycle).
Qed.

End CycleFacts.

(** X11. One turn of the loop of [main], whatever the request comes back
    with, the clock and the draws: when every record of the heap holds a
    ticker, a side and a strike, what the dicts hold under ["chains"] is
    iterable and stdout encodes every line, the turn does not raise; it
    prints either the line that no alert is valid, or the number of
    trades followed by two lines for each trade, and then sleeps 60
    seconds; and the heap has the two properties again. *)
Theorem cycle_completes {unicode : UnicodeData}
    (str_to_float : string -> option float) (clock : nat -> datetime)
    (uniform : nat -> float -> float -> float)
    (stdout_encodes : event -> bool) (DRY_RUN : bool)
    (o : request_outcome) (c : console) :
  displayable (heap (the_world c)) ->
  chains_iterable (heap (the_world c)) ->
  (forall e, stdout_encodes e = true) ->
  exists c' body,
    cycle str_to_float clock uniform stdout_encodes DRY_RUN o c = (inr tt, c')
    /\ output c' = output c ++ body ++ [Slept 60]
    /\ ((exists hh mm ss, body = [NoAlerts hh mm ss])
        \/ (exists n lines, body = Found (S n) :: lines
                            /\ trade_lines lines (S n)))
    /\ displayable (heap (the_world c'))
    /\ chains_iterable (heap (the_world c')).
Proof.
  destruct c as [w out]. simpl. intros Hdisp Hch Henc.
  destruct (cycle_cases str_to_float clock uniform stdout_encodes DRY_RUN o w out
              Hdisp Hch)
    as [(w' & body & Hrun & Hbody & Hd & Hc)|(c' & _ & _ & e & He)].
  - by exists (mkconsole w' (out ++ body ++ [Slept 60])), body.
  - by rewrite Henc in He.
Qed.

(** X12. [main] keeps running: under the same two properties of the
    heap and with a stdout that encodes every line, it prints its two
    opening lines and goes through any number of turns of its loop
    without raising, whatever the requests come back with, and it sleeps
    once in each turn. *)
Theorem main_keeps_running {unicode : UnicodeData}
    (str_to_float : string -> option float) (clock : nat -> datetime)
    (uniform : nat -> float -> float -> float)
    (stdout_encodes : event -> bool) (DRY_RUN : bool)
    (outcomes : list request_outcome) (w : world) :
  displayable (heap w) -> chains_iterable (heap w) ->
  (forall e, stdout_encodes e = true) ->
  exists c' printed,
    main str_to_float clock uniform stdout_encodes DRY_RUN outcomes
      (mkconsole w []) = (inr tt, c')
    /\ output c' = Starting :: Mode DRY_RUN :: printed
    /\ sleeps printed = length outcomes.
Proof.
  intros Hdisp Hch Henc.
  destruct (main_loop_cases str_to_float clock uniform stdout_encodes DRY_RUN
              outcomes w [Starting; Mode DRY_RUN] Hdisp Hch)
    as [(w' & printed & Hloop & Hsleeps & _)|(c' & _ & e & He)];
    [|by rewrite Henc in He].
  eexists _, printed. split; [|split; [|exact Hsleeps]].
  - unfold main, io_bind, print. simpl. rewrite !Henc. exact Hloop.
  - done.
Qed.

(** X9. The filter and the simulator together, whatever the clock and
    the draws.  For an alert of the output of the filter that holds a
    ticker, a side and a strike, the simulator computes its line, with
    these fields, in both modes, and its call returns, the line printed,
    exactly when stdout can encode the line; when it cannot, the call
    raises [UnicodeEncodeError] and prints nothing.  For one that holds
    no ticker the call raises [KeyError] in both modes. *)
Theorem kept_alert_simulated {unicode : UnicodeData}
    (str_to_float : string -> option float) (clock : nat -> datetime)
    (uniform : nat -> float -> float -> float)
    (stdout_encodes : event -> bool) (DRY_RUN : bool)
    (w w' : world) (alerts out : list pyval) (a : loc) (log : list event) :
  filter_alerts str_to_float clock alerts w = (inr out, w') ->
  PyRef a ∈ out ->
  exists d,
    heap w' !! a = Some d
    /\ (d !! "ticker" = None ->
        fst (simulate_and_print str_to_float uniform stdout_encodes DRY_RUN
               (PyRef a) (mkconsole w' log))
        = inl KeyError)
    /\ (forall ticker side strike,
          d !! "ticker" = Some ticker -> d !! "side" = Some side ->
          d !! "strike" = Some strike ->
          exists p w'',
            simulate_trade_execution str_to_float uniform DRY_RUN (PyRef a) w'
            = (inr p, w'')
            /\ match p with
               | SimulatedTrade t s k e _ _ =>
                   DRY_RUN = true /\ t = ticker /\ s = side /\ k = strike
                   /\ d !! "expiration" = Some e
               | LiveTrade t => DRY_RUN = false /\ t = ticker
               end
            /\ simulate_and_print str_to_float uniform stdout_encodes DRY_RUN
                 (PyRef a) (mkconsole w' log)
               = if stdout_encodes (Printed p)
                 then (inr tt, mkconsole w'' (log ++ [Printed p]))
                 else (inl UnicodeEncodeError, mkconsole w'' log)).
Proof.
  intros Hrun Hin.
  destruct (filter_alerts_inv str_to_float clock alerts w)
    as (out' & w1 & Hrun' & Hpr & _).
  rewrite Hrun in Hrun'. injection Hrun' as <- <-.
  rewrite Forall_forall in Hpr.
  destruct (Hpr _ Hin) as (a' & d & [= <-] & Hd & [e He] & _ & _ & _
                           & v & avg & Hv & Hf).
  exists d. split; [exact Hd|]. split.
  - intros Ht.
    pose proof (simulate_trade_execution_no_ticker str_to_float uniform DRY_RUN
                  w' a d v avg Hd Hv Hf Ht) as Hsim.
    unfold simulate_and_print, io_bind, run. simpl.
    destruct (simulate_trade_execution str_to_float uniform DRY_RUN (PyRef a) w')
      as [r w'']. simpl in Hsim. by rewrite Hsim.
  - intros ticker side strike Ht Hs Hk.
    destruct (simulate_trade_execution_returns str_to_float uniform DRY_RUN
                w' a d v avg ticker side strike e Hd Hv Hf Ht Hs Hk He)
      as (p & w'' & Hsim & _ & _ & Hp).
    exists p, w''. split; [exact Hsim|]. split.
    + destruct p; [|done].
      destruct Hp as (? & ? & ? & ? & ->). done.
    + by apply simulate_and_print_eq.
Qed.

(** X13. [main] stops on a payload whose ["chains"] is not iterable:
    when the body of the response is a dict that holds [None], a bool or
    a number under ["chains"], the filter's [for] raises [TypeError]
    outside every [try], the turn does not print and does not sleep, and
    the loop is left with that exception. *)
Theorem scalar_chains_stop_main {unicode : UnicodeData}
    (str_to_float : string -> option float) (clock : nat -> datetime)
    (uniform : nat -> float -> float -> float)
    (stdout_encodes : event -> bool) (DRY_RUN : bool)
    (c : console) (a : loc) (d : pydict) (v : pyval)
    (rest : list request_outcome) :
  heap (the_world c) !! a = Some d ->
  d !! "chains" = Some v ->
  v = PyNone \/ (exists b, v = PyBool b) \/ (exists n, v = PyInt n)
  \/ (exists x, v = PyFloat x) ->
  main_loop str_to_float clock uniform stdout_encodes DRY_RUN
    (RequestReturns (mkresponse 200 (Some (PyRef a))) :: rest) c
  = (inl TypeError, c).
Proof.
  destruct c as [w out]. simpl the_world. intros Hd Hc Hv.
  assert (Hon : filter_alerts_on str_to_float clock v w = (inl TypeError, w)).
  { unfold filter_alerts_on, bind.
    by destruct Hv as [->|[[b ->]|[[n ->]|[x ->]]]]. }
  assert (Hcycle : cycle str_to_float clock uniform stdout_encodes DRY_RUN
                     (RequestReturns (mkresponse 200 (Some (PyRef a))))
                     (mkconsole w out)
                   = (inl TypeError, mkconsole w out)).
  { unfold cycle.
    rewrite (io_bind_ok _ _ _ _ _
               (run_eq _ _ out _ _ (fetch_alerts_chains w a d v Hd Hc))).
    by rewrite (io_bind_err _ _ _ _ _ (run_eq _ _ out _ _ Hon)). }
  change (io_bind (cycle str_to_float clock uniform stdout_encodes DRY_RUN
                     (RequestReturns (mkresponse 200 (Some (PyRef a)))))
            (fun _ => main_loop str_to_float clock uniform stdout_encodes DRY_RUN rest)
            (mkconsole w out) = (inl TypeError, mkconsole w out)).
  by rewrite (io_bind_err _ _ _ _ _ Hcycle).
Qed.


(** X19. [main] stops on a line that stdout cannot encode: when no
    record of the heap lacks a ticker, a side or a strike, and the
    provider's list holds a record that the filter keeps and whose line
    stdout cannot encode (a lone surrogate in its ticker, say), the turn
    raises [UnicodeEncodeError] outside every [try], it does not sleep,
    and the loop is left with that exception. *)
Theorem unencodable_trade_stops_main {unicode : UnicodeData}
    (str_to_float : string -> option float) (clock : nat -> datetime)
    (uniform : nat -> float -> float -> float)
    (stdout_encodes : event -> bool) (DRY_RUN : bool)
    (c : console) (items out : list pyval) (w' : world)
    (a : loc) (d : pydict) (t s k e pr dte vr : pyval)
    (rest : list request_outcome) :
  displayable (heap (the_world c)) ->
  filter_alerts str_to_float clock items (the_world c) = (inr out, w') ->
  PyRef a ∈ out ->
  heap w' !! a = Some d ->
  d !! "ticker" = Some t -> d !! "side" = Some s -> d !! "strike" = Some k ->
  d !! "expiration" = Some e -> d !! "premium" = Some pr ->
  d !! "days_to_expiry" = Some dte -> d !! "volume_ratio" = Some vr ->
  stdout_encodes (TradeLine t s k e pr dte vr) = false ->
  exists c',
    main_loop str_to_float clock uniform stdout_encodes DRY_RUN
      (RequestReturns (mkresponse 200 (Some (PyList items))) :: rest) c
    = (inl UnicodeEncodeError, c')
    /\ sleeps (output c') = sleeps (output c).
Proof.
  destruct c as [w out0]. simpl the_world. simpl output.
  intros Hdisp Hfilter Hin Hd Ht Hs Hk He Hpr Hdte Hvr Hno.
  destruct (filter_alerts_inv str_to_float clock items w)
    as (out' & w'' & Hfilter' & Hprint & Hdisp' & _).
  rewrite Hfilter in Hfilter'. injection Hfilter' as <- <-.
  specialize (Hdisp' Hdisp).
  assert (Hfetch : fetch_alerts (RequestReturns (mkresponse 200 (Some (PyList items)))) w
                   = (inr (PyList items), w)) by reflexivity.
  assert (Hon : filter_alerts_on str_to_float clock (PyList items) w
                = (inr out, w')).
  { unfold filter_alerts_on, bind. simpl. exact Hfilter. }
  pose proof (cycle_eq str_to_float clock uniform stdout_encodes DRY_RUN _ w
                out0 _ w out w' Hfetch Hon) as Hcycle.
  destruct out as [|trade more]; [by apply elem_of_nil in Hin|].
  assert (Hstop : exists c',
            cycle str_to_float clock uniform stdout_encodes DRY_RUN
              (RequestReturns (mkresponse 200 (Some (PyList items))))
              (mkconsole w out0) = (inl UnicodeEncodeError, c')
            /\ sleeps (output c') = sleeps out0).
  { rewrite Hcycle.
    destruct (stdout_encodes (Found (length (trade :: more)))) eqn:Hfound.
    - destruct (report_trades_unencodable str_to_float uniform stdout_encodes
                  DRY_RUN (trade :: more) w'
                  (out0 ++ [Found (length (trade :: more))])
                  a d t s k e pr dte vr Hprint Hdisp' Hin Hd Ht Hs Hk He Hpr
                  Hdte Hvr Hno)
        as (c' & Hrep & Hsl).
      exists c'. rewrite (io_bind_err _ _ _ _ _ Hrep).
      split; [done|]. rewrite Hsl, sleeps_app. simpl. lia.
    - by eexists. }
  destruct Hstop as (c' & Hrun & Hsl).
  exists c'. split; [|done].
  change (io_bind (cycle str_to_float clock uniform stdout_encodes DRY_RUN
                     (RequestReturns (mkresponse 200 (Some (PyList items)))))
            (fun _ => main_loop str_to_float clock uniform stdout_encodes
                        DRY_RUN rest)
            (mkconsole w out0) = (inl UnicodeEncodeError, c')).
  by apply io_bind_err.
Qed.

(** X15. A string or a dict under ["chains"] is taken for an empty
    batch: the [for] of the filter goes over its characters or its keys,
    each of which raises inside the [try] and is skipped, so that the
    turn changes no dict, reads the clock once, prints that no alert is
    valid with the time read, and sleeps; the dummy data are not used. *)
Theorem string_chains_no_trades {unicode : UnicodeData}
    (str_to_float : string -> option float) (clock : nat -> datetime)
    (uniform : nat -> float -> float -> float)
    (stdout_encodes : event -> bool) (DRY_RUN : bool)
    (c : console) (a : loc) (d : pydict) (v : pyval) :
  heap (the_world c) !! a = Some d ->
  d !! "chains" = Some v ->
  (exists s, v = PyStr s)
  \/ (exists b, v = PyRef b /\ is_Some (heap (the_world c) !! b)) ->
  let w := the_world c in
  let now := clock (ticks w) in
  cycle str_to_float clock uniform stdout_encodes DRY_RUN
    (RequestReturns (mkresponse 200 (Some (PyRef a)))) c
  = (inr tt,
     mkconsole (mkworld (heap w) (S (ticks w)) (draws w))
       (output c ++ [NoAlerts (hour now) (minute now) (second now); Slept 60])).
Proof.
  destruct c as [w out]. simpl the_world. simpl output. intros Hd Hc Hv.
  cbv zeta.
  assert (Hon : filter_alerts_on str_to_float clock v w = (inr [], w)).
  { unfold filter_alerts_on, bind.
    destruct Hv as [[s ->]|(b & -> & [db Hb])]; simpl; rewrite ?Hb;
      rewrite filter_alerts_turns, turns_no_dict; try done;
      apply Forall_forall; intros x Hx;
      apply list_elem_of_In, in_map_iff in Hx as (y & <- & _); done. }
  by rewrite (cycle_eq str_to_float clock uniform stdout_encodes DRY_RUN _ w out
                v w [] w (fetch_alerts_chains w a d v Hd Hc) Hon).
Qed.

(** ** The mode *)

Lemma lower_ascii_inv (c lower upper : Ascii.ascii) :
  (97 <= Ascii.N_of_ascii lower <= 122)%N ->
  Ascii.N_of_ascii upper = (Ascii.N_of_ascii lower - 32)%N ->
  lower_ascii c = lower <-> c = lower \/ c = upper.
Proof.
  intros Hlow Hup. unfold lower_ascii.
  destruct (((65 <=? Ascii.N_of_ascii c) && (Ascii.N_of_ascii c <=? 90))%N) eqn:E.
  - apply andb_prop in E as [E1%N.leb_le E2%N.leb_le]. split.
    + intros <-. right.
      rewrite Ascii.N_ascii_embedding in Hup by lia.
      rewrite <- (Ascii.ascii_N_embedding upper), Hup.
      replace (Ascii.N_of_ascii c + 32 - 32)%N with (Ascii.N_of_ascii c) by lia.
      by rewrite Ascii.ascii_N_embedding.
    + intros [->| ->]; [lia|].
      rewrite Hup. replace (Ascii.N_of_ascii lower - 32 + 32)%N
        with (Ascii.N_of_ascii lower) by lia.
      apply Ascii.ascii_N_embedding.
  - split; [auto|]. intros [->| ->]; [done|]. exfalso.
    rewrite Hup in E.
    apply andb_false_iff in E as [E%N.leb_gt|E%N.leb_gt]; lia.
Qed.

(** X16. The mode: the run is a dry run exactly when the variable
    DRY_RUN is not set or its value is one of the sixteen spellings of
    [true] in upper and lower case; every other value, such as [1],
    [yes] or the empty string, selects live trading. *)
Theorem DRY_RUN_of_env_spec (value : option string) :
  DRY_RUN_of_env value = true
  <-> value = None
      \/ exists c1 c2 c3 c4,
           value = Some (String c1 (String c2 (String c3 (String c4 EmptyString))))
           /\ (c1 = "t"%char \/ c1 = "T"%char)
           /\ (c2 = "r"%char \/ c2 = "R"%char)
           /\ (c3 = "u"%char \/ c3 = "U"%char)
           /\ (c4 = "e"%char \/ c4 = "E"%char).
Proof.
  unfold DRY_RUN_of_env. rewrite String.eqb_eq.
  destruct value as [s|]; simpl; [|split; auto].
  split.
  - intros H. right.
    destruct s as [|c1 [|c2 [|c3 [|c4 [|c5 s]]]]]; try discriminate.
    simpl in H. injection H as H1 H2 H3 H4.
    exists c1, c2, c3, c4. split; [done|].
    apply (lower_ascii_inv _ _ "T"%char) in H1; [|by vm_compute|by vm_compute].
    apply (lower_ascii_inv _ _ "R"%char) in H2; [|by vm_compute|by vm_compute].
    apply (lower_ascii_inv _ _ "U"%char) in H3; [|by vm_compute|by vm_compute].
    apply (lower_ascii_inv _ _ "E"%char) in H4; [|by vm_compute|by vm_compute].
    done.
  - intros [?|(c1 & c2 & c3 & c4 & [= ->] & H1 & H2 & H3 & H4)]; [done|].
    by destruct H1 as [-> | ->], H2 as [-> | ->], H3 as [-> | ->],
      H4 as [-> | ->].
Qed.

(** * The theorems at work on sample records *)

(** ** The properties of the heap, on heaps built by insertions *)

Lemma displayable_empty : displayable ∅.
Proof. intros a d Hd. by rewrite lookup_empty in Hd. Qed.

Lemma displayable_insert h a d :
  (is_Some (d !! "expiration") ->
   is_Some (d !! "ticker") /\ is_Some (d !! "side") /\ is_Some (d !! "strike")) ->
  displayable h -> displayable (<[a := d]> h).
Proof.
  intros Hd Hh b db Hb He.
  apply lookup_insert_Some in Hb as [[<- <-]|[_ Hb]]; [by apply Hd|].
  by apply (Hh b db).
Qed.

Lemma iterable_insert h a d v : iterable h v -> iterable (<[a := d]> h) v.
Proof.
  destruct v as [| | | | |l|b]; simpl; try done.
  intros Hb. apply lookup_insert_is_Some.
  destruct (decide (a = b)); auto.
Qed.

Lemma chains_iterable_empty : chains_iterable ∅.
Proof. intros a d chains Hd. by rewrite lookup_empty in Hd. Qed.

Lemma chains_iterable_insert h a d :
  (forall chains, d !! "chains" = Some chains ->
     iterable (<[a := d]> h) chains) ->
  chains_iterable h -> chains_iterable (<[a := d]> h).
Proof.
  intros Hd Hh b db chains Hb Hc.
  apply lookup_insert_Some in Hb as [[<- <-]|[_ Hb]]; [by apply Hd|].
  apply iterable_insert. by apply (Hh b db).
Qed.

Lemma displayable_chains_world : displayable (heap chains_world).
Proof.
  unfold chains_world. simpl.
  apply displayable_insert;
    [intros _; repeat split; apply (bool_decide_unpack _); by vm_compute|].
  apply displayable_insert;
    [intros _; repeat split; apply (bool_decide_unpack _); by vm_compute|].
  apply displayable_insert; [|apply displayable_empty].
  intros [x Hx]. by vm_compute in Hx.
Qed.

Lemma chains_iterable_chains_world : chains_iterable (heap chains_world).
Proof.
  unfold chains_world. simpl.
  apply chains_iterable_insert; [intros chains Hc; by vm_compute in Hc|].
  apply chains_iterable_insert; [intros chains Hc; by vm_compute in Hc|].
  apply chains_iterable_insert; [|apply chains_iterable_empty].
  intros chains Hc. vm_compute in Hc. by injection Hc as <-.
Qed.

(** ** Sample runs

    The runs below are made with the decimal digits of Unicode 14.0. *)

#[local] Existing Instance unicode_14.

(** A record whose year is written in fullwidth digits, or whose day
    ends in one, parses and is kept, as by the program; a month does not
    take such digits. *)
Lemma fullwidth_digits_parsed :
  strptime "２０２５-12-20" = Some (mkdatetime 2025 12 20 0 0 0 0)
  /\ strptime "2025-12-1５" = Some (mkdatetime 2025 12 15 0 0 0 0)
  /\ strptime "2025-１2-20" = None
  /\ fst (filter_alerts plain_decimal (always new_year_2025) [PyRef 0%nat]
            (mkworld {[ 0%nat := <["expiration" := PyStr "２０２５-12-20"]> TSLA ]}
               0 0))
     = inr [PyRef 0%nat].
Proof. repeat split; vm_compute; reflexivity. Qed.

Lemma sample_data_only_TSLA_witness :
  exists tsla nvda aapl w1 w2,
    fetch_alerts RequestRaises empty_world
    = (inr (PyList [PyRef tsla; PyRef nvda; PyRef aapl]), w1)
    /\ filter_alerts plain_decimal (always new_year_2025)
         [PyRef tsla; PyRef nvda; PyRef aapl] w1
       = (inr [PyRef tsla], w2)
    /\ (exists d, heap w2 !! tsla = Some d
          /\ d !! "ticker" = Some (PyStr "TSLA")
          /\ d !! "volume_ratio" = Some (PyFloat (of_decimal false 25 (-1))))
    /\ heap w2 !! nvda = Some NVDA
    /\ heap w2 !! aapl = Some AAPL
    /\ fge_Z (of_decimal false 48 (-1)) MIN_AVERAGE_PRICE = false.
Proof.
  apply (sample_data_only_TSLA plain_decimal new_year_2025 empty_world).
  intros d t Hd Ht.
  repeat (apply elem_of_cons in Hd as [->|Hd]); [| | |by apply elem_of_nil in Hd];
    vm_compute in Ht; injection Ht as <-; by vm_compute.
Defined.

(** Against C5 as stated: at noon on 2025-01-01 the three expirations
    are more than 30 days away, the dummy data are fetched, and the NVDA
    record is not in the output of the filter. *)
Lemma sample_data_NVDA_rejected :
  (forall d t, d ∈ [TSLA; NVDA; AAPL] -> expiry_of d = Some t ->
     MIN_DAYS_TO_EXPIRY <= sub_days t new_year_2025)
  /\ fst (fetch_alerts RequestRaises empty_world)
     = inr (PyList [PyRef 0%nat; PyRef 1%nat; PyRef 2%nat])
  /\ heap (snd (fetch_alerts RequestRaises empty_world)) !! 1%nat = Some NVDA
  /\ fst (filter_alerts plain_decimal (always new_year_2025)
            [PyRef 0%nat; PyRef 1%nat; PyRef 2%nat]
            (snd (fetch_alerts RequestRaises empty_world)))
     = inr [PyRef 0%nat]
  /\ (PyRef 1%nat ∉ [PyRef 0%nat]).
Proof.
  split.
  { intros d t Hd Ht.
    repeat (apply elem_of_cons in Hd as [->|Hd]); [| | |by apply elem_of_nil in Hd];
      vm_compute in Ht; injection Ht as <-; by vm_compute. }
  split; [vm_compute; reflexivity|].
  split; [vm_compute; reflexivity|].
  split; [vm_compute; reflexivity|].
  intros [H|H]%elem_of_cons; [discriminate|by apply elem_of_nil in H].
Qed.

Lemma simulated_trade_bounds_witness :
  let entry := fmul (of_decimal false 512 (-2)) (of_decimal false 95 (-2)) in
  let pnl := round2 (fmul (of_decimal true 1 (-1)) entry) in
  (exists w',
     simulated_fill plain_decimal lowest_draw (PyRef 0%nat) sample_world
     = (inr (entry, pnl), w')
     /\ forall ticker side strike,
          TSLA !! "ticker" = Some ticker -> TSLA !! "side" = Some side ->
          TSLA !! "strike" = Some strike ->
          exists expiration,
            simulate_trade_execution plain_decimal lowest_draw true
              (PyRef 0%nat) sample_world
            = (inr (SimulatedTrade ticker side strike expiration entry pnl), w'))
  /\ fle (fmul (of_decimal false 512 (-2)) (of_decimal false 95 (-2))) entry = true
  /\ fle entry (fmul (of_decimal false 512 (-2)) (of_decimal false 105 (-2))) = true
  /\ (is_finite entry = true \/ is_zero (of_decimal true 1 (-1)) = false ->
      fle (fmul (of_decimal true 1 (-1)) entry)
          (fmul (of_decimal true 1 (-1)) entry) = true
      /\ fle (fmul (of_decimal true 1 (-1)) entry)
             (fmul (of_decimal false 2 (-1)) entry) = true).
Proof.
  apply (simulated_trade_bounds plain_decimal lowest_draw new_year_2025
           sample_world 0%nat TSLA 352
           (NFloat (of_decimal false 25 (-1)))
           (PyFloat (of_decimal false 512 (-2)))
           (of_decimal false 512 (-2))).
  - vm_compute; reflexivity.
  - vm_compute; reflexivity.
  - vm_compute; reflexivity.
  - reflexivity.
  - vm_compute; reflexivity.
  - vm_compute; reflexivity.
  - vm_compute; reflexivity.
  - vm_compute; reflexivity.
  - vm_compute; reflexivity.
  - vm_compute; reflexivity.
  - vm_compute; reflexivity.
Defined.

(** Against C7 as stated: the record [HUGE_PRICE] qualifies, the draws
    1.05 and 0.0 are in their intervals, the entry price
    [1.75e308 * 1.05] is the infinity and the PnL [round(0.0 * inf, 2)] is
    a NaN, which is not above [-0.1 * entry]. *)
Lemma simulated_trade_overflow :
  let u1 := high_then_zero 0 (of_decimal false 95 (-2)) (of_decimal false 105 (-2)) in
  let u2 := high_then_zero 1 (of_decimal true 1 (-1)) (of_decimal false 2 (-1)) in
  is_Some (judge plain_decimal new_year_2025 HUGE_PRICE)
  /\ valid (of_decimal false 175 306) /\ valid u1 /\ valid u2
  /\ fle (of_decimal false 95 (-2)) u1 = true
  /\ fle u1 (of_decimal false 105 (-2)) = true
  /\ fle (of_decimal true 1 (-1)) u2 = true
  /\ fle u2 (of_decimal false 2 (-1)) = true
  /\ fst (simulate_trade_execution plain_decimal high_then_zero true
            (PyRef 0%nat) huge_world)
     = inr (SimulatedTrade (PyStr "HUGE") (PyStr "CALL") (PyInt 10)
              (PyStr "2025-12-20") (S754_infinity false) S754_nan)
  /\ fle (fmul (of_decimal true 1 (-1)) (S754_infinity false)) S754_nan = false
  /\ fle S754_nan (fmul (of_decimal false 2 (-1)) (S754_infinity false)) = false.
Proof.
  repeat split; try (vm_compute; reflexivity).
  vm_compute. eauto.
Qed.

Lemma nonpositive_open_interest_rejected_witness :
  (forall volume, vol_ratio_of volume (S754_zero false) = NInt 0)
  /\ exists out w',
       filter_alerts plain_decimal (always new_year_2025)
         [PyRef 3%nat; PyRef 0%nat] sample_world = (inr out, w')
       /\ (PyRef 3%nat ∉ out).
Proof.
  apply (nonpositive_open_interest_rejected plain_decimal (always new_year_2025)
           sample_world [PyRef 3%nat; PyRef 0%nat] 3%nat ZERO_OI (PyInt 0)
           (S754_zero false)).
  - vm_compute; reflexivity.
  - vm_compute; reflexivity.
  - reflexivity.
  - reflexivity.
Defined.

Lemma malformed_record_dropped_witness :
  exists out w1 w2,
    filter_alerts plain_decimal (always new_year_2025)
      ([PyRef 0%nat] ++ PyRef 4%nat :: [PyRef 1%nat]) sample_world
    = (inr out, w1)
    /\ filter_alerts plain_decimal (always new_year_2025)
         ([PyRef 0%nat] ++ [PyRef 1%nat]) sample_world
       = (inr out, w2)
    /\ (PyRef 4%nat ∉ out)
    /\ heap w1 = heap w2.
Proof.
  apply (malformed_record_dropped plain_decimal new_year_2025 sample_world
           [PyRef 0%nat] [PyRef 1%nat] (PyRef 4%nat)).
  apply (malformed_date plain_decimal (heap sample_world) 4%nat BAD_DATE
           "20/12/2025").
  - vm_compute; reflexivity.
  - vm_compute; reflexivity.
  - reflexivity.
Defined.

Lemma filter_alerts_complete_witness :
  heap sample_world !! 0%nat = Some TSLA
  /\ exists out w',
    filter_alerts plain_decimal (always new_year_2025)
      [PyRef 1%nat; PyRef 0%nat] sample_world = (inr out, w')
    /\ (PyRef 0%nat ∈ out <->
        PyRef 0%nat ∈ [PyRef 1%nat; PyRef 0%nat]
        /\ exists expiry avg_price premium volume open_interest,
             expiry_of TSLA = Some expiry
             /\ numbers_of plain_decimal TSLA
                = Some (avg_price, premium, volume, open_interest)
             /\ MIN_DAYS_TO_EXPIRY <= sub_days expiry new_year_2025
             /\ fge_Z avg_price MIN_AVERAGE_PRICE = true
             /\ fge_Z premium MIN_PREMIUM = true
             /\ fgt_Z open_interest 0 = true
             /\ fge (fdiv volume open_interest) VOLUME_MULTIPLIER = true).
Proof.
  split; [vm_compute; reflexivity|].
  apply (filter_alerts_complete plain_decimal new_year_2025 sample_world
           [PyRef 1%nat; PyRef 0%nat] 0%nat TSLA).
  vm_compute; reflexivity.
Defined.

Lemma unselected_alert_removable_witness :
  exists w2,
    filter_alerts plain_decimal (always new_year_2025)
      ([PyRef 0%nat] ++ [PyStr "noise"]) sample_world
    = (inr [PyRef 0%nat], w2)
    /\ heap w2
       = heap (snd (filter_alerts plain_decimal (always new_year_2025)
                      ([PyRef 0%nat] ++ PyRef 1%nat :: [PyStr "noise"])
                      sample_world)).
Proof.
  apply (unselected_alert_removable plain_decimal new_year_2025 sample_world
           [PyRef 0%nat] [PyStr "noise"] (PyRef 1%nat) [PyRef 0%nat]).
  - vm_compute; reflexivity.
  - intros [H|H]%elem_of_cons; [discriminate | by apply elem_of_nil in H].
Defined.

Lemma incomplete_record_rejected_witness :
  exists out w',
    filter_alerts plain_decimal (always new_year_2025) [PyRef 0%nat]
      (mkworld (<[0%nat := delete "volume"%string TSLA]> ∅) 0 0) = (inr out, w')
    /\ (PyRef 0%nat ∉ out).
Proof.
  apply (incomplete_record_rejected plain_decimal (always new_year_2025)
           (mkworld (<[0%nat := delete "volume"%string TSLA]> ∅) 0 0)
           [PyRef 0%nat] 0%nat (delete "volume"%string TSLA) "volume"%string).
  - vm_compute; reflexivity.
  - repeat constructor.
  - vm_compute; reflexivity.
Defined.

Lemma missing_open_interest_counts_as_one_witness :
  exists out w',
    filter_alerts plain_decimal (always new_year_2025) [PyRef 0%nat]
      (mkworld {[ 0%nat := delete "open_interest"%string TSLA ]} 0 0)
    = (inr out, w')
    /\ (PyRef 0%nat ∈ out ->
        fge (S754_finite false 8796093022208000 (-44)) VOLUME_MULTIPLIER = true
        /\ exists d', heap w' !! 0%nat = Some d'
             /\ d' !! "volume_ratio"
                = Some (PyFloat (round2 (S754_finite false 8796093022208000 (-44))))).
Proof.
  apply (missing_open_interest_counts_as_one plain_decimal
           (always new_year_2025)
           (mkworld {[ 0%nat := delete "open_interest"%string TSLA ]} 0 0)
           [PyRef 0%nat] 0%nat (delete "open_interest"%string TSLA)
           (PyInt 500) (S754_finite false 8796093022208000 (-44))).
  - vm_compute; reflexivity.
  - vm_compute; reflexivity.
  - vm_compute; reflexivity.
  - vm_compute; reflexivity.
  - vm_compute; reflexivity.
Defined.

Lemma days_to_expiry_floor_witness :
  sub_days (mkdatetime 2025 1 31 0 0 0 0) new_year_2025
  = toordinal (mkdatetime 2025 1 31 0 0 0 0) - toordinal new_year_2025
    - (if time_of_day new_year_2025 =? 0 then 0 else 1).
Proof.
  apply (days_to_expiry_floor "2025-01-31" (mkdatetime 2025 1 31 0 0 0 0)
           new_year_2025).
  - vm_compute; reflexivity.
  - unfold clock_time; simpl; lia.
Defined.

Lemma thirty_calendar_days_rejected_witness :
  exists out w',
    filter_alerts plain_decimal (always (mkdatetime 2025 11 20 9 30 0 0))
      [PyRef 0%nat] sample_world = (inr out, w')
    /\ (PyRef 0%nat ∉ out).
Proof.
  apply (thirty_calendar_days_rejected plain_decimal
           (always (mkdatetime 2025 11 20 9 30 0 0)) sample_world
           [PyRef 0%nat] 0%nat TSLA "2025-12-20" (mkdatetime 2025 12 20 0 0 0 0)).
  - vm_compute; reflexivity.
  - vm_compute; reflexivity.
  - vm_compute; reflexivity.
  - intros n. unfold always, clock_time. simpl.
    split; [lia|]. split; [by vm_compute | by vm_compute].
Defined.

Lemma simulated_entry_floor_witness :
  exists entry pnl w',
    simulated_fill plain_decimal lowest_draw (PyRef 0%nat) sample_world
    = (inr (entry, pnl), w')
    /\ entry = fmul (of_decimal false 512 (-2))
                 (lowest_draw (draws sample_world) (of_decimal false 95 (-2))
                    (of_decimal false 105 (-2)))
    /\ fle (of_decimal false 475 (-2)) entry = true.
Proof.
  apply (simulated_entry_floor plain_decimal lowest_draw new_year_2025
           sample_world 0%nat TSLA
           (sub_days (mkdatetime 2025 12 20 0 0 0 0) new_year_2025)
           (NFloat (of_decimal false 25 (-1)))
           (PyFloat (of_decimal false 512 (-2))) (of_decimal false 512 (-2))).
  - vm_compute; reflexivity.
  - vm_compute; reflexivity.
  - vm_compute; reflexivity.
  - reflexivity.
  - vm_compute; reflexivity.
  - vm_compute; reflexivity.
  - vm_compute; reflexivity.
  - vm_compute; reflexivity.
Defined.

Lemma kept_alert_simulated_witness :
  exists d,
    heap (snd (filter_alerts plain_decimal (always new_year_2025)
                 [PyRef 0%nat] sample_world)) !! 0%nat = Some d
    /\ (d !! "ticker" = None ->
        fst (simulate_and_print plain_decimal lowest_draw encodes_all true
               (PyRef 0%nat)
               (mkconsole
                  (snd (filter_alerts plain_decimal (always new_year_2025)
                          [PyRef 0%nat] sample_world)) []))
        = inl KeyError)
    /\ (forall ticker side strike,
          d !! "ticker" = Some ticker -> d !! "side" = Some side ->
          d !! "strike" = Some strike ->
          exists p w'',
            simulate_trade_execution plain_decimal lowest_draw true (PyRef 0%nat)
              (snd (filter_alerts plain_decimal (always new_year_2025)
                      [PyRef 0%nat] sample_world))
            = (inr p, w'')
            /\ match p with
               | SimulatedTrade t s k e _ _ =>
                   true = true /\ t = ticker /\ s = side /\ k = strike
                   /\ d !! "expiration" = Some e
               | LiveTrade t => true = false /\ t = ticker
               end
            /\ simulate_and_print plain_decimal lowest_draw encodes_all true
                 (PyRef 0%nat)
                 (mkconsole
                    (snd (filter_alerts plain_decimal (always new_year_2025)
                            [PyRef 0%nat] sample_world)) [])
               = if encodes_all (Printed p)
                 then (inr tt, mkconsole w'' ([] ++ [Printed p]))
                 else (inl UnicodeEncodeError, mkconsole w'' [])).
Proof.
  apply (kept_alert_simulated plain_decimal (always new_year_2025) lowest_draw
           encodes_all true sample_world _ [PyRef 0%nat] [PyRef 0%nat] 0%nat []).
  - vm_compute; reflexivity.
  - repeat constructor.
Defined.

Lemma cycle_completes_witness :
  exists c' body,
    cycle plain_decimal (always new_year_2025) lowest_draw encodes_all true
      (RequestReturns (mkresponse 200 (Some (PyRef 2%nat))))
      (mkconsole chains_world []) = (inr tt, c')
    /\ output c' = [] ++ body ++ [Slept 60]
    /\ ((exists hh mm ss, body = [NoAlerts hh mm ss])
        \/ (exists n lines, body = Found (S n) :: lines
                            /\ trade_lines lines (S n)))
    /\ displayable (heap (the_world c'))
    /\ chains_iterable (heap (the_world c')).
Proof.
  apply (cycle_completes plain_decimal (always new_year_2025) lowest_draw
           encodes_all true
           (RequestReturns (mkresponse 200 (Some (PyRef 2%nat))))
           (mkconsole chains_world [])).
  - exact displayable_chains_world.
  - exact chains_iterable_chains_world.
  - reflexivity.
Defined.

Lemma main_keeps_running_witness :
  exists c' printed,
    main plain_decimal (always new_year_2025) lowest_draw encodes_all true
      [RequestReturns (mkresponse 200 (Some (PyRef 2%nat))); RequestRaises;
       RequestReturns (mkresponse 500 None)]
      (mkconsole chains_world []) = (inr tt, c')
    /\ output c' = Starting :: Mode true :: printed
    /\ sleeps printed = 3%nat.
Proof.
  apply (main_keeps_running plain_decimal (always new_year_2025) lowest_draw
           encodes_all true
           [RequestReturns (mkresponse 200 (Some (PyRef 2%nat))); RequestRaises;
            RequestReturns (mkresponse 500 None)] chains_world).
  - exact displayable_chains_world.
  - exact chains_iterable_chains_world.
  - reflexivity.
Defined.

Lemma scalar_chains_stop_main_witness :
  main_loop plain_decimal (always new_year_2025) lowest_draw encodes_all true
    (RequestReturns (mkresponse 200 (Some (PyRef 0%nat))) :: [RequestRaises])
    (mkconsole (mkworld {[ 0%nat := {[ "chains"%string := PyNone ]} ]} 0 0) [])
  = (inl TypeError,
     mkconsole (mkworld {[ 0%nat := {[ "chains"%string := PyNone ]} ]} 0 0) []).
Proof.
  apply (scalar_chains_stop_main plain_decimal (always new_year_2025) lowest_draw
           encodes_all true
           (mkconsole (mkworld {[ 0%nat := {[ "chains"%string := PyNone ]} ]} 0 0) [])
           0%nat {[ "chains"%string := PyNone ]} PyNone [RequestRaises]).
  - vm_compute; reflexivity.
  - vm_compute; reflexivity.
  - left; reflexivity.
Defined.


Lemma unencodable_trade_stops_main_witness :
  exists c',
    main_loop plain_decimal (always new_year_2025) lowest_draw encodes_no_trade
      true
      (RequestReturns (mkresponse 200 (Some (PyList [PyRef 0%nat]))) :: [])
      (mkconsole sample_world [])
    = (inl UnicodeEncodeError, c')
    /\ sleeps (output c') = sleeps [].
Proof.
  apply (unencodable_trade_stops_main plain_decimal (always new_year_2025)
           lowest_draw encodes_no_trade true (mkconsole sample_world [])
           [PyRef 0%nat] [PyRef 0%nat]
           (snd (filter_alerts plain_decimal (always new_year_2025) [PyRef 0%nat]
                   sample_world))
           0%nat
           (annotate (sub_days (mkdatetime 2025 12 20 0 0 0 0) new_year_2025)
              (NFloat (of_decimal false 25 (-1))) TSLA)
           (PyStr "TSLA") (PyStr "CALL") (PyInt 250) (PyStr "2025-12-20")
           (PyInt 210000)
           (PyInt (sub_days (mkdatetime 2025 12 20 0 0 0 0) new_year_2025))
           (PyFloat (of_decimal false 25 (-1))) []).
  - unfold sample_world. simpl.
    repeat (apply displayable_insert;
            [intros _; repeat split; apply (bool_decide_unpack _); by vm_compute|]).
    apply displayable_empty.
  - vm_compute; reflexivity.
  - repeat constructor.
  - vm_compute; reflexivity.
  - vm_compute; reflexivity.
  - vm_compute; reflexivity.
  - vm_compute; reflexivity.
  - vm_compute; reflexivity.
  - vm_compute; reflexivity.
  - vm_compute; reflexivity.
  - vm_compute; reflexivity.
  - reflexivity.
Defined.

Lemma string_chains_no_trades_witness :
  let c := mkconsole
             (mkworld {[ 0%nat := {[ "chains"%string := PyStr "none" ]} ]} 0 0) [] in
  let w := the_world c in
  let now := always new_year_2025 (ticks w) in
  cycle plain_decimal (always new_year_2025) lowest_draw encodes_all true
    (RequestReturns (mkresponse 200 (Some (PyRef 0%nat)))) c
  = (inr tt,
     mkconsole (mkworld (heap w) (S (ticks w)) (draws w))
       (output c ++ [NoAlerts (hour now) (minute now) (second now); Slept 60])).
Proof.
  intros c.
  apply (string_chains_no_trades plain_decimal (always new_year_2025) lowest_draw
           encodes_all true c 0%nat {[ "chains"%string := PyStr "none" ]}
           (PyStr "none")).
  - vm_compute; reflexivity.
  - vm_compute; reflexivity.
  - left. exists "none"%string. reflexivity.
Defined.
